(** * bybit-autobot: the webhook-to-order pipeline of [main.py]

    A shallow embedding of the trading webhook: signal normalisation,
    duplicate-signal suppression, balance-proportional order sizing in
    binary64 arithmetic, request signing, and the handler that sequences
    them.  Definitions follow [main.py]; theorems are stated about them. *)

From Stdlib Require Import ZArith Lia Bool Ascii.
From Stdlib Require Import Floats.
From stdpp Require Import base gmap strings sorting pretty.

Local Open Scope Z_scope.

(** ** Python strings

    [str] values are modelled as [string]; the model is faithful on ASCII
    text (code points below 128), which is what the alerts, the identifiers
    of the weight table and the request parameters consist of. *)

Module PyStr.

Definition is_lower (c : ascii) : bool :=
  let n := N_of_ascii c in ((97 <=? n) && (n <=? 122))%N.

Definition is_upper (c : ascii) : bool :=
  let n := N_of_ascii c in ((65 <=? n) && (n <=? 90))%N.

Definition upper_char (c : ascii) : ascii :=
  if is_lower c then ascii_of_N (N_of_ascii c - 32) else c.

Definition lower_char (c : ascii) : ascii :=
  if is_upper c then ascii_of_N (N_of_ascii c + 32) else c.

Fixpoint map (f : ascii → ascii) (s : string) : string :=
  match s with
  | EmptyString => EmptyString
  | String c s' => String (f c) (map f s')
  end.

(** [s.upper()] and [s.lower()]. *)
Definition upper : string → string := map upper_char.
Definition lower : string → string := map lower_char.

(** [s.startswith(p)]. *)
Fixpoint startswith (p s : string) : bool :=
  match p, s with
  | EmptyString, _ => true
  | String a p', String b s' => if decide (a = b) then startswith p' s' else false
  | String _ _, EmptyString => false
  end.

(** [sub in s]. *)
Fixpoint contains (sub s : string) : bool :=
  startswith sub s ||
  match s with
  | EmptyString => false
  | String _ s' => contains sub s'
  end.

Fixpoint drop (n : nat) (s : string) : string :=
  match n, s with
  | S n', String _ s' => drop n' s'
  | _, _ => s
  end.

(** [s.partition(sep)] when [sep] occurs in [s]: the text before the
    first occurrence and the text after it. *)
Fixpoint partition (sep s : string) : option (string * string) :=
  if startswith sep s then Some (EmptyString, drop (String.length sep) s)
  else match s with
       | EmptyString => None
       | String c s' =>
           match partition sep s' with
           | Some (pre, post) => Some (String c pre, post)
           | None => None
           end
       end.

(** [s.split(sep)] for a non-empty [sep]: cut at the occurrences of
    [sep] found scanning from the left.  Each cut consumes at least one
    character, so [String.length s] rounds always suffice. *)
Fixpoint split_go (fuel : nat) (sep s : string) : list string :=
  match fuel with
  | O => [s]
  | S fuel' =>
      match partition sep s with
      | None => [s]
      | Some (pre, post) => pre :: split_go fuel' sep post
      end
  end.

Definition split (sep s : string) : list string :=
  split_go (String.length s) sep s.

(** [l[-1]] on a list of strings known to be non-empty. *)
Definition last_seg (l : list string) : string := List.last l EmptyString.

(** Whitespace as [str.strip()] sees it on ASCII: TAB, LF, VT, FF, CR,
    the separators FS, GS, RS, US, and the space. *)
Definition is_space (c : ascii) : bool :=
  let n := N_of_ascii c in
  (((9 <=? n) && (n <=? 13)) || ((28 <=? n) && (n <=? 31)) || (n =? 32))%N.

Fixpoint lstrip (s : string) : string :=
  match s with
  | String c s' => if is_space c then lstrip s' else s
  | EmptyString => EmptyString
  end.

Fixpoint rstrip (s : string) : string :=
  match s with
  | String c s' =>
      match rstrip s' with
      | EmptyString => if is_space c then EmptyString else String c EmptyString
      | r => String c r
      end
  | EmptyString => EmptyString
  end.

(** [s.strip()]. *)
Definition strip (s : string) : string := rstrip (lstrip s).

(** Truthiness: [not s] holds of the empty string only. *)
Definition is_empty (s : string) : bool :=
  match s with EmptyString => true | _ => false end.

End PyStr.

(** ** Python floats: IEEE 754 binary64

    A Python [float] is a binary64 number.  Every finite binary64 number is
    a whole multiple of [2^-1074], the least subnormal, so exact
    intermediate results are kept here as fractions [n / d] counted in that
    unit, and each arithmetic operation is, as IEEE 754 defines it, the
    exact result rounded to the nearest representable number, ties to the
    even significand. *)

Module Binary64.

Inductive float :=
| Nan
| Inf (neg : bool)
| Zero (neg : bool)
| Fin (neg : bool) (m : positive) (e : Z).  (* (-1)^neg * m * 2^e *)

(** Nearest integer to [n / d], ties to even ([0 <= n], [0 < d]). *)
Definition rne_div (n d : Z) : Z :=
  let q := n / d in
  match 2 * (n mod d) ?= d with
  | Lt => q
  | Eq => if Z.even q then q else q + 1
  | Gt => q + 1
  end.

(** Rounding of [n / d] units to 53 significant bits: the significand
    [m] and the shift [s] of the result [m * 2^s] units.  Below [2^53]
    units the spacing is one unit (subnormals and the first binade). *)
Definition round_core (n d : Z) : Z * Z :=
  let s := Z.max (Z.log2 (n / d) - 52) 0 in
  (rne_div n (d * 2 ^ s), s).

(** Packing: a significand that rounded up to [2^53] is renormalised,
    a zero significand is an underflow to zero, and an exponent above
    [971] is an overflow to infinity. *)
Definition renorm (ms : Z * Z) : Z * Z :=
  let '(m, s) := ms in
  if m =? 2 ^ 53 then (2 ^ 52, s + 1) else (m, s).

Definition pack (neg : bool) (ms : Z * Z) : float :=
  let '(m, s) := renorm ms in
  match m with
  | Zpos p => if s <=? 2045 then Fin neg p (s - 1074) else Inf neg
  | _ => Zero neg
  end.

(** The number of units a significand and shift stand for. *)
Definition units (ms : Z * Z) : Z := ms.1 * 2 ^ ms.2.

(** What [round_core] delivers: a significand of at most 53 bits, and of
    exactly 53 bits (or [2^53] itself) above the first binade. *)
Definition in_format (ms : Z * Z) : Prop :=
  0 ≤ ms.2 ∧ 0 ≤ ms.1 ≤ 2 ^ 53 ∧ (0 < ms.2 → 2 ^ 52 ≤ ms.1).

Definition RN64 (neg : bool) (n d : Z) : float := pack neg (round_core n d).

(** The value [m * 2^e] as a fraction of units. *)
Definition ratio (m : positive) (e : Z) : Z * Z :=
  (Zpos m * 2 ^ Z.max (e + 1074) 0, 2 ^ Z.max (- (e + 1074)) 0).

(** [x * y]. *)
Definition fmul (x y : float) : float :=
  match x, y with
  | Nan, _ | _, Nan => Nan
  | Inf _, Zero _ | Zero _, Inf _ => Nan
  | Inf sx, Inf sy | Inf sx, Fin sy _ _ | Fin sx _ _, Inf sy => Inf (xorb sx sy)
  | Zero sx, Zero sy | Zero sx, Fin sy _ _ | Fin sx _ _, Zero sy =>
      Zero (xorb sx sy)
  | Fin sx mx ex, Fin sy my ey =>
      let '(nx, dx) := ratio mx ex in
      let '(ny, dy) := ratio my ey in
      RN64 (xorb sx sy) (nx * ny) (dx * dy * 2 ^ 1074)
  end.

(** [x / y]; [None] is Python's [ZeroDivisionError], raised for every
    zero divisor. *)
Definition fdiv (x y : float) : option float :=
  match x, y with
  | _, Zero _ => None
  | Nan, _ | _, Nan => Some Nan
  | Inf _, Inf _ => Some Nan
  | Inf sx, Fin sy _ _ => Some (Inf (xorb sx sy))
  | Zero sx, Inf sy | Zero sx, Fin sy _ _ | Fin sx _ _, Inf sy =>
      Some (Zero (xorb sx sy))
  | Fin sx mx ex, Fin sy my ey =>
      let '(nx, dx) := ratio mx ex in
      let '(ny, dy) := ratio my ey in
      Some (RN64 (xorb sx sy) (nx * dy * 2 ^ 1074) (dx * ny))
  end.

Definition signed (neg : bool) (n : Z) : Z := if neg then - n else n.

(** [x + y]. *)
Definition fadd (x y : float) : float :=
  match x, y with
  | Nan, _ | _, Nan => Nan
  | Inf sx, Inf sy => if eqb sx sy then Inf sx else Nan
  | Inf sx, _ => Inf sx
  | _, Inf sy => Inf sy
  | Zero sx, Zero sy => Zero (sx && sy)
  | Zero _, Fin _ _ _ => y
  | Fin _ _ _, Zero _ => x
  | Fin sx mx ex, Fin sy my ey =>
      let '(nx, dx) := ratio mx ex in
      let '(ny, dy) := ratio my ey in
      let n := signed sx (nx * dy) + signed sy (ny * dx) in
      if n =? 0 then Zero false else RN64 (n <? 0) (Z.abs n) (dx * dy)
  end.

(** A decimal literal [p / q] ([0.70] is [7/10]), or the string a
    decimal rounding prints, read back as the nearest binary64 number. *)
Definition of_ratio (neg : bool) (p q : positive) : float :=
  RN64 neg (Zpos p * 2 ^ 1074) (Zpos q).

(** An [int] operand of a float operation. *)
Definition of_Z (z : Z) : float :=
  match z with
  | Z0 => Zero false
  | Zpos p => of_ratio false p 1
  | Zneg p => of_ratio true p 1
  end.

(** [round(x, 3)]: infinities and NaN round to themselves; a finite [x]
    is rounded, on its exact value and ties to even, to a whole number
    of thousandths, which is read back as the nearest binary64 number;
    the sign of [x] is kept. *)
Definition round3 (x : float) : float :=
  match x with
  | Fin neg m e =>
      let '(n, d) := ratio m e in
      RN64 neg (rne_div (n * 1000) (d * 2 ^ 1074) * 2 ^ 1074) 1000
  | _ => x
  end.

(** Ordering of two numbers; [None] when one of them is NaN. *)
Definition fcompare (x y : float) : option comparison :=
  match x, y with
  | Nan, _ | _, Nan => None
  | Inf sx, Inf sy => Some (if sx then if sy then Eq else Lt
                            else if sy then Gt else Eq)
  | Inf sx, _ => Some (if sx then Lt else Gt)
  | _, Inf sy => Some (if sy then Gt else Lt)
  | Zero _, Zero _ => Some Eq
  | Zero _, Fin sy _ _ => Some (if sy then Gt else Lt)
  | Fin sx _ _, Zero _ => Some (if sx then Lt else Gt)
  | Fin sx mx ex, Fin sy my ey =>
      let '(nx, dx) := ratio mx ex in
      let '(ny, dy) := ratio my ey in
      Some (signed sx (nx * dy) ?= signed sy (ny * dx))
  end.

(** [x <= y], [x == y], [x > 0]. *)
Definition fle (x y : float) : bool :=
  match fcompare x y with Some Lt | Some Eq => true | _ => false end.

Definition feq (x y : float) : bool :=
  match fcompare x y with Some Eq => true | _ => false end.

Definition is_zero (x : float) : bool :=
  match x with Zero _ => true | _ => false end.

Definition is_nan (x : float) : bool :=
  match x with Nan => true | _ => false end.

Definition positive_number (x : float) : bool :=
  match x with Inf false | Fin false _ _ => true | _ => false end.

Definition nonneg_finite (x : float) : bool :=
  match x with Zero _ | Fin false _ _ => true | _ => false end.

Definition finite (x : float) : bool :=
  match x with Zero _ | Fin _ _ _ => true | _ => false end.

(** Zero, a positive number or [+inf]. *)
Definition nonneg (x : float) : bool :=
  match x with Zero _ | Fin false _ _ | Inf false => true | _ => false end.

Definition signbit (x : float) : bool :=
  match x with Inf s | Zero s | Fin s _ _ => s | Nan => false end.

(** The representable numbers: a significand below [2^53] and an
    exponent from [-1074] to [971]. *)
Definition is_binary64 (x : float) : bool :=
  match x with
  | Fin _ m e => (Zpos m <? 2 ^ 53) && (-1074 <=? e) && (e <=? 971)
  | _ => true
  end.

(** [int(x)]: truncation toward zero; [None] for the values on which
    Python raises. *)
Definition to_int (x : float) : option Z :=
  match x with
  | Nan | Inf _ => None
  | Zero _ => Some 0
  | Fin neg m e =>
      let '(n, d) := ratio m e in
      Some (signed neg (n / (d * 2 ^ 1074)))
  end.

Definition to_spec (x : float) : spec_float :=
  match x with
  | Nan => S754_nan
  | Inf s => S754_infinity s
  | Zero s => S754_zero s
  | Fin s m e => S754_finite s m e
  end.

Global Arguments ratio : simpl never.
Global Arguments RN64 : simpl never.
Global Arguments rne_div : simpl never.

End Binary64.

Import Binary64.

(** ** Configuration constants of [main.py] *)

Definition SYMBOL : string := "SOLUSDT.P".
Definition LEVERAGE : Z := 3.
Definition SLIPPAGE : float :=
  Eval vm_compute in of_ratio false 35 10000.   (* 0.0035 *)

(** The float literals of the weight table. *)
Definition lit_0_70 : float := Eval vm_compute in of_ratio false 70 100.
Definition lit_0_40 : float := Eval vm_compute in of_ratio false 40 100.
Definition lit_0_30 : float := Eval vm_compute in of_ratio false 30 100.
Definition lit_0_20 : float := Eval vm_compute in of_ratio false 20 100.
Definition lit_0_10 : float := Eval vm_compute in of_ratio false 10 100.

(** The weight table, a [dict] from order identifier to a fraction of the
    balance. *)
Definition weight_map : gmap string float :=
  list_to_map
    [ ("Long 1",  lit_0_70);
      ("Long 2",  lit_0_10);
      ("Long 3",  lit_0_10);
      ("Long 4",  lit_0_10);
      ("Short 1", lit_0_30);
      ("Short 2", lit_0_40);
      ("Short 3", lit_0_20);
      ("Short 4", lit_0_10) ].

(** [weight_map.get(order_id, 0)]: the default is the [int] 0, which the
    float product that follows converts to [0.0]. *)
Definition weight_of (order_id : string) : float :=
  default (of_Z 0) (weight_map !! order_id).

(** ** Position sizing: [calculate_qty] *)

(** The body of [calculate_qty] once the weight is looked up. *)
Definition qty_of_weight (weight balance price : float) : option float :=
  let usdt_amount := fmul (fmul balance weight) (of_Z LEVERAGE) in
  match fdiv usdt_amount (fmul price (fadd (of_Z 1) SLIPPAGE)) with
  | Some adjusted_qty => Some (round3 adjusted_qty)
  | None => None
  end.

Definition calculate_qty (order_id : string) (balance price : float)
  : option float :=
  let weight := weight_of order_id in
  qty_of_weight weight balance price.

(** ** Signal normalisation (lines 133-150 of [webhook]) *)

(** The JSON object of an alert whose fields are strings; a missing key
    reads as [None], and [data.get(key, "")] then yields the empty
    string.  Bodies of any other shape are the subject of [webhook_json]
    further down. *)
Record alert := {
  alert_signal : option string;
  alert_order_action : option string;
  alert_order_id : option string
}.

Definition get_or_empty (field : option string) : string := default "" field.

(** The identifier the handler works with: derived from an upper-cased
    signal that mentions STEP and a direction, else the explicit field. *)
Definition resolve_order_id (signal raw_order_id : string) : string :=
  if PyStr.contains "STEP" signal then
    let step_num := PyStr.strip (PyStr.last_seg (PyStr.split "STEP" signal)) in
    if PyStr.contains "LONG" signal then "Long " +:+ step_num
    else if PyStr.contains "SHORT" signal then "Short " +:+ step_num
    else raw_order_id
  else raw_order_id.

(** Lines 133-147: the fields of the alert, normalised. *)
Definition order_id_of (data : alert) : string :=
  let signal := PyStr.upper (get_or_empty (alert_signal data)) in
  let raw_order_id := get_or_empty (alert_order_id data) in
  resolve_order_id signal raw_order_id.

Definition order_action_of (data : alert) : string :=
  PyStr.lower (get_or_empty (alert_order_action data)).

(** [side = "buy" if order_action == "buy" else "sell"]. *)
Definition side_of (order_action : string) : string :=
  if decide (order_action = "buy") then "buy" else "sell".

(** ** Duplicate suppression (lines 153-156 of [webhook]) *)

(** [f"{order_id}_{int(time.time())}"], given the truncated clock. *)
Definition candle_key (order_id : string) (now_seconds : Z) : string :=
  order_id +:+ "_" +:+ pretty now_seconds.

(** The membership test and the insertion: [true] reports a duplicate and
    leaves the set alone, [false] records the key. *)
Definition check_and_mark (order_id : string) (now_seconds : Z)
    (executed_signals : gset string) : bool * gset string :=
  let key := candle_key order_id now_seconds in
  if decide (key ∈ executed_signals) then (true, executed_signals)
  else (false, {[key]} ∪ executed_signals).

(** ** HMAC-SHA256

    [hmac] and [hashlib] are library code; they are written out here
    (FIPS 180-4 and RFC 2104, 32-bit words as integers reduced modulo
    [2^32]) so that signatures can be evaluated. *)

Module Sha256.

Definition add32 (x y : Z) : Z := (x + y) mod 2 ^ 32.

Definition rotr (n x : Z) : Z :=
  Z.lor (Z.shiftr x n) (Z.shiftl x (32 - n) mod 2 ^ 32).

Definition not32 (x : Z) : Z := Z.lxor x 0xffffffff.

Definition Ch (x y z : Z) : Z := Z.lxor (Z.land x y) (Z.land (not32 x) z).
Definition Maj (x y z : Z) : Z :=
  Z.lxor (Z.lxor (Z.land x y) (Z.land x z)) (Z.land y z).
Definition Sigma0 (x : Z) : Z := Z.lxor (Z.lxor (rotr 2 x) (rotr 13 x)) (rotr 22 x).
Definition Sigma1 (x : Z) : Z := Z.lxor (Z.lxor (rotr 6 x) (rotr 11 x)) (rotr 25 x).
Definition sigma0 (x : Z) : Z := Z.lxor (Z.lxor (rotr 7 x) (rotr 18 x)) (Z.shiftr x 3).
Definition sigma1 (x : Z) : Z := Z.lxor (Z.lxor (rotr 17 x) (rotr 19 x)) (Z.shiftr x 10).

Definition is_prime (n : Z) : bool :=
  forallb (λ d, negb (n mod d =? 0)) (seqZ 2 (n - 2)).

(** The first 64 primes: those up to 311. *)
Definition primes : list Z := filter (λ n, is_prime n = true) (seqZ 2 310).

(** The integer [k]-th root of [n], found bit by bit from bit [bits - 1]
    down. *)
Fixpoint iroot (k : Z) (bits : nat) (n acc : Z) : Z :=
  match bits with
  | O => acc
  | S bits' =>
      let c := acc + 2 ^ Z.of_nat bits' in
      iroot k bits' n (if c ^ k <=? n then c else acc)
  end.

(** The first 32 bits of the fractional part of the [k]-th root of [p]. *)
Definition frac_root (k p : Z) : Z := iroot k 40 (p * 2 ^ (32 * k)) 0 mod 2 ^ 32.

(** Round constants: from the cube roots of the first 64 primes. *)
Definition K : list Z := Eval vm_compute in frac_root 3 <$> primes.

(** Initial hash value: from the square roots of the first 8 primes. *)
Definition H0 : list Z := Eval vm_compute in frac_root 2 <$> take 8 primes.

(** Big-endian bytes of [x], [n] of them. *)
Fixpoint be_bytes (n : nat) (x : Z) : list Z :=
  match n with
  | O => []
  | S n' => (Z.shiftr x (8 * Z.of_nat n')) mod 256 :: be_bytes n' x
  end.

Definition be_word (bs : list Z) : Z := foldl (λ acc b, acc * 256 + b) 0 bs.

Definition pad (msg : list Z) : list Z :=
  let len := Z.of_nat (length msg) in
  msg ++ [0x80] ++ replicate (Z.to_nat ((55 - len) mod 64)) 0
      ++ be_bytes 8 (8 * len).

Fixpoint chunks (fuel : nat) (size : nat) (l : list Z) : list (list Z) :=
  match fuel, l with
  | S fuel', _ :: _ => take size l :: chunks fuel' size (drop size l)
  | _, _ => []
  end.

Definition word_at (w : list Z) (i : nat) : Z := default 0 (w !! i).

(** The message schedule, extended one word at a time up to 64 words. *)
Fixpoint schedule (n : nat) (w : list Z) : list Z :=
  match n with
  | O => w
  | S n' =>
      let t := length w in
      schedule n'
        (w ++ [add32 (add32 (sigma1 (word_at w (t - 2))) (word_at w (t - 7)))
                     (add32 (sigma0 (word_at w (t - 15))) (word_at w (t - 16)))])
  end.

Definition round (st : list Z) (kw : Z * Z) : list Z :=
  match st with
  | [a; b; c; d; e; f; g; h] =>
      let t1 := add32 (add32 (add32 h (Sigma1 e)) (add32 (Ch e f g) kw.1)) kw.2 in
      let t2 := add32 (Sigma0 a) (Maj a b c) in
      [add32 t1 t2; a; b; c; add32 d t1; e; f; g]
  | _ => st
  end.

Definition compress (h : list Z) (block : list Z) : list Z :=
  let w := schedule 48 (be_word <$> chunks 16 4 block) in
  zip_with add32 h (foldl round h (zip K w)).

Definition digest (msg : list Z) : list Z :=
  let p := pad msg in
  mjoin (be_bytes 4 <$> foldl compress H0 (chunks (length p) 64 p)).

Definition xor_pad (c : Z) (key : list Z) : list Z :=
  (λ b, Z.lxor b c) <$> (key ++ replicate (64 - length key) 0).

(** HMAC (RFC 2104) over SHA-256, whose block is 64 bytes. *)
Definition hmac (key msg : list Z) : list Z :=
  let key := if decide (64 < length key)%nat then digest key else key in
  digest (xor_pad 0x5c key ++ digest (xor_pad 0x36 key ++ msg)).

Definition hex_digit (n : Z) : ascii :=
  ascii_of_N (Z.to_N (if n <? 10 then 48 + n else 87 + n)).

Fixpoint hex (bs : list Z) : string :=
  match bs with
  | [] => ""
  | b :: bs' => String (hex_digit (b / 16)) (String (hex_digit (b mod 16)) (hex bs'))
  end.

(** [s.encode()] on ASCII text. *)
Fixpoint encode (s : string) : list Z :=
  match s with
  | EmptyString => []
  | String c s' => Z.of_N (N_of_ascii c) :: encode s'
  end.

End Sha256.

(** [hmac.new(secret.encode(), query.encode(), hashlib.sha256).hexdigest()]. *)
Definition hmac_sha256_hexdigest (secret query : string) : string :=
  Sha256.hex (Sha256.hmac (Sha256.encode secret) (Sha256.encode query)).

(** ** Request signing: [generate_signature] *)

(** A [dict] of request parameters in insertion order. *)
Definition params := list (string * string).

(** Python's ordering of [(key, value)] tuples: by key, then by value. *)
Definition item_le (p q : string * string) : Prop :=
  (p.1 ≠ q.1 ∧ (p.1 ≤ q.1)%string) ∨ (p.1 = q.1 ∧ (p.2 ≤ q.2)%string).

Global Instance item_le_dec : RelDecision item_le.
Proof. intros p q. unfold item_le. apply _. Defined.

(** [sorted(params.items())].  The ordering is total and antisymmetric,
    so every sorting algorithm returns the same list. *)
Definition sorted_items (p : params) : params := merge_sort item_le p.

(** ["&".join([f"{k}={v}" for k, v in sorted_params])]. *)
Definition query_of (p : params) : string :=
  String.concat "&" ((λ kv, kv.1 +:+ "=" +:+ kv.2) <$> p).

(** [d[k] = v] on a [dict]: an existing key keeps its place, a new key
    goes last. *)
Fixpoint dict_set (k v : string) (d : params) : params :=
  match d with
  | [] => [(k, v)]
  | (k', v') :: d' => if decide (k' = k) then (k, v) :: d'
                      else (k', v') :: dict_set k v d'
  end.

(** [generate_signature(secret, params)]. *)
Definition generate_signature (secret : string) (p : params) : string :=
  let sorted_params := sorted_items p in
  let query := query_of sorted_params in
  hmac_sha256_hexdigest secret query.

(** ** The webhook handler

    One request is run against the process-wide set [executed_signals]
    and an environment that answers the outside world: the request body,
    the clock, the exchange.  The handler's calls are logged in order. *)

Definition BASE_URL : string := "https://api.bybit.com".

Inductive exn :=
| ValueError            (* int() of NaN *)
| OverflowError         (* int() of an infinity *)
| ZeroDivisionError
| RequestException      (* requests.post failed *)
| JSONDecodeError       (* response.json() on a body that is not JSON *)
| AttributeError        (* .get, .upper or .lower on a value without it *)
| TypeError.            (* an unhashable key of a dict lookup *)

Inductive json_body :=
| JError (msg : string)        (* {"error": msg} *)
| JStatus (msg : string)       (* {"status": msg} *)
| JRaw (text : string).        (* the exchange's own JSON *)

Record response := { status_code : Z; body : json_body }.

Inductive event :=
| GetWalletBalance
| GetCurrentPrice
| CalculateQty (order_id : string) (balance price : float)
| RequestsPost (url : string) (payload : params)
| SendTelegram (success : bool).

(** What the outside world answers during one request. *)
Record env := {
  get_json : option alert;              (* [None]: the body is not JSON *)
  time_time : float;                    (* the clock at line 153 *)
  get_wallet_balance : float;           (* 0 on any failure *)
  get_current_price : option float;     (* [None] on any failure *)
  order_time : float;                   (* the clock in [place_market_order] *)
  requests_post : params → option (option string)
    (* [None]: the POST raised; [Some j]: a response whose [.json()] is
       [j], or raises when [j] is [None] *)
}.

Record world := {
  executed_signals : gset string;
  calls : list event
}.

Inductive result (A : Type) :=
| Value (a : A)
| Return (r : response)
| Raise (e : exn).
Arguments Value {A} a.
Arguments Return {A} r.
Arguments Raise {A} e.

Definition M (A : Type) : Type := world → result A * world.

Global Instance M_ret : MRet M := λ A a w, (Value a, w).
Global Instance M_bind : MBind M := λ A B f m w,
  match m w with
  | (Value a, w') => f a w'
  | (Return r, w') => (Return r, w')
  | (Raise e, w') => (Raise e, w')
  end.

Definition call (e : event) : M unit :=
  λ w, (Value tt, {| executed_signals := executed_signals w;
                     calls := calls w ++ [e] |}).

Definition reply {A} (code : Z) (b : json_body) : M A :=
  λ w, (Return {| status_code := code; body := b |}, w).

Definition raise {A} (e : exn) : M A := λ w, (Raise e, w).

(** [try: m except Exception as e: h e]. *)
Definition try_except {A} (m : M A) (h : exn → M A) : M A :=
  λ w, match m w with
       | (Raise e, w') => h e w'
       | r => r
       end.

(** [int(x)]. *)
Definition int_of (x : float) : M Z :=
  match x with
  | Nan => raise ValueError
  | Inf _ => raise OverflowError
  | _ => mret (default 0 (to_int x))
  end.

(** Lines 153-156 on the shared set. *)
Definition dedup (order_id : string) (now_seconds : Z) : M bool :=
  λ w, let '(seen, s) := check_and_mark order_id now_seconds (executed_signals w) in
       (Value seen, {| executed_signals := s; calls := calls w |}).

Section Handler.

Variables API_KEY API_SECRET : string.
(** [str(qty)], the shortest decimal text that reads back as [qty]. *)
Variable float_str : float → string.
Variable ext : env.

(** The signed parameters of the order request. *)
Definition order_params (side symbol : string) (qty : float)
    (timestamp : string) : params :=
  let p := [ ("apiKey", API_KEY);
             ("symbol", symbol);
             ("side", PyStr.upper side);
             ("orderType", "Market");
             ("qty", float_str qty);
             ("timestamp", timestamp);
             ("timeInForce", "GoodTillCancel") ] in
  dict_set "sign" (generate_signature API_SECRET p) p.

Definition place_market_order (side symbol : string) (qty : float)
  : M (option string) :=
  let url := BASE_URL +:+ "/v5/order/create" in
  t ← int_of (fmul (order_time ext) (of_Z 1000));
  let timestamp := pretty t in
  let p := order_params side symbol qty timestamp in
  call (RequestsPost url p);;
  match requests_post ext p with
  | None => raise RequestException
  | Some response => mret response
  end.

(** Lines 171-183: the [try] block around the submission. *)
Definition submit (side : string) (qty : float) : M response :=
  try_except
    (response ← place_market_order side SYMBOL qty;
     call (SendTelegram true);;
     match response with
     | Some json => reply 200 (JRaw json)
     | None => raise JSONDecodeError
     end)
    (λ _, call (SendTelegram false);;
          reply 500 (JError "Order request failed")).

Definition webhook : M response :=
  match get_json ext with
  | None => reply 400 (JError "Invalid JSON")
  | Some data =>
      let order_action := order_action_of data in
      let order_id := order_id_of data in
      if PyStr.is_empty order_action || PyStr.is_empty order_id then
        reply 400 (JError "Invalid webhook data")
      else
        now_seconds ← int_of (time_time ext);
        seen ← dedup order_id now_seconds;
        if (seen : bool) then
          reply 200 (JStatus (order_id +:+ " skipped (duplicate second)"))
        else
          let side := side_of order_action in
          call GetWalletBalance;;
          let balance := get_wallet_balance ext in
          if is_zero balance then
            reply 500 (JError "Insufficient balance or failed to fetch")
          else
            call GetCurrentPrice;;
            match get_current_price ext with
            | None => reply 500 (JError "Price fetch failed")
            | Some price =>
                if is_zero price then reply 500 (JError "Price fetch failed")
                else
                  call (CalculateQty order_id balance price);;
                  match calculate_qty order_id balance price with
                  | None => raise ZeroDivisionError
                  | Some qty => submit side qty
                  end
            end
  end.

End Handler.

(** A fresh request log on the given set. *)
Definition world_of (s : gset string) : world :=
  {| executed_signals := s; calls := [] |}.

(** A sequence of requests served one after the other on the shared set:
    the calls each request made. *)
Fixpoint serve (API_KEY API_SECRET : string) (float_str : float → string)
    (requests : list env) (s : gset string) : list (list event) :=
  match requests with
  | [] => []
  | ext :: rest =>
      let '(_, w) := webhook API_KEY API_SECRET float_str ext (world_of s) in
      calls w :: serve API_KEY API_SECRET float_str rest (executed_signals w)
  end.

Definition is_post (e : event) : bool :=
  match e with RequestsPost _ _ => true | _ => false end.

(** The request is an alert for [order_id] read at second [now_seconds]. *)
Definition is_for (order_id : string) (now_seconds : Z) (ext : env) : bool :=
  match get_json ext, to_int (time_time ext) with
  | Some data, Some t =>
      bool_decide (order_id_of data = order_id) && bool_decide (t = now_seconds)
  | _, _ => false
  end.

(** How many of the served requests for one identifier and second posted
    an order. *)
Definition posted_for (key secret : string) (fstr : float → string)
    (id : string) (t : Z) (requests : list env) (s : gset string) : nat :=
  length (filter (λ p, is_for id t p.1 && existsb is_post p.2 = true)
            (zip requests (serve key secret fstr requests s))).

(** The world after further calls were logged. *)
Definition log (w : world) (evs : list event) : world :=
  {| executed_signals := executed_signals w; calls := calls w ++ evs |}.

(** The reply of the [except] branch. *)
Definition failed_order : response :=
  {| status_code := 500; body := JError "Order request failed" |}.

(** ** Sample requests, used to exercise the statements below *)

Definition sample_alert (signal action : string) : alert :=
  {| alert_signal := Some signal;
     alert_order_action := Some action;
     alert_order_id := None |}.

(** A request at clock 1700000000.5 with the given alert and exchange
    answers; the order POST is answered with an empty JSON object. *)
Definition sample_env (data : alert) (balance : float) (price : option float)
  : env :=
  {| get_json := Some data;
     time_time := of_ratio false 17000000005 10;
     get_wallet_balance := balance;
     get_current_price := price;
     order_time := of_ratio false 17000000007 10;
     requests_post := λ _, Some (Some "{}") |}.


(** A balance of 1000 and a quoted price of 100. *)
Definition funded : float := Eval vm_compute in of_Z 1000.
Definition quoted : float := Eval vm_compute in of_Z 100.

(** A stand-in for [str] on floats where a concrete one is needed. *)
Definition sample_str (x : float) : string := "0.0".

(** ** The order submission's outcomes, as a relation

    What lines 171-183 do with a side and a quantity: the reply, the POST
    made (none when the timestamp could not be taken) and the
    notifications sent, in order ([true] for the success message). *)
Inductive submitted (key secret : string) (fstr : float → string) (ext : env)
    (side : string) (qty : float)
  : response → list event → list bool → Prop :=
| sub_clock :
    to_int (fmul (order_time ext) (of_Z 1000)) = None →
    submitted key secret fstr ext side qty failed_order [] [false]
| sub_post_raised t :
    to_int (fmul (order_time ext) (of_Z 1000)) = Some t →
    requests_post ext (order_params key secret fstr side SYMBOL qty (pretty t))
      = None →
    submitted key secret fstr ext side qty failed_order
      [RequestsPost (BASE_URL +:+ "/v5/order/create")
         (order_params key secret fstr side SYMBOL qty (pretty t))]
      [false]
| sub_not_json t :
    to_int (fmul (order_time ext) (of_Z 1000)) = Some t →
    requests_post ext (order_params key secret fstr side SYMBOL qty (pretty t))
      = Some None →
    submitted key secret fstr ext side qty failed_order
      [RequestsPost (BASE_URL +:+ "/v5/order/create")
         (order_params key secret fstr side SYMBOL qty (pretty t))]
      [true; false]
| sub_ok t json :
    to_int (fmul (order_time ext) (of_Z 1000)) = Some t →
    requests_post ext (order_params key secret fstr side SYMBOL qty (pretty t))
      = Some (Some json) →
    submitted key secret fstr ext side qty
      {| status_code := 200; body := JRaw json |}
      [RequestsPost (BASE_URL +:+ "/v5/order/create")
         (order_params key secret fstr side SYMBOL qty (pretty t))]
      [true].

(** ** The handler's outcomes, as a relation

    The paths through [webhook], one rule per [return] (or uncaught
    [raise]) of the source, each with the conditions under which it is
    taken and the world it leaves. *)

(** The alert got past validation and the duplicate check: lines 126-156
    ran to the end and inserted the key. *)
Definition accepted (ext : env) (seen : gset string) (data : alert) (t : Z)
  : Prop :=
  get_json ext = Some data
  ∧ PyStr.is_empty (order_action_of data) = false
  ∧ PyStr.is_empty (order_id_of data) = false
  ∧ to_int (time_time ext) = Some t
  ∧ candle_key (order_id_of data) t ∉ seen.

(** The world after the key of an accepted alert was inserted and the
    given calls were made. *)
Definition marked (seen : gset string) (data : alert) (t : Z)
    (evs : list event) : world :=
  {| executed_signals := {[candle_key (order_id_of data) t]} ∪ seen;
     calls := evs |}.

Inductive outcome (key secret : string) (fstr : float → string) (ext : env)
    (seen : gset string) : result response → world → Prop :=
| out_invalid_json :
    get_json ext = None →
    outcome key secret fstr ext seen
      (Return {| status_code := 400; body := JError "Invalid JSON" |})
      (world_of seen)
| out_invalid_data data :
    get_json ext = Some data →
    PyStr.is_empty (order_action_of data)
      || PyStr.is_empty (order_id_of data) = true →
    outcome key secret fstr ext seen
      (Return {| status_code := 400; body := JError "Invalid webhook data" |})
      (world_of seen)
| out_clock data :
    get_json ext = Some data →
    PyStr.is_empty (order_action_of data)
      || PyStr.is_empty (order_id_of data) = false →
    to_int (time_time ext) = None →
    outcome key secret fstr ext seen
      (Raise (if is_nan (time_time ext) then ValueError else OverflowError))
      (world_of seen)
| out_duplicate data t :
    get_json ext = Some data →
    PyStr.is_empty (order_action_of data)
      || PyStr.is_empty (order_id_of data) = false →
    to_int (time_time ext) = Some t →
    candle_key (order_id_of data) t ∈ seen →
    outcome key secret fstr ext seen
      (Return {| status_code := 200;
                 body := JStatus (order_id_of data
                                  +:+ " skipped (duplicate second)") |})
      (world_of seen)
| out_no_balance data t :
    accepted ext seen data t →
    is_zero (get_wallet_balance ext) = true →
    outcome key secret fstr ext seen
      (Return {| status_code := 500;
                 body := JError "Insufficient balance or failed to fetch" |})
      (marked seen data t [GetWalletBalance])
| out_no_price data t :
    accepted ext seen data t →
    is_zero (get_wallet_balance ext) = false →
    (get_current_price ext = None
     ∨ ∃ price, get_current_price ext = Some price ∧ is_zero price = true) →
    outcome key secret fstr ext seen
      (Return {| status_code := 500; body := JError "Price fetch failed" |})
      (marked seen data t [GetWalletBalance; GetCurrentPrice])
| out_zero_division data t price :
    accepted ext seen data t →
    is_zero (get_wallet_balance ext) = false →
    get_current_price ext = Some price → is_zero price = false →
    calculate_qty (order_id_of data) (get_wallet_balance ext) price = None →
    outcome key secret fstr ext seen
      (Raise ZeroDivisionError)
      (marked seen data t
         [GetWalletBalance; GetCurrentPrice;
          CalculateQty (order_id_of data) (get_wallet_balance ext) price])
| out_order data t price qty reply notices posts :
    accepted ext seen data t →
    is_zero (get_wallet_balance ext) = false →
    get_current_price ext = Some price → is_zero price = false →
    calculate_qty (order_id_of data) (get_wallet_balance ext) price = Some qty →
    submitted key secret fstr ext (side_of (order_action_of data)) qty
      reply posts notices →
    outcome key secret fstr ext seen
      (Return reply)
      (marked seen data t
         ([GetWalletBalance; GetCurrentPrice;
           CalculateQty (order_id_of data) (get_wallet_balance ext) price]
          ++ posts ++ (SendTelegram <$> notices))).

(** ** Predicates on text and requests, used in the statements *)

(** The character occurs in the string. *)
Fixpoint has_char (c : ascii) (s : string) : bool :=
  match s with
  | EmptyString => false
  | String a s' => bool_decide (a = c) || has_char c s'
  end.

(** The alert with the letters of its signal and of its action re-cased. *)
Definition recase (f g : string → string) (data : alert) : alert :=
  {| alert_signal := f <$> alert_signal data;
     alert_order_action := g <$> alert_order_action data;
     alert_order_id := alert_order_id data |}.

Definition set_case (up : bool) : string → string :=
  if up then PyStr.upper else PyStr.lower.

(** The request with another body. *)
Definition with_json (j : option alert) (ext : env) : env :=
  {| get_json := j;
     time_time := time_time ext;
     get_wallet_balance := get_wallet_balance ext;
     get_current_price := get_current_price ext;
     order_time := order_time ext;
     requests_post := requests_post ext |}.

Fixpoint all_chars (p : ascii → bool) (s : string) : bool :=
  match s with
  | EmptyString => true
  | String c s' => p c && all_chars p s'
  end.

Definition is_lower_hex (c : ascii) : bool := has_char c "0123456789abcdef".

(** The shared set after a sequence of requests was served on it. *)
Fixpoint set_after (API_KEY API_SECRET : string) (float_str : float → string)
    (requests : list env) (s : gset string) : gset string :=
  match requests with
  | [] => s
  | ext :: rest =>
      let '(_, w) := webhook API_KEY API_SECRET float_str ext (world_of s) in
      set_after API_KEY API_SECRET float_str rest (executed_signals w)
  end.

(** [-x]. *)
Definition fneg (x : float) : float :=
  match x with
  | Nan => Nan
  | Inf neg => Inf (negb neg)
  | Zero neg => Zero (negb neg)
  | Fin neg m e => Fin (negb neg) m e
  end.

(** ** Market data: [get_wallet_balance], [get_current_price] and
    [send_telegram]

    The two fetchers read the exchange's JSON answers.  A decoded document
    is a value of [json]; the operations on it fail as Python's do, and
    every failure inside a fetcher is caught by its [except Exception]. *)

Module Market.

#[local] Unset Elimination Schemes.

(** What [response.json()] returns; the fields of an object have
    distinct keys. *)
Inductive json :=
| JNull
| JBool (b : bool)
| JInt (n : Z)
| JFloat (x : float)
| JString (s : string)
| JArray (items : list json)
| JObject (fields : list (string * json)).
#[local] Set Elimination Schemes.

Inductive error :=
| AttributeError        (* .get on a value that is not a dict *)
| IndexError            (* [0] on an empty list or string *)
| KeyError              (* a missing key *)
| TypeError             (* subscript, iteration or float() on the wrong type *)
| ValueError            (* float() of text that is not a number; int(nan) *)
| OverflowError         (* float() of a huge int; int(inf) *)
| RequestException      (* requests.get failed *)
| JSONDecodeError.      (* the body is not JSON *)

Definition res (A : Type) : Type := error + A.

Global Instance res_ret : MRet res := λ A a, inr a.
Global Instance res_bind : MBind res := λ A B f m,
  match m with
  | inl e => inl e
  | inr a => f a
  end.

Fixpoint lookup_field (key : string) (fields : list (string * json))
  : option json :=
  match fields with
  | [] => None
  | (k, v) :: rest => if decide (k = key) then Some v else lookup_field key rest
  end.

(** [v.get(key, dflt)]. *)
Definition py_get (key : string) (dflt : json) (v : json) : res json :=
  match v with
  | JObject fields => inr (default dflt (lookup_field key fields))
  | _ => inl AttributeError
  end.

(** [v[key]] with a string key. *)
Definition py_item (key : string) (v : json) : res json :=
  match v with
  | JObject fields =>
      match lookup_field key fields with
      | Some x => inr x
      | None => inl KeyError
      end
  | _ => inl TypeError
  end.

(** [v[0]]. *)
Definition py_index0 (v : json) : res json :=
  match v with
  | JArray (x :: _) => inr x
  | JArray [] => inl IndexError
  | JString (String c _) => inr (JString (String c EmptyString))
  | JString EmptyString => inl IndexError
  | JObject _ => inl KeyError
  | _ => inl TypeError
  end.

Fixpoint chars (s : string) : list json :=
  match s with
  | EmptyString => []
  | String c s' => JString (String c EmptyString) :: chars s'
  end.

(** The values [for x in v] goes through. *)
Definition py_iter (v : json) : res (list json) :=
  match v with
  | JArray items => inr items
  | JObject fields => inr (JString <$> fields.*1)
  | JString s => inr (chars s)
  | _ => inl TypeError
  end.

(** [v == s] for a string [s]. *)
Definition is_str (s : string) (v : json) : bool :=
  match v with
  | JString t => bool_decide (t = s)
  | _ => false
  end.

Inductive notice :=
| BalanceFetchFailed (e : error)
| PriceFetchFailed (e : error).

Inductive event :=
| RequestsGet (url : string) (query : params)
| TelegramPost (url chat_id : string) (text : notice).

(** The Telegram settings of the process environment. *)
Record telegram := {
  TELEGRAM_TOKEN : option string;
  TELEGRAM_CHAT_ID : option string
}.

(** What the exchange answers: [None] when the GET raised, [Some None]
    when the body is not JSON. *)
Record exchange := {
  balance_time : float;            (* the clock in [get_wallet_balance] *)
  requests_get_wallet : params → option (option json);
  requests_get_ticker : option (option json)
}.

Section Fetch.

Variables API_KEY API_SECRET : string.
(** [float] on text: [None] when the text is not a number. *)
Variable float_of_str : string → option float.
Variable tg : telegram.
Variable ex : exchange.

(** [float(v)]. *)
Definition py_float (v : json) : res float :=
  match v with
  | JFloat x => inr x
  | JInt n =>
      match of_Z n with
      | Inf _ => inl OverflowError
      | x => inr x
      end
  | JBool b => inr (if b then of_Z 1 else of_Z 0)
  | JString s =>
      match float_of_str s with
      | Some x => inr x
      | None => inl ValueError
      end
  | _ => inl TypeError
  end.

(** [send_telegram]: one POST when both settings are non-empty; a failure
    of the POST is swallowed. *)
Definition send_telegram (message : notice) : list event :=
  match TELEGRAM_TOKEN tg, TELEGRAM_CHAT_ID tg with
  | Some token, Some chat_id =>
      if negb (PyStr.is_empty token) && negb (PyStr.is_empty chat_id) then
        [TelegramPost ("https://api.telegram.org/bot" +:+ token +:+ "/sendMessage")
           chat_id message]
      else []
  | _, _ => []
  end.

(** The signed parameters of the balance request. *)
Definition balance_params (timestamp : string) : params :=
  let p := [ ("apiKey", API_KEY);
             ("timestamp", timestamp);
             ("accountType", "UNIFIED") ] in
  dict_set "sign" (generate_signature API_SECRET p) p.

(** The loop of lines 73-76, from the entries still to visit. *)
Fixpoint scan_coins (coins : list json) (usdt_balance : float) : res float :=
  match coins with
  | [] => inr usdt_balance
  | coin :: rest =>
      name ← py_item "coin" coin;
      if is_str "USDT" name then
        amount ← py_item "availableToTrade" coin;
        py_float amount
      else scan_coins rest usdt_balance
  end.

(** Lines 72-77 on the decoded answer. *)
Definition read_balance (data : json) : res float :=
  result ← py_get "result" (JObject []) data;
  accounts ← py_get "list" (JArray []) result;
  account ← py_index0 accounts;
  coin_list ← py_get "coin" (JArray []) account;
  coins ← py_iter coin_list;
  scan_coins coins (of_Z 0).

Definition balance_url : string := BASE_URL +:+ "/v5/account/wallet-balance".

(** The [try] block of [get_wallet_balance]. *)
Definition fetch_balance : res float * list event :=
  let now := fmul (balance_time ex) (of_Z 1000) in
  match to_int now with
  | None => (inl (if is_nan now then ValueError else OverflowError), [])
  | Some t =>
      let p := balance_params (pretty t) in
      let get := RequestsGet balance_url p in
      match requests_get_wallet ex p with
      | None => (inl RequestException, [get])
      | Some None => (inl JSONDecodeError, [get])
      | Some (Some data) => (read_balance data, [get])
      end
  end.

(** [get_wallet_balance]: the balance, or 0 after a notification. *)
Definition get_wallet_balance : float * list event :=
  match fetch_balance with
  | (inr usdt_balance, evs) => (usdt_balance, evs)
  | (inl e, evs) => (of_Z 0, evs ++ send_telegram (BalanceFetchFailed e))
  end.

(** [data["result"]["list"][0]["lastPrice"]] as a float. *)
Definition read_price (data : json) : res float :=
  result ← py_item "result" data;
  tickers ← py_item "list" result;
  ticker ← py_index0 tickers;
  last ← py_item "lastPrice" ticker;
  py_float last.

Definition ticker_url : string :=
  BASE_URL +:+ "/v5/market/tickers?category=linear&symbol=" +:+ SYMBOL.

Definition fetch_price : res float * list event :=
  let get := RequestsGet ticker_url [] in
  match requests_get_ticker ex with
  | None => (inl RequestException, [get])
  | Some None => (inl JSONDecodeError, [get])
  | Some (Some data) => (read_price data, [get])
  end.

(** [get_current_price]: the price, or [None] after a notification. *)
Definition get_current_price : option float * list event :=
  match fetch_price with
  | (inr price, evs) => (Some price, evs)
  | (inl e, evs) => (None, evs ++ send_telegram (PriceFetchFailed e))
  end.

End Fetch.

(** An entry of a coin list that names a coin other than USDT. *)
Definition names_other_coin (coin : json) : bool :=
  match py_item "coin" coin with
  | inr name => negb (is_str "USDT" name)
  | inl _ => false
  end.

(** The answer lists, in its first account, a USDT entry that comes
    before any other USDT entry and after entries of other coins only, and
    the entry's [availableToTrade] reads as [x]. *)
Definition usdt_available (float_of_str : string → option float)
    (data : json) (x : float) : Prop :=
  ∃ result account others pre usdt post amount,
    py_item "result" data = inr result
    ∧ py_item "list" result = inr (JArray (account :: others))
    ∧ py_item "coin" account = inr (JArray (pre ++ usdt :: post))
    ∧ forallb names_other_coin pre = true
    ∧ py_item "coin" usdt = inr (JString "USDT")
    ∧ py_item "availableToTrade" usdt = inr amount
    ∧ py_float float_of_str amount = inr x.

(** The first ticker of the answer has a [lastPrice] that reads as [p]. *)
Definition last_price (float_of_str : string → option float)
    (data : json) (p : float) : Prop :=
  ∃ result ticker others last,
    py_item "result" data = inr result
    ∧ py_item "list" result = inr (JArray (ticker :: others))
    ∧ py_item "lastPrice" ticker = inr last
    ∧ py_float float_of_str last = inr p.

End Market.

(** The environment of a request whose balance and price are fetched from
    the exchange. *)
Definition live_env (key secret : string)
    (float_of_str : string → option float) (tg : Market.telegram)
    (ex : Market.exchange) (ext : env) : env :=
  {| get_json := get_json ext;
     time_time := time_time ext;
     get_wallet_balance :=
       (Market.get_wallet_balance key secret float_of_str tg ex).1;
     get_current_price := (Market.get_current_price float_of_str tg ex).1;
     order_time := order_time ext;
     requests_post := requests_post ext |}.

(** ** The handler on the decoded body

    [request.get_json(force=True)] returns whatever JSON the body holds:
    an object, but also a list, a number, [null]; and the fields of an
    object hold any JSON value.  [webhook] above reads a body whose three
    fields are strings or absent; [webhook_json] is the handler on every
    decoded body, line by line, and agrees with [webhook] on the former. *)

(** Lines 133-135: the upper-cased signal, the lower-cased action and the
    raw identifier; [None] when [.get], [.upper] or [.lower] raises
    [AttributeError] (a body that is not an object, a signal or action
    that is not a string). *)
Definition alert_fields (data : Market.json)
  : option (string * string * Market.json) :=
  match Market.py_get "signal" (Market.JString "") data,
        Market.py_get "order_action" (Market.JString "") data,
        Market.py_get "order_id" (Market.JString "") data with
  | inr (Market.JString signal), inr (Market.JString order_action),
    inr raw_order_id =>
      Some (PyStr.upper signal, PyStr.lower order_action, raw_order_id)
  | _, _, _ => None
  end.

(** Lines 138-147 with a raw identifier of any type. *)
Definition resolve_order_value (signal : string) (raw_order_id : Market.json)
  : Market.json :=
  if PyStr.contains "STEP" signal then
    let step_num := PyStr.strip (PyStr.last_seg (PyStr.split "STEP" signal)) in
    if PyStr.contains "LONG" signal then Market.JString ("Long " +:+ step_num)
    else if PyStr.contains "SHORT" signal then
      Market.JString ("Short " +:+ step_num)
    else raw_order_id
  else raw_order_id.

(** The truth value of a JSON value: [null], [false], zero, and the empty
    string, list and object are false. *)
Definition truthy (v : Market.json) : bool :=
  match v with
  | Market.JNull => false
  | Market.JBool b => b
  | Market.JInt n => negb (n =? 0)
  | Market.JFloat x => negb (is_zero x)
  | Market.JString s => negb (PyStr.is_empty s)
  | Market.JArray items => negb (bool_decide (items = []))
  | Market.JObject fields => negb (bool_decide (fields = []))
  end.

(** [weight_map.get(order_id, 0)]: a list or an object cannot be hashed;
    a number, [True] or [None] is no key of the table. *)
Definition weight_for (order_id : Market.json) : M float :=
  match order_id with
  | Market.JString s => mret (weight_of s)
  | Market.JArray _ | Market.JObject _ => raise TypeError
  | _ => mret (of_Z 0)
  end.

Section Body.

Variables API_KEY API_SECRET : string.
Variable float_str : float → string.
(** [str(v)] for a value that is not a string. *)
Variable value_str : Market.json → string.
(** The decoded body; [None] when [get_json] raised. *)
Variable body : option Market.json.
(** The rest of the outside world; its [get_json] is not read. *)
Variable ext : env.

(** [f"{order_id}"]. *)
Definition format_value (v : Market.json) : string :=
  match v with
  | Market.JString s => s
  | _ => value_str v
  end.

Definition webhook_json : M response :=
  match body with
  | None => reply 400 (JError "Invalid JSON")
  | Some data =>
      match alert_fields data with
      | None => raise AttributeError
      | Some (signal, order_action, raw_order_id) =>
          let order_id := resolve_order_value signal raw_order_id in
          if PyStr.is_empty order_action || negb (truthy order_id) then
            reply 400 (JError "Invalid webhook data")
          else
            let order_text := format_value order_id in
            now_seconds ← int_of (time_time ext);
            seen ← dedup order_text now_seconds;
            if (seen : bool) then
              reply 200 (JStatus (order_text +:+ " skipped (duplicate second)"))
            else
              let side := side_of order_action in
              call GetWalletBalance;;
              let balance := get_wallet_balance ext in
              if is_zero balance then
                reply 500 (JError "Insufficient balance or failed to fetch")
              else
                call GetCurrentPrice;;
                match get_current_price ext with
                | None => reply 500 (JError "Price fetch failed")
                | Some price =>
                    if is_zero price then
                      reply 500 (JError "Price fetch failed")
                    else
                      call (CalculateQty order_text balance price);;
                      weight ← weight_for order_id;
                      match qty_of_weight weight balance price with
                      | None => raise ZeroDivisionError
                      | Some qty =>
                          submit API_KEY API_SECRET float_str ext side qty
                      end
                end
      end
  end.

End Body.

(** The alert a body stands for when its three fields are strings or
    absent. *)
Definition text_field (key : string) (fields : list (string * Market.json))
  : option (option string) :=
  match Market.lookup_field key fields with
  | None => Some None
  | Some (Market.JString s) => Some (Some s)
  | Some _ => None
  end.

Definition alert_of (data : Market.json) : option alert :=
  match data with
  | Market.JObject fields =>
      signal ← text_field "signal" fields;
      order_action ← text_field "order_action" fields;
      order_id ← text_field "order_id" fields;
      Some {| alert_signal := signal;
              alert_order_action := order_action;
              alert_order_id := order_id |}
  | _ => None
  end.

(** A wallet answer with one account holding BTC and two USDT entries. *)
Definition sample_wallet : Market.json :=
  Market.JObject
    [ ("retCode", Market.JInt 0);
      ("result",
       Market.JObject
         [ ("list",
            Market.JArray
              [ Market.JObject
                  [ ("accountType", Market.JString "UNIFIED");
                    ("coin",
                     Market.JArray
                       [ Market.JObject
                           [ ("coin", Market.JString "BTC");
                             ("availableToTrade", Market.JString "0.5") ];
                         Market.JObject
                           [ ("coin", Market.JString "USDT");
                             ("availableToTrade", Market.JString "1000") ];
                         Market.JObject
                           [ ("coin", Market.JString "USDT");
                             ("availableToTrade", Market.JString "100") ] ]) ] ]) ]) ].

Definition sample_usdt_entry : Market.json :=
  Market.JObject
    [ ("coin", Market.JString "USDT");
      ("availableToTrade", Market.JString "1000") ].

Definition sample_usdt_account : Market.json :=
  Market.JObject [("coin", Market.JArray [sample_usdt_entry])].

(** Two accounts: the first lists no coin, the second holds USDT. *)
Definition sample_accounts : list Market.json :=
  [ Market.JObject [("accountType", Market.JString "UNIFIED")];
    sample_usdt_account ].

Definition sample_second_account : Market.json :=
  Market.JObject
    [("result", Market.JObject [("list", Market.JArray sample_accounts)])].

(** An account whose coin list starts with an entry that has no [coin]
    field. *)
Definition sample_malformed : Market.json :=
  Market.JObject
    [("result",
      Market.JObject
        [("list",
          Market.JArray
            [Market.JObject
               [("coin",
                 Market.JArray
                   [Market.JObject [("equity", Market.JString "1")];
                    sample_usdt_entry])]])])].

(** A ticker answer quoting 100. *)
Definition sample_ticker : Market.json :=
  Market.JObject
    [ ("result",
       Market.JObject
         [ ("list",
            Market.JArray
              [ Market.JObject
                  [ ("symbol", Market.JString "SOLUSDT");
                    ("lastPrice", Market.JString "100") ] ]) ]) ].

(** [float] on the texts of the samples. *)
Definition sample_float_of_str (s : string) : option float :=
  if decide (s = "1000") then Some funded
  else if decide (s = "100") then Some quoted
  else None.

Definition sample_telegram : Market.telegram :=
  {| Market.TELEGRAM_TOKEN := Some "token";
     Market.TELEGRAM_CHAT_ID := Some "42" |}.

Definition sample_clock : float :=
  Eval vm_compute in of_ratio false 170000000025 100.

(** An exchange that answers every balance request with [wallet] and the
    ticker request with [ticker], at clock 1700000000.25. *)
Definition sample_exchange (wallet : Market.json) (ticker : option Market.json)
  : Market.exchange :=
  {| Market.balance_time := sample_clock;
     Market.requests_get_wallet := λ _, Some (Some wallet);
     Market.requests_get_ticker := Some ticker |}.

(** * Properties *)

(** ** Sanity checks of the library models *)

Example upper_example : PyStr.upper "Entry long step 1" = "ENTRY LONG STEP 1".
Proof. reflexivity. Qed.

Example split_example :
  PyStr.split "STEP" "ENTRY LONG STEP 1" = ["ENTRY LONG "; " 1"].
Proof. reflexivity. Qed.

Example split_twice_example :
  PyStr.split "STEP" "STEP aSTEPSTEP 2 " = [""; " a"; ""; " 2 "].
Proof. reflexivity. Qed.

Example strip_example : PyStr.strip "  1 2  " = "1 2".
Proof. reflexivity. Qed.

Example sha256_abc :
  Sha256.hex (Sha256.digest (Sha256.encode "abc"))
  = "ba7816bf8f01cfea414140de5dae2223b00361a396177a9cb410ff61f20015ad".
Proof. vm_compute. reflexivity. Qed.

(** The rounding model against the kernel's binary64 arithmetic, on the
    scenario of the sizing rule and at the edges of the format. *)
Example binary64_scenario_agrees :
  option_map to_spec
    (fdiv (fmul (fmul (of_Z 1000) (of_ratio false 70 100)) (of_Z 3))
          (fmul (of_Z 100) (fadd (of_Z 1) (of_ratio false 35 10000))))
  = Some (Prim2SF (1000 * (7 / 10) * 3 / (100 * (1 + 35 / 10000)))%float).
Proof. vm_compute. reflexivity. Qed.

Example binary64_literals_agree :
  to_spec (of_ratio false 70 100) = Prim2SF 0x1.6666666666666p-1%float
  ∧ to_spec (of_ratio false 35 10000) = Prim2SF 0x1.cac083126e979p-9%float
  ∧ to_spec (of_ratio false 20927 1000) = Prim2SF 0x1.4ed4fdf3b645ap+4%float.
Proof. vm_compute. repeat split; reflexivity. Qed.

Example binary64_subnormal_agrees :
  to_spec (fmul (Fin false 3 (-1074)) (of_ratio false 1 2))
  = Prim2SF (0x3p-1074 * 0x1p-1)%float
  ∧ to_spec (fmul (Fin false 1 (-1074)) (of_ratio false 1 2))
    = Prim2SF (0x1p-1074 * 0x1p-1)%float.
Proof. vm_compute. split; reflexivity. Qed.

Example binary64_overflow_agrees :
  to_spec (fmul (of_Z (10 ^ 200)) (of_Z (10 ^ 109)))
  = Prim2SF (0x1.4e718d7d7625ap+664 * 0x1.108269fd210cbp+362)%float.
Proof. vm_compute. reflexivity. Qed.

(** RFC 4231, test case 2. *)
Example hmac_rfc4231_2 :
  hmac_sha256_hexdigest "Jefe" "what do ya want for nothing?"
  = "5bdcc146bf60754e6a042426089575c75a003f089d2739839dec58b964ec3843".
Proof. vm_compute. reflexivity. Qed.


(** ** Strings *)

Section PyStrFacts.
Import PyStr.

Lemma str_length_app (s t : string) :
  String.length (s +:+ t) = (String.length s + String.length t)%nat.
Proof. induction s as [|c s IH]; simpl; [reflexivity | now rewrite IH]. Qed.

Lemma app_cons c (s t : string) : String c s +:+ t = String c (s +:+ t).
Proof. reflexivity. Qed.

Lemma app_assoc_str (s t u : string) : (s +:+ t) +:+ u = s +:+ t +:+ u.
Proof.
  induction s as [|c s IH]; [reflexivity|]. now rewrite !app_cons, IH.
Qed.

Lemma str_length_map f s : String.length (map f s) = String.length s.
Proof. induction s as [|c s IH]; simpl; [reflexivity | now rewrite IH]. Qed.


Lemma str_is_empty_true s : is_empty s = true ↔ s = "".
Proof. destruct s; simpl; split; congruence. Qed.

(** A prefix match gives back the string as the prefix and the rest. *)
Lemma startswith_drop p s :
  startswith p s = true → s = p +:+ drop (String.length p) s.
Proof.
  revert s. induction p as [|a p IH]; intros s.
  - now destruct s.
  - destruct s as [|b s]; simpl; [congruence|].
    destruct (decide (a = b)) as [->|]; [|congruence].
    intros H. now rewrite app_cons, <- (IH s H).
Qed.

Lemma partition_Some sep s pre post :
  partition sep s = Some (pre, post) → s = pre +:+ sep +:+ post.
Proof.
  revert pre post. induction s as [|c s IH]; intros pre post.
  - simpl. destruct (startswith sep "") eqn:E; [|congruence].
    intros [= <- <-]. now apply startswith_drop.
  - cbn [partition]. destruct (startswith sep (String c s)) eqn:E.
    + intros [= <- <-]. now apply startswith_drop.
    + destruct (partition sep s) as [[pre' post']|]; [|congruence].
      intros [= <- <-]. now rewrite app_cons, <- (IH pre' post' eq_refl).
Qed.

Lemma partition_None sep s :
  partition sep s = None ↔ contains sep s = false.
Proof.
  induction s as [|c s IH].
  - simpl. destruct (startswith sep ""); simpl; split; congruence.
  - cbn [partition contains]. destruct (startswith sep (String c s)); simpl.
    + split; congruence.
    + rewrite <- IH. destruct (partition sep s) as [[? ?]|]; split; congruence.
Qed.

(** The last piece of a split holds no separator, and when a separator
    occurs at all the string ends with a separator followed by it. *)
Lemma split_go_last sep fuel s :
  sep ≠ "" → (String.length s ≤ fuel)%nat →
  contains sep (last_seg (split_go fuel sep s)) = false ∧
  (contains sep s = true →
   ∃ pre, s = pre +:+ sep +:+ last_seg (split_go fuel sep s)).
Proof.
  intros Hsep. revert s. induction fuel as [|fuel IH]; intros s Hlen.
  - destruct s; [|simpl in Hlen; lia].
    assert (contains sep "" = false) as E.
    { destruct sep; [congruence | reflexivity]. }
    change (last_seg (split_go 0 sep "")) with "".
    split; [exact E | rewrite E; congruence].
  - cbn [split_go]. destruct (partition sep s) as [[pre post]|] eqn:E.
    + pose proof (partition_Some _ _ _ _ E) as Hs.
      assert (String.length post ≤ fuel)%nat as Hpost.
      { apply (f_equal String.length) in Hs.
        rewrite !str_length_app in Hs. destruct sep; [congruence|].
        simpl in Hs. lia. }
      destruct (IH post Hpost) as [Hno Hex].
      assert (last_seg (pre :: split_go fuel sep post)
              = last_seg (split_go fuel sep post)) as ->.
      { unfold last_seg. destruct fuel; simpl; [reflexivity|].
        destruct (partition sep post) as [[? ?]|]; reflexivity. }
      split; [exact Hno|]. intros _.
      destruct (contains sep post) eqn:Ec.
      * destruct (Hex eq_refl) as [pre' Hpre'].
        exists (pre +:+ sep +:+ pre').
        rewrite Hs at 1. rewrite Hpre' at 1.
        now rewrite !app_assoc_str.
      * exists pre. rewrite Hs at 1. f_equal. f_equal.
        apply partition_None in Ec.
        destruct fuel; simpl; [reflexivity | now rewrite Ec].
    + apply partition_None in E. simpl. split; [exact E|].
      rewrite E. congruence.
Qed.

Lemma split_last sep s :
  sep ≠ "" →
  contains sep (last_seg (split sep s)) = false ∧
  (contains sep s = true → ∃ pre, s = pre +:+ sep +:+ last_seg (split sep s)).
Proof. intros H. apply split_go_last; [exact H | reflexivity]. Qed.

End PyStrFacts.

(** ** The handler, run *)

Section HandlerFacts.

Variables key secret : string.
Variable fstr : float → string.

Lemma int_of_run x w :
  int_of x w =
  match to_int x with
  | Some t => (Value t, w)
  | None => (Raise (if is_nan x then ValueError else OverflowError), w)
  end.
Proof.
  destruct x as [| | |neg m e]; reflexivity.
Qed.

Lemma log_log w evs evs' : log (log w evs) evs' = log w (evs ++ evs').
Proof. unfold log. simpl. now rewrite <- app_assoc. Qed.

(** What the [try] block does, case by case. *)
Lemma submit_run ext side qty w :
  submit key secret fstr ext side qty w =
  match to_int (fmul (order_time ext) (of_Z 1000)) with
  | None => (Return failed_order, log w [SendTelegram false])
  | Some t =>
      let p := order_params key secret fstr side SYMBOL qty (pretty t) in
      let post := RequestsPost (BASE_URL +:+ "/v5/order/create") p in
      match requests_post ext p with
      | None => (Return failed_order, log w [post; SendTelegram false])
      | Some None =>
          (Return failed_order,
           log w [post; SendTelegram true; SendTelegram false])
      | Some (Some json) =>
          (Return {| status_code := 200; body := JRaw json |},
           log w [post; SendTelegram true])
      end
  end.
Proof.
  unfold submit, try_except, place_market_order.
  unfold mbind, M_bind. rewrite int_of_run.
  destruct (to_int _) as [t|]; [|reflexivity].
  cbn zeta. unfold call at 1.
  destruct (requests_post ext _) as [[json|]|]; cbn;
    unfold log; cbn; now rewrite <- ?app_assoc.
Qed.

(** What the handler does, case by case. *)
Lemma webhook_run ext s :
  webhook key secret fstr ext (world_of s) =
  match get_json ext with
  | None => (Return {| status_code := 400; body := JError "Invalid JSON" |},
             world_of s)
  | Some data =>
      let id := order_id_of data in
      if PyStr.is_empty (order_action_of data) || PyStr.is_empty id then
        (Return {| status_code := 400; body := JError "Invalid webhook data" |},
         world_of s)
      else
        match to_int (time_time ext) with
        | None =>
            (Raise (if is_nan (time_time ext) then ValueError
                    else OverflowError), world_of s)
        | Some t =>
            if decide (candle_key id t ∈ s) then
              (Return {| status_code := 200;
                         body := JStatus (id +:+ " skipped (duplicate second)") |},
               world_of s)
            else
              let w := world_of ({[candle_key id t]} ∪ s) in
              let balance := get_wallet_balance ext in
              if is_zero balance then
                (Return {| status_code := 500;
                           body := JError "Insufficient balance or failed to fetch" |},
                 log w [GetWalletBalance])
              else
                match get_current_price ext with
                | None =>
                    (Return {| status_code := 500;
                               body := JError "Price fetch failed" |},
                     log w [GetWalletBalance; GetCurrentPrice])
                | Some price =>
                    if is_zero price then
                      (Return {| status_code := 500;
                                 body := JError "Price fetch failed" |},
                       log w [GetWalletBalance; GetCurrentPrice])
                    else
                      let w' := log w [GetWalletBalance; GetCurrentPrice;
                                       CalculateQty id balance price] in
                      match calculate_qty id balance price with
                      | None => (Raise ZeroDivisionError, w')
                      | Some qty =>
                          submit key secret fstr ext
                            (side_of (order_action_of data)) qty w'
                      end
                end
        end
  end.
Proof.
  unfold webhook.
  destruct (get_json ext) as [data|]; [|reflexivity].
  cbn zeta.
  destruct (_ || _); [reflexivity|].
  unfold mbind, M_bind. rewrite int_of_run.
  destruct (to_int (time_time ext)) as [t|]; [|reflexivity].
  unfold dedup, check_and_mark. cbn.
  destruct (decide _); [reflexivity|]. cbn.
  destruct (is_zero (get_wallet_balance ext)); [reflexivity|]. cbn.
  destruct (get_current_price ext) as [price|]; [|reflexivity].
  destruct (is_zero price); [reflexivity|]. cbn.
  destruct (calculate_qty _ _ _); reflexivity.
Qed.


(** The [try] block leaves the set alone and only adds to the log. *)
Lemma submit_keeps_signals ext side qty w r w' :
  submit key secret fstr ext side qty w = (r, w') →
  executed_signals w' = executed_signals w.
Proof.
  rewrite submit_run. cbv zeta.
  repeat match goal with
         | |- context [match ?x with _ => _ end] => destruct x
         end; now intros [= <- <-].
Qed.

(** Keys are never removed. *)
Lemma webhook_keeps_signals ext s r w :
  webhook key secret fstr ext (world_of s) = (r, w) →
  s ⊆ executed_signals w.
Proof.
  intros H. rewrite webhook_run in H. cbv zeta in H.
  repeat match type of H with
         | context [match ?x with _ => _ end] => destruct x eqn:?
         end;
    try apply submit_keeps_signals in H;
    try (injection H as <- <-);
    try rewrite H;
    cbn [log world_of executed_signals];
    try reflexivity; apply union_subseteq_r.
Qed.

(** A request whose key is already recorded does nothing at all. *)
Lemma webhook_seen ext s id t r w :
  is_for id t ext = true → candle_key id t ∈ s →
  webhook key secret fstr ext (world_of s) = (r, w) →
  calls w = [] ∧ executed_signals w = s ∧
  ∀ data, get_json ext = Some data →
          PyStr.is_empty (order_action_of data) = false →
          PyStr.is_empty id = false →
          r = Return {| status_code := 200;
                        body := JStatus (id +:+ " skipped (duplicate second)") |}.
Proof.
  unfold is_for. intros Hfor Hin H.
  destruct (get_json ext) as [data|] eqn:Ej; [|discriminate].
  destruct (to_int (time_time ext)) as [t'|] eqn:Et; [|discriminate].
  apply andb_true_iff in Hfor as [Hid Ht].
  apply bool_decide_eq_true in Hid, Ht. subst id t'.
  rewrite webhook_run, Ej, Et in H. cbv zeta in H.
  destruct (_ || _) eqn:Ev.
  - injection H as <- <-. repeat split. intros d [= <-] Ha Hi.
    rewrite Ha, Hi in Ev. discriminate.
  - destruct (decide _) as [|Hn]; [|contradiction].
    injection H as <- <-. repeat split.
Qed.

(** A request that posted an order has recorded its key. *)
Lemma webhook_posted ext s id t r w :
  is_for id t ext = true →
  webhook key secret fstr ext (world_of s) = (r, w) →
  existsb is_post (calls w) = true →
  candle_key id t ∈ executed_signals w.
Proof.
  unfold is_for. intros Hfor H.
  destruct (get_json ext) as [data|] eqn:Ej; [|discriminate].
  destruct (to_int (time_time ext)) as [t'|] eqn:Et; [|discriminate].
  apply andb_true_iff in Hfor as [Hid Ht].
  apply bool_decide_eq_true in Hid, Ht. subst id t'.
  rewrite webhook_run, Ej, Et in H. cbv zeta in H.
  destruct (_ || _); [injection H as <- <-; discriminate|].
  destruct (decide _) as [Hin|Hn]; [injection H as <- <-; discriminate|].
  intros _.
  assert (candle_key (order_id_of data) t
          ∈ executed_signals (world_of ({[candle_key (order_id_of data) t]} ∪ s)))
    as Hk by (simpl; set_solver).
  revert H Hk. generalize (world_of ({[candle_key (order_id_of data) t]} ∪ s)).
  intros w0 H Hk.
  repeat match type of H with
         | context [match ?x with _ => _ end] => destruct x eqn:?
         end;
    try (injection H as <- <-; exact Hk).
  apply submit_keeps_signals in H. rewrite H. exact Hk.
Qed.

Lemma posted_for_seen id t requests s :
  candle_key id t ∈ s → posted_for key secret fstr id t requests s = 0%nat.
Proof.
  unfold posted_for. revert s.
  induction requests as [|ext rest IH]; intros s Hin; [reflexivity|].
  cbn [serve].
  destruct (webhook key secret fstr ext (world_of s)) as [r w] eqn:H.
  cbn [zip zip_with]. rewrite filter_cons.
  pose proof (webhook_keeps_signals _ _ _ _ H) as Hsub.
  destruct (decide _) as [Hp|_]; [|apply IH; set_solver].
  exfalso. simpl in Hp. apply andb_true_iff in Hp as [Hfor Hpost].
  destruct (webhook_seen _ _ _ _ _ _ Hfor Hin H) as [Hc _].
  rewrite Hc in Hpost. discriminate.
Qed.

Lemma posted_for_once id t requests s :
  (posted_for key secret fstr id t requests s ≤ 1)%nat.
Proof.
  unfold posted_for. revert s.
  induction requests as [|ext rest IH]; intros s; [simpl; lia|].
  cbn [serve].
  destruct (webhook key secret fstr ext (world_of s)) as [r w] eqn:H.
  cbn [zip zip_with]. rewrite filter_cons.
  destruct (decide _) as [Hp|_]; [|apply IH].
  simpl in Hp. apply andb_true_iff in Hp as [Hfor Hpost].
  pose proof (webhook_posted _ _ _ _ _ _ Hfor H Hpost) as Hk.
  pose proof (posted_for_seen id t rest _ Hk) as H0.
  unfold posted_for in H0. simpl. rewrite H0. lia.
Qed.

End HandlerFacts.

(** ** Duplicate suppression *)

Lemma check_and_mark_spec id t s :
  check_and_mark id t s =
  if decide (candle_key id t ∈ s) then (true, s)
  else (false, {[candle_key id t]} ∪ s).
Proof. reflexivity. Qed.

(** Keys of one identifier differ exactly when the seconds differ. *)
Lemma candle_key_inj id t1 t2 : candle_key id t1 = candle_key id t2 → t1 = t2.
Proof.
  unfold candle_key. intros H.
  apply (inj (String.app id)) in H. apply (inj (String.app "_")) in H.
  now apply (inj pretty) in H.
Qed.

(** C1: two duplicate checks of one order identifier, on a set that has
    seen neither key: when the two clock readings truncate to the same
    second the first check reports "not duplicate" and records the key and
    the second reports "duplicate"; when they truncate to different seconds
    both report "not duplicate".  And however many requests are served in
    a row, at most one of those for a given identifier and second posts an
    order. *)
Theorem dedup_once_per_second :
  (∀ (order_id : string) (t1 t2 : float) (s1 s2 : Z) (seen : gset string),
     to_int t1 = Some s1 → to_int t2 = Some s2 →
     candle_key order_id s1 ∉ seen → candle_key order_id s2 ∉ seen →
     let first := check_and_mark order_id s1 seen in
     let second := check_and_mark order_id s2 first.2 in
     first.1 = false ∧ candle_key order_id s1 ∈ first.2 ∧
     second.1 = bool_decide (s1 = s2))
  ∧
  (∀ (key secret : string) (fstr : float → string) (requests : list env)
     (seen : gset string) (order_id : string) (now_seconds : Z),
     (posted_for key secret fstr order_id now_seconds requests seen ≤ 1)%nat).
Proof.
  split; [|intros; apply posted_for_once].
  intros id t1 t2 s1 s2 seen _ _ H1 H2. cbv zeta.
  rewrite (check_and_mark_spec id s1 seen).
  destruct (decide (candle_key id s1 ∈ seen)) as [|_]; [contradiction|].
  cbn [fst snd]. rewrite check_and_mark_spec.
  split; [reflexivity|]. split; [set_solver|].
  destruct (decide (s1 = s2)) as [->|Hne].
  - rewrite bool_decide_eq_true_2 by reflexivity.
    destruct (decide _) as [|Hn]; [reflexivity|]. exfalso. set_solver.
  - rewrite bool_decide_eq_false_2 by assumption.
    destruct (decide _) as [Hin|]; [|reflexivity]. exfalso.
    apply elem_of_union in Hin as [Hin|Hin]; [|contradiction].
    apply elem_of_singleton in Hin. apply candle_key_inj in Hin. congruence.
Qed.

(** Two alerts for "Short 2" read at 1700000000.25 and 1700000000.75. *)
Lemma dedup_once_per_second_witness :
  let first := check_and_mark "Short 2" 1700000000 ∅ in
  let second := check_and_mark "Short 2" 1700000000 first.2 in
  first.1 = false ∧ candle_key "Short 2" 1700000000 ∈ first.2 ∧
  second.1 = bool_decide (1700000000 = 1700000000).
Proof.
  apply (proj1 dedup_once_per_second "Short 2"
           (of_ratio false 170000000025 100) (of_ratio false 170000000075 100)
           1700000000 1700000000 ∅).
  - vm_compute. reflexivity.
  - vm_compute. reflexivity.
  - apply not_elem_of_empty.
  - apply not_elem_of_empty.
Defined.

(** ** Signal normalisation *)

(** C6: the alert "ENTRY LONG STEP 1" with action "buy" resolves to the
    identifier "Long 1", whose weight is 0.70.  In general, with [signal]
    the upper-cased signal field: when it contains "STEP" it ends with
    "STEP" followed by a segment free of "STEP", and the identifier is
    "Long " or "Short " followed by that segment, stripped, according to
    whether "LONG" or else "SHORT" occurs in the signal, and the explicit
    [order_id] field when neither does; without "STEP" it is the explicit
    field. *)
Theorem order_id_resolution :
  order_id_of {| alert_signal := Some "ENTRY LONG STEP 1";
                 alert_order_action := Some "buy";
                 alert_order_id := None |} = "Long 1"
  ∧ weight_of "Long 1" = of_ratio false 70 100
  ∧ ∀ data : alert,
      let signal := PyStr.upper (get_or_empty (alert_signal data)) in
      let raw_order_id := get_or_empty (alert_order_id data) in
      let step := PyStr.last_seg (PyStr.split "STEP" signal) in
      PyStr.contains "STEP" step = false ∧
      if PyStr.contains "STEP" signal then
        (∃ before, signal = before +:+ "STEP" +:+ step) ∧
        order_id_of data =
          if PyStr.contains "LONG" signal then "Long " +:+ PyStr.strip step
          else if PyStr.contains "SHORT" signal then "Short " +:+ PyStr.strip step
          else raw_order_id
      else order_id_of data = raw_order_id.
Proof.
  split; [reflexivity|]. split; [vm_compute; reflexivity|].
  intros data. cbv zeta.
  destruct (split_last "STEP" (PyStr.upper (get_or_empty (alert_signal data))))
    as [Hfree Hend]; [discriminate|].
  split; [exact Hfree|].
  unfold order_id_of, resolve_order_id.
  destruct (PyStr.contains "STEP" (PyStr.upper _)) eqn:E; cbv iota;
    [|reflexivity].
  split; [now apply Hend | reflexivity].
Qed.

(** ** Order side *)



(** ** Failures *)

(** C7: when the balance fetch of a request returns 0, the handler answers
    500 with the insufficient-balance error, and the balance fetch is the
    only call it made: no price fetch, no quantity computation, no order. *)
Theorem zero_balance_aborts :
  ∀ (key secret : string) (fstr : float → string) (ext : env)
    (seen : gset string) (r : result response) (w : world),
    webhook key secret fstr ext (world_of seen) = (r, w) →
    GetWalletBalance ∈ calls w →
    is_zero (get_wallet_balance ext) = true →
    r = Return {| status_code := 500;
                  body := JError "Insufficient balance or failed to fetch" |}
    ∧ calls w = [GetWalletBalance].
Proof.
  intros key secret fstr ext seen r w H Hin Hz.
  rewrite webhook_run in H. cbv zeta in H. rewrite Hz in H.
  repeat match type of H with
         | context [match ?x with _ => _ end] => destruct x eqn:?
         end;
    injection H as <- <-; try (now apply elem_of_nil in Hin);
    split; reflexivity.
Qed.

Lemma zero_balance_aborts_witness :
  let ext := sample_env (sample_alert "ENTRY LONG STEP 1" "buy")
               (Zero false) (Some (of_Z 100)) in
  let run := webhook "key" "secret" sample_str ext (world_of ∅) in
  run.1 = Return {| status_code := 500;
                    body := JError "Insufficient balance or failed to fetch" |}
  ∧ calls run.2 = [GetWalletBalance].
Proof.
  intros ext run.
  apply (zero_balance_aborts "key" "secret" sample_str ext ∅).
  - apply surjective_pairing.
  - vm_compute. apply list_elem_of_here.
  - reflexivity.
Defined.



(** ** Request signing *)

Global Instance item_le_total : Total item_le.
Proof.
  intros [k1 v1] [k2 v2]. unfold item_le. simpl.
  destruct (decide (k1 = k2)) as [->|Hne].
  - destruct (total (≤)%string v1 v2); auto.
  - destruct (total (≤)%string k1 k2); auto.
Qed.

Global Instance item_le_trans : Transitive item_le.
Proof.
  intros [k1 v1] [k2 v2] [k3 v3]. unfold item_le. simpl.
  intros [[Hn12 H12]|[-> H12]] [[Hn23 H23]|[-> H23]]; auto.
  - left. split; [|by etrans].
    intros ->. apply Hn12. by apply (anti_symm (≤)%string).
  - right. split; [done | by etrans].
Qed.

Global Instance item_le_antisym : AntiSymm (=) item_le.
Proof.
  intros [k1 v1] [k2 v2]. unfold item_le. simpl.
  intros [[Hn12 H12]|[-> H12]] [[Hn21 H21]|[E H21]]; try congruence.
  - exfalso. apply Hn12. by apply (anti_symm (≤)%string).
  - f_equal. by apply (anti_symm (≤)%string).
Qed.

(** The sorted items depend on the set of items only. *)
Lemma sorted_items_perm (p1 p2 : params) :
  p1 ≡ₚ p2 → sorted_items p1 = sorted_items p2.
Proof.
  intros Hp. unfold sorted_items.
  apply (Sorted_unique item_le); [apply Sorted_merge_sort, _ ..|].
  by rewrite !merge_sort_Permutation.
Qed.

(** With unique keys the sorted items ascend strictly by key. *)
Lemma sorted_items_by_key (p : params) :
  NoDup p.*1 →
  StronglySorted (λ a b, a.1 ≠ b.1 ∧ (a.1 ≤ b.1)%string) (sorted_items p).
Proof.
  intros Hnd. unfold sorted_items.
  pose proof (StronglySorted_merge_sort item_le p) as Hs.
  assert (NoDup (merge_sort item_le p).*1) as Hnd'.
  { by rewrite merge_sort_Permutation. }
  revert Hs Hnd'. generalize (merge_sort item_le p). clear.
  induction 1 as [|a l Hs IH Hall]; intros Hnd; [constructor|].
  rewrite fmap_cons in Hnd. apply NoDup_cons in Hnd as [Hnotin Hnd].
  constructor; [by apply IH|].
  apply Forall_forall. intros b Hb.
  rewrite Forall_forall in Hall. destruct (Hall b Hb) as [?|[Heq _]]; [done|].
  exfalso. apply Hnotin. rewrite Heq. apply list_elem_of_fmap. by exists b.
Qed.

Lemma dict_set_fresh k v (d : params) :
  k ∉ d.*1 → dict_set k v d = d ++ [(k, v)].
Proof.
  induction d as [|[k' v'] d IH]; intros Hk; [reflexivity|].
  rewrite fmap_cons, not_elem_of_cons in Hk. destruct Hk as [Hne Hk].
  cbn [dict_set]. destruct (decide (k' = k)) as [->|_]; [done|].
  by rewrite IH.
Qed.

(** C4: the signature does not depend on the order in which the
    parameters were put in the mapping: two mappings holding the same
    key/value pairs get the same hexadecimal HMAC-SHA256 signature.  It is
    the HMAC of the pairs sorted (strictly ascending by key when keys are
    unique), written key=value and joined with "&"; the order request
    signs its parameters without the "sign" field and appends that field
    last. *)
Theorem signature_order_independent :
  ∀ (secret : string) (p1 p2 : params),
    p1 ≡ₚ p2 →
    generate_signature secret p1 = generate_signature secret p2
    ∧ generate_signature secret p1
      = hmac_sha256_hexdigest secret
          (String.concat "&" ((λ kv, kv.1 +:+ "=" +:+ kv.2) <$> sorted_items p1))
    ∧ sorted_items p1 ≡ₚ p1
    ∧ (NoDup p1.*1 →
       StronglySorted (λ a b, a.1 ≠ b.1 ∧ (a.1 ≤ b.1)%string) (sorted_items p1))
    ∧ ∀ (key : string) (fstr : float → string) (side symbol : string)
        (qty : float) (timestamp : string),
        ∃ unsigned,
          "sign" ∉ unsigned.*1 ∧
          order_params key secret fstr side symbol qty timestamp
          = unsigned ++ [("sign", generate_signature secret unsigned)].
Proof.
  intros secret p1 p2 Hp. split; [|split; [|split; [|split]]].
  - unfold generate_signature. by rewrite (sorted_items_perm p1 p2 Hp).
  - reflexivity.
  - apply merge_sort_Permutation.
  - apply sorted_items_by_key.
  - intros key fstr side symbol qty timestamp. eexists. split.
    2:{ unfold order_params. cbv zeta. apply dict_set_fresh.
        cbn. repeat (apply not_elem_of_cons; split; [discriminate|]).
        apply not_elem_of_nil. }
    cbn. repeat (apply not_elem_of_cons; split; [discriminate|]).
    apply not_elem_of_nil.
Qed.

(** The balance request's parameters, in two insertion orders. *)
Lemma signature_order_independent_witness :
  generate_signature "secret"
    [("apiKey", "key"); ("timestamp", "1700000000500"); ("accountType", "UNIFIED")]
  = generate_signature "secret"
    [("accountType", "UNIFIED"); ("apiKey", "key"); ("timestamp", "1700000000500")].
Proof.
  apply (signature_order_independent "secret"
           [("apiKey", "key"); ("timestamp", "1700000000500");
            ("accountType", "UNIFIED")]
           [("accountType", "UNIFIED"); ("apiKey", "key");
            ("timestamp", "1700000000500")]).
  etrans; [apply perm_skip, perm_swap | apply perm_swap].
Defined.

(** ** Rounding *)

Section Rounding.

Lemma rne_div_cases n d :
  rne_div n d = n / d ∨ rne_div n d = n / d + 1.
Proof.
  unfold rne_div. destruct (2 * (n mod d) ?= d); auto.
  destruct (Z.even (n / d)); auto.
Qed.

Lemma rne_div_exact k d : 0 < d → rne_div (k * d) d = k.
Proof.
  intros Hd. unfold rne_div.
  rewrite Z.mod_mul, Z.div_mul by lia.
  destruct (Z.compare_spec (2 * 0) d); lia.
Qed.

(** Floors of ordered fractions are ordered. *)
Lemma div_le_cross n1 d1 n2 d2 :
  0 < d1 → 0 < d2 → n1 * d2 ≤ n2 * d1 → n1 / d1 ≤ n2 / d2.
Proof.
  intros H1 H2 H.
  pose proof (Z.div_mod n1 d1 ltac:(lia)) as E1.
  pose proof (Z.div_mod n2 d2 ltac:(lia)) as E2.
  pose proof (Z.mod_pos_bound n1 d1 H1) as B1.
  pose proof (Z.mod_pos_bound n2 d2 H2) as B2.
  destruct (Z_le_gt_dec (n1 / d1) (n2 / d2)) as [|Hgt]; [assumption|].
  exfalso.
  assert (n2 / d2 + 1 ≤ n1 / d1) as Hq by lia.
  assert (d1 * (n2 / d2 + 1) ≤ d1 * (n1 / d1)) as H3 by (apply Z.mul_le_mono_nonneg_l; lia).
  assert (n2 * d1 < d2 * (n2 / d2 + 1) * d1) as H4 by (apply Z.mul_lt_mono_pos_r; lia).
  assert (d1 * (n1 / d1) * d2 ≤ n1 * d2) as H5 by (apply Z.mul_le_mono_nonneg_r; lia).
  nia.
Qed.

(** Rounding to the nearest integer is monotone. *)
Lemma rne_div_mono n1 d1 n2 d2 :
  0 < d1 → 0 < d2 → n1 * d2 ≤ n2 * d1 → rne_div n1 d1 ≤ rne_div n2 d2.
Proof.
  intros H1 H2 H.
  pose proof (div_le_cross n1 d1 n2 d2 H1 H2 H) as Hq.
  destruct (Z.eq_dec (n1 / d1) (n2 / d2)) as [E|Hne].
  2:{ destruct (rne_div_cases n1 d1), (rne_div_cases n2 d2); lia. }
  pose proof (Z.div_mod n1 d1 ltac:(lia)) as E1.
  pose proof (Z.div_mod n2 d2 ltac:(lia)) as E2.
  pose proof (Z.mod_pos_bound n1 d1 H1) as B1.
  pose proof (Z.mod_pos_bound n2 d2 H2) as B2.
  assert (n1 mod d1 * d2 ≤ n2 mod d2 * d1) as Hr by nia.
  unfold rne_div. rewrite <- E.
  destruct (Z.compare_spec (2 * (n1 mod d1)) d1) as [Ha|Ha|Ha];
    destruct (Z.compare_spec (2 * (n2 mod d2)) d2) as [Hb|Hb|Hb];
    destruct (Z.even (n1 / d1)); try lia; exfalso; nia.
Qed.

End Rounding.

Section Core.

Lemma round_core_shift n d :
  (round_core n d).2 = Z.max (Z.log2 (n / d) - 52) 0.
Proof. reflexivity. Qed.

Lemma round_core_format n d : 0 ≤ n → 0 < d → in_format (round_core n d).
Proof.
  intros Hn Hd. unfold in_format, round_core. cbn [fst snd].
  remember (n / d) as t eqn:Et.
  remember (Z.max (Z.log2 t - 52) 0) as s eqn:Es.
  assert (0 ≤ t) as Ht by (subst t; apply Z.div_pos; lia).
  assert (0 ≤ s) as Hs by lia.
  assert (0 < 2 ^ s) as Hp by (apply Z.pow_pos_nonneg; lia).
  assert (n / (d * 2 ^ s) = t / 2 ^ s) as Hdiv.
  { subst t. rewrite Z.div_div; lia. }
  split; [exact Hs|].
  destruct (Z.max_spec (Z.log2 t - 52) 0) as [[Hlt Hmax]|[Hge Hmax]];
    rewrite <- Es in Hmax.
  - (* the first binade and below: no shift *)
    assert (t < 2 ^ 53) as Hb.
    { destruct (Z.eq_dec t 0) as [->|]; [reflexivity|].
      apply Z.log2_lt_pow2; lia. }
    assert (t / 2 ^ s = t) as Hq by (rewrite Hmax, Z.pow_0_r; apply Z.div_1_r).
    destruct (rne_div_cases n (d * 2 ^ s)) as [E|E]; rewrite E, Hdiv, Hq; lia.
  - assert (0 < t) as Hpos.
    { destruct (Z.eq_dec t 0) as [E|]; [|lia]. rewrite E in Hge. simpl in Hge. lia. }
    destruct (Z.log2_spec t Hpos) as [Hlo Hhi].
    assert (2 ^ Z.log2 t = 2 ^ 52 * 2 ^ s) as Epow.
    { rewrite <- Z.pow_add_r by lia. f_equal. lia. }
    assert (2 ^ Z.succ (Z.log2 t) = 2 ^ s * 2 ^ 53) as Epow'.
    { rewrite <- Z.pow_add_r by lia. f_equal. lia. }
    assert (2 ^ 52 ≤ t / 2 ^ s) as Hlo'.
    { apply Z.div_le_lower_bound; lia. }
    assert (t / 2 ^ s < 2 ^ 53) as Hhi'.
    { apply Z.div_lt_upper_bound; lia. }
    destruct (rne_div_cases n (d * 2 ^ s)) as [E|E]; rewrite E, Hdiv; lia.
Qed.

(** Rounding is monotone: a larger exact value never rounds below a
    smaller one. *)
Lemma round_core_mono n1 d1 n2 d2 :
  0 ≤ n1 → 0 < d1 → 0 < d2 → n1 * d2 ≤ n2 * d1 →
  units (round_core n1 d1) ≤ units (round_core n2 d2).
Proof.
  intros Hn1 Hd1 Hd2 H.
  assert (0 ≤ n2) as Hn2 by nia.
  pose proof (round_core_format n1 d1 Hn1 Hd1) as (Hs1 & Hm1 & _).
  pose proof (round_core_format n2 d2 Hn2 Hd2) as (Hs2 & Hm2 & Hlo2).
  pose proof (div_le_cross n1 d1 n2 d2 Hd1 Hd2 H) as Ht.
  assert (0 ≤ n1 / d1) as Ht1 by (apply Z.div_pos; lia).
  pose proof (Z.log2_le_mono _ _ Ht) as HL.
  unfold units. rewrite !round_core_shift in *.
  set (s1 := Z.max (Z.log2 (n1 / d1) - 52) 0) in *.
  set (s2 := Z.max (Z.log2 (n2 / d2) - 52) 0) in *.
  assert (s1 ≤ s2) as Hs by lia.
  assert (0 < 2 ^ s1) as Hp1 by (apply Z.pow_pos_nonneg; lia).
  destruct (Z.eq_dec s1 s2) as [E|Hne].
  - unfold round_core. cbn [fst]. fold s1 s2. rewrite <- E.
    apply Z.mul_le_mono_nonneg_r; [lia|].
    apply rne_div_mono; nia.
  - assert (2 ^ s1 * 2 ≤ 2 ^ s2) as Hpow.
    { rewrite <- (Z.pow_1_r 2) at 2. rewrite <- Z.pow_add_r by lia.
      apply Z.pow_le_mono_r; lia. }
    specialize (Hlo2 ltac:(lia)).
    transitivity (2 ^ 53 * 2 ^ s1).
    + apply Z.mul_le_mono_nonneg_r; lia.
    + transitivity (2 ^ 52 * 2 ^ s2); [|apply Z.mul_le_mono_nonneg_r; lia].
      change (2 ^ 53) with (2 ^ 52 * 2). lia.
Qed.

End Core.

Section Packing.

Lemma ratio_pos m e : 0 < (ratio m e).1 ∧ 0 < (ratio m e).2.
Proof.
  unfold ratio. cbn [fst snd].
  assert (0 < 2 ^ Z.max (e + 1074) 0) by (apply Z.pow_pos_nonneg; lia).
  assert (0 < 2 ^ Z.max (- (e + 1074)) 0) by (apply Z.pow_pos_nonneg; lia).
  split; [apply Z.mul_pos_pos|]; lia.
Qed.

(** From exponent [-1074] up a number is a whole number of units. *)
Lemma ratio_units m s : 0 ≤ s → ratio m (s - 1074) = (Zpos m * 2 ^ s, 1).
Proof.
  intros Hs. unfold ratio.
  replace (s - 1074 + 1074) with s by lia.
  rewrite Z.max_l, Z.max_r by lia. reflexivity.
Qed.

(** [<=] on two positive finite numbers compares the exact values. *)
Lemma fle_fin m1 e1 m2 e2 :
  fle (Fin false m1 e1) (Fin false m2 e2) = true ↔
  (ratio m1 e1).1 * (ratio m2 e2).2 ≤ (ratio m2 e2).1 * (ratio m1 e1).2.
Proof.
  unfold fle, fcompare.
  destruct (ratio m1 e1) as [n1 d1], (ratio m2 e2) as [n2 d2].
  cbn [fst snd signed].
  destruct (Z.compare_spec (n1 * d2) (n2 * d1)); split; (lia || congruence).
Qed.

Lemma renorm_format ms :
  in_format ms →
  units (renorm ms) = units ms ∧ 0 ≤ (renorm ms).2 ∧
  0 ≤ (renorm ms).1 < 2 ^ 53 ∧ (0 < (renorm ms).2 → 2 ^ 52 ≤ (renorm ms).1).
Proof.
  destruct ms as [m s]. unfold in_format, renorm, units. cbn [fst snd].
  intros (Hs & Hm & Hlo).
  destruct (Z.eqb_spec m (2 ^ 53)) as [->|Hne]; cbn [fst snd].
  - rewrite Z.pow_add_r, Z.pow_1_r by lia.
    change (2 ^ 53) with (2 ^ 52 * 2). lia.
  - lia.
Qed.

(** The three outcomes of packing a rounded significand. *)
Lemma pack_spec neg ms :
  in_format ms →
  (units ms = 0 ∧ pack neg ms = Zero neg) ∨
  (2 ^ 2098 ≤ units ms ∧ pack neg ms = Inf neg) ∨
  (∃ p s, pack neg ms = Fin neg p (s - 1074) ∧ 0 ≤ s ≤ 2045 ∧
          Zpos p * 2 ^ s = units ms ∧ Zpos p < 2 ^ 53 ∧ units ms < 2 ^ 2098).
Proof.
  intros Hf. destruct (renorm_format ms Hf) as (Hu & Hs & Hm & Hlo).
  unfold pack. rewrite <- Hu. destruct (renorm ms) as [m s].
  unfold units in *. cbn [fst snd] in *.
  assert (0 < 2 ^ s) as Hp by (apply Z.pow_pos_nonneg; lia).
  destruct m as [|p|p]; [left; split; [lia|reflexivity] | | lia].
  right. destruct (Z.leb_spec s 2045) as [Hle|Hgt].
  - right. exists p, s. repeat split; try lia.
    assert (2 ^ s ≤ 2 ^ 2045) by (apply Z.pow_le_mono_r; lia).
    change (2 ^ 2098) with (2 ^ 53 * 2 ^ 2045).
    apply Z.le_lt_trans with (Z.pos p * 2 ^ 2045).
    + apply Z.mul_le_mono_nonneg_l; lia.
    + apply Z.mul_lt_mono_pos_r; lia.
  - left. split; [|reflexivity].
    assert (2 ^ 2046 ≤ 2 ^ s) by (apply Z.pow_le_mono_r; lia).
    change (2 ^ 2098) with (2 ^ 52 * 2 ^ 2046).
    specialize (Hlo ltac:(lia)).
    apply Z.le_trans with (Z.pos p * 2 ^ 2046).
    + apply Z.mul_le_mono_nonneg_r; lia.
    + apply Z.mul_le_mono_nonneg_l; lia.
Qed.

Lemma pack_le ms1 ms2 :
  in_format ms1 → in_format ms2 → units ms1 ≤ units ms2 →
  fle (pack false ms1) (pack false ms2) = true.
Proof.
  intros H1 H2 Hle.
  destruct (pack_spec false ms1 H1) as [[U1 ->]|[[U1 ->]|(p1 & s1 & -> & Hs1 & U1 & _ & B1)]];
    destruct (pack_spec false ms2 H2) as [[U2 ->]|[[U2 ->]|(p2 & s2 & -> & Hs2 & U2 & _ & B2)]];
    try reflexivity; try lia.
  apply fle_fin. rewrite !ratio_units by lia. cbn [fst snd]. lia.
Qed.

(** Rounded results are zero, positive or infinite, never negative and
    never NaN. *)
Lemma RN64_shape n d :
  (∃ m e, RN64 false n d = Fin false m e) ∨ RN64 false n d = Zero false
  ∨ RN64 false n d = Inf false.
Proof.
  unfold RN64, pack. destruct (renorm _) as [[|p|p] s]; auto.
  destruct (s <=? 2045); eauto.
Qed.

(** Rounding to binary64 is monotone. *)
Lemma RN64_mono n1 d1 n2 d2 :
  0 ≤ n1 → 0 < d1 → 0 < d2 → n1 * d2 ≤ n2 * d1 →
  fle (RN64 false n1 d1) (RN64 false n2 d2) = true.
Proof.
  intros Hn1 Hd1 Hd2 H. unfold RN64.
  apply pack_le.
  - by apply round_core_format.
  - apply round_core_format; [nia | done].
  - by apply round_core_mono.
Qed.

End Packing.

Section Operations.

Lemma RN64_nonneg n d : nonneg (RN64 false n d) = true.
Proof. by destruct (RN64_shape n d) as [(m & e & ->)|[-> | ->]]. Qed.

Lemma RN64_not_nan n d : is_nan (RN64 false n d) = false.
Proof. by destruct (RN64_shape n d) as [(m & e & ->)|[-> | ->]]. Qed.

Lemma fle_zero_l s x : nonneg x = true → fle (Zero s) x = true.
Proof. by destruct x as [|[]|?|[] ? ?]. Qed.

Lemma fle_inf_r x : nonneg x = true → fle x (Inf false) = true.
Proof. by destruct x as [|[]|?|[] ? ?]. Qed.

Lemma fle_fin_zero m e s : fle (Fin false m e) (Zero s) = false.
Proof. reflexivity. Qed.

Lemma rne_div_nonneg n d : 0 ≤ n → 0 < d → 0 ≤ rne_div n d.
Proof.
  intros Hn Hd. assert (0 ≤ n / d) by (apply Z.div_pos; lia).
  destruct (rne_div_cases n d); lia.
Qed.

(** Scaling both sides of an ordered pair of fractions. *)
Lemma cross_scale a b c : a ≤ b → 0 ≤ c → a * c ≤ b * c.
Proof. intros. by apply Z.mul_le_mono_nonneg_r. Qed.

Lemma fmul_comm x y : fmul x y = fmul y x.
Proof.
  destruct x as [|sx|sx|sx mx ex], y as [|sy|sy|sy my ey]; cbn;
    rewrite ?(xorb_comm sx sy); try reflexivity.
  destruct (ratio mx ex) as [nx dx], (ratio my ey) as [ny dy].
  f_equal; ring.
Qed.

Lemma fmul_nonneg x y :
  nonneg x = true → nonneg y = true → is_nan (fmul x y) = false →
  nonneg (fmul x y) = true.
Proof.
  destruct x as [|[]|sx|[] mx ex], y as [|[]|sy|[] my ey]; try done.
  intros _ _ _. cbn. destruct (ratio mx ex), (ratio my ey). apply RN64_nonneg.
Qed.

(** Multiplication by a non-negative number is monotone. *)
Lemma fmul_mono_l x1 x2 y :
  nonneg x1 = true → nonneg x2 = true → nonneg y = true →
  fle x1 x2 = true →
  is_nan (fmul x1 y) = false → is_nan (fmul x2 y) = false →
  fle (fmul x1 y) (fmul x2 y) = true.
Proof.
  intros H1 H2 Hy Hle N1 N2.
  destruct y as [|[]|sy|[] my ey]; try done.
  - (* y infinite *)
    destruct x1 as [|[]|s1|[] m1 e1], x2 as [|[]|s2|[] m2 e2]; done.
  - (* y zero *)
    destruct x1 as [|[]|s1|[] m1 e1], x2 as [|[]|s2|[] m2 e2]; done.
  - (* y positive *)
    destruct x1 as [|[]|s1|[] m1 e1]; try done.
    + apply fle_inf_r in H2. destruct x2 as [|[]|s2|[] m2 e2]; done.
    + apply fle_zero_l. cbn. by apply fmul_nonneg.
    + destruct x2 as [|[]|s2|[] m2 e2]; try done.
      * apply fle_inf_r. by apply fmul_nonneg.
      * apply fle_fin in Hle. cbn.
        pose proof (ratio_pos m1 e1) as [? ?].
        pose proof (ratio_pos m2 e2) as [? ?].
        pose proof (ratio_pos my ey) as [? ?].
        destruct (ratio m1 e1) as [n1 d1], (ratio m2 e2) as [n2 d2],
                 (ratio my ey) as [ny dy]. cbn [fst snd] in *.
        assert (0 < 2 ^ 1074) by reflexivity.
        apply RN64_mono; nia.
Qed.

Lemma fmul_mono_r x y1 y2 :
  nonneg x = true → nonneg y1 = true → nonneg y2 = true →
  fle y1 y2 = true →
  is_nan (fmul x y1) = false → is_nan (fmul x y2) = false →
  fle (fmul x y1) (fmul x y2) = true.
Proof.
  rewrite (fmul_comm x y1), (fmul_comm x y2). intros. by apply fmul_mono_l.
Qed.

Lemma fdiv_nonneg x y q :
  nonneg x = true → positive_number y = true → fdiv x y = Some q →
  is_nan q = false → nonneg q = true.
Proof.
  destruct x as [|[]|sx|[] mx ex], y as [|[]|sy|[] my ey]; try done;
    intros _ _ [= <-]; try done.
  intros _. destruct (ratio mx ex), (ratio my ey). apply RN64_nonneg.
Qed.

(** Division by a positive number is monotone in the dividend ... *)
Lemma fdiv_mono_l x1 x2 y q1 q2 :
  nonneg x1 = true → nonneg x2 = true → positive_number y = true →
  fle x1 x2 = true →
  fdiv x1 y = Some q1 → fdiv x2 y = Some q2 →
  is_nan q1 = false → is_nan q2 = false →
  fle q1 q2 = true.
Proof.
  intros H1 H2 Hy Hle E1 E2 N1 N2.
  pose proof (fdiv_nonneg _ _ _ H1 Hy E1 N1) as P1.
  pose proof (fdiv_nonneg _ _ _ H2 Hy E2 N2) as P2.
  destruct y as [|[]|sy|[] my ey]; try done.
  - (* y infinite: finite dividends give zero *)
    destruct x1 as [|[]|s1|[] m1 e1], x2 as [|[]|s2|[] m2 e2];
      simplify_eq/=; done.
  - destruct x1 as [|[]|s1|[] m1 e1]; try done.
    + destruct x2 as [|[]|s2|[] m2 e2]; simplify_eq/=; done.
    + injection E1 as <-. by apply fle_zero_l.
    + destruct x2 as [|[]|s2|[] m2 e2]; try done.
      * injection E2 as <-. by apply fle_inf_r.
      * apply fle_fin in Hle. unfold fdiv in E1, E2.
        pose proof (ratio_pos m1 e1) as [? ?].
        pose proof (ratio_pos m2 e2) as [? ?].
        pose proof (ratio_pos my ey) as [? ?].
        destruct (ratio m1 e1) as [n1 d1], (ratio m2 e2) as [n2 d2],
                 (ratio my ey) as [ny dy]. cbn [fst snd xorb] in *.
        injection E1 as <-. injection E2 as <-.
        assert (0 < 2 ^ 1074) by reflexivity.
        apply RN64_mono; nia.
Qed.

(** ... and antitone in the divisor. *)
Lemma fdiv_anti_r x y1 y2 q1 q2 :
  nonneg x = true → positive_number y1 = true → positive_number y2 = true →
  fle y1 y2 = true →
  fdiv x y1 = Some q1 → fdiv x y2 = Some q2 →
  is_nan q1 = false → is_nan q2 = false →
  fle q2 q1 = true.
Proof.
  intros Hx H1 H2 Hle E1 E2 N1 N2.
  pose proof (fdiv_nonneg _ _ _ Hx H1 E1 N1) as P1.
  pose proof (fdiv_nonneg _ _ _ Hx H2 E2 N2) as P2.
  destruct x as [|[]|sx|[] mx ex]; try done.
  - destruct y1 as [|[]|s1|[] m1 e1], y2 as [|[]|s2|[] m2 e2];
      simplify_eq/=; done.
  - destruct y1 as [|[]|s1|[] m1 e1], y2 as [|[]|s2|[] m2 e2];
      simplify_eq/=; done.
  - destruct y2 as [|[]|s2|[] m2 e2]; try done.
    + injection E2 as <-. by apply fle_zero_l.
    + destruct y1 as [|[]|s1|[] m1 e1]; try done.
      apply fle_fin in Hle. unfold fdiv in E1, E2.
      pose proof (ratio_pos m1 e1) as [? ?].
      pose proof (ratio_pos m2 e2) as [? ?].
      pose proof (ratio_pos mx ex) as [? ?].
      destruct (ratio m1 e1) as [n1 d1], (ratio m2 e2) as [n2 d2],
               (ratio mx ex) as [nx dx]. cbn [fst snd xorb] in *.
      injection E1 as <-. injection E2 as <-.
      assert (0 < 2 ^ 1074) by reflexivity.
      apply RN64_mono; nia.
Qed.

Lemma round3_nonneg x : nonneg x = true → nonneg (round3 x) = true.
Proof.
  destruct x as [|[]|sx|[] mx ex]; try done.
  intros _. unfold round3. destruct (ratio mx ex). apply RN64_nonneg.
Qed.

Lemma round3_nan x : is_nan (round3 x) = is_nan x.
Proof.
  destruct x as [|[]|sx|[] mx ex]; try done;
    unfold round3; destruct (ratio mx ex); cbn;
    unfold RN64, pack; destruct (renorm _) as [[|p|p] s]; try done;
    by destruct (s <=? 2045).
Qed.

(** Rounding to three decimals is monotone. *)
Lemma round3_mono x1 x2 :
  nonneg x1 = true → nonneg x2 = true → fle x1 x2 = true →
  fle (round3 x1) (round3 x2) = true.
Proof.
  intros H1 H2 Hle.
  destruct x1 as [|[]|s1|[] m1 e1]; try done.
  - apply fle_inf_r in H2. destruct x2 as [|[]|s2|[] m2 e2]; done.
  - apply fle_zero_l. by apply round3_nonneg.
  - destruct x2 as [|[]|s2|[] m2 e2]; try done.
    + apply fle_inf_r. by apply (round3_nonneg (Fin false m1 e1)).
    + apply fle_fin in Hle. unfold round3.
      pose proof (ratio_pos m1 e1) as [? ?].
      pose proof (ratio_pos m2 e2) as [? ?].
      destruct (ratio m1 e1) as [n1 d1], (ratio m2 e2) as [n2 d2].
      cbn [fst snd] in *.
      assert (0 < 2 ^ 1074) by reflexivity.
      assert (rne_div (n1 * 1000) (d1 * 2 ^ 1074)
              ≤ rne_div (n2 * 1000) (d2 * 2 ^ 1074)) as Hr.
      { apply rne_div_mono; nia. }
      assert (0 ≤ rne_div (n1 * 1000) (d1 * 2 ^ 1074)).
      { apply rne_div_nonneg; nia. }
      apply RN64_mono; nia.
Qed.

End Operations.

Section Sizing.

Lemma round_core_one d : 0 < d → units (round_core d d) = 1.
Proof.
  intros Hd. unfold round_core, units. cbn [fst snd].
  rewrite Z.div_same by lia.
  change (Z.max (Z.log2 1 - 52) 0) with 0. rewrite Z.pow_0_r, !Z.mul_1_r.
  pose proof (rne_div_exact 1 d Hd) as H. by rewrite Z.mul_1_l in H.
Qed.

(** A value of at least one unit does not round to zero. *)
Lemma RN64_nonzero neg n d : 0 < d → d ≤ n → is_zero (RN64 neg n d) = false.
Proof.
  intros Hd Hn.
  pose proof (round_core_mono d d n d ltac:(lia) Hd Hd ltac:(nia)) as Hm.
  rewrite round_core_one in Hm by assumption.
  unfold RN64.
  destruct (pack_spec neg (round_core n d)) as [[U _]|[[_ ->]|(p & s & -> & _)]];
    [apply round_core_format; lia | lia | reflexivity ..].
Qed.

(** From here on rounded values are handled through the lemmas above (or
    evaluated outright), not unfolded. *)
Global Opaque RN64.

Lemma fdiv_None x y : fdiv x y = None ↔ is_zero y = true.
Proof.
  destruct x as [|sx|sx|sx mx ex], y as [|sy|sy|sy my ey]; cbn;
    try (split; congruence).
  destruct (ratio mx ex), (ratio my ey). split; congruence.
Qed.

(** [1 + SLIPPAGE], the binary64 number nearest to 1.0035. *)
Lemma slip_factor : fadd (of_Z 1) SLIPPAGE = Fin false 4519362226066293 (-52).
Proof. vm_compute. reflexivity. Qed.

Lemma leverage_float : of_Z LEVERAGE = Fin false 6755399441055744 (-51).
Proof. vm_compute. reflexivity. Qed.

(** A non-zero binary64 price times [1 + SLIPPAGE] is not zero. *)
Lemma adjusted_price_nonzero price :
  is_binary64 price = true → is_zero price = false →
  is_zero (fmul price (fadd (of_Z 1) SLIPPAGE)) = false.
Proof.
  rewrite slip_factor.
  destruct price as [|s|s|s m e]; try done.
  unfold is_binary64. intros Hb _.
  apply andb_true_iff in Hb as [Hb _]. apply andb_true_iff in Hb as [_ He].
  apply Z.leb_le in He.
  unfold fmul.
  replace e with ((e + 1074) - 1074) by lia.
  rewrite ratio_units by lia.
  change (-52) with (1022 - 1074). rewrite ratio_units by lia.
  apply RN64_nonzero; [reflexivity|].
  assert (1 ≤ 2 ^ (e + 1074)) by (apply (Z.pow_le_mono_r 2 0); lia).
  assert (1 ≤ Z.pos m * 2 ^ (e + 1074)) by nia.
  change (1 * 1 * 2 ^ 1074) with (1 * 2 ^ 1074).
  assert (2 ^ 1074 ≤ 4519362226066293 * 2 ^ 1022) by (vm_compute; discriminate).
  nia.
Qed.

Lemma adjusted_price_positive price :
  is_binary64 price = true → positive_number price = true →
  positive_number (fmul price (fadd (of_Z 1) SLIPPAGE)) = true.
Proof.
  intros Hb Hp.
  assert (is_zero price = false) as Hz by (by destruct price as [|[]|?|[] ? ?]).
  pose proof (adjusted_price_nonzero price Hb Hz) as Hn.
  rewrite slip_factor in *.
  destruct price as [|[]|?|[] m e]; try done.
  unfold fmul in *. destruct (ratio m e), (ratio _ (-52)). cbn [xorb] in *.
  by destruct (RN64_shape (z * z1) (z0 * z2 * 2 ^ 1074)) as [(m' & e' & ->)|[E | ->]];
    [| rewrite E in Hn |].
Qed.

Lemma nonneg_finite_nonneg x : nonneg_finite x = true → nonneg x = true.
Proof. by destruct x as [|[]|?|[] ? ?]. Qed.

(** The leveraged amount [balance * weight * LEVERAGE] is a non-negative
    number or infinity, never NaN. *)
Lemma usdt_amount_nonneg balance weight :
  nonneg_finite balance = true → nonneg_finite weight = true →
  let usdt_amount := fmul (fmul balance weight) (of_Z LEVERAGE) in
  nonneg (fmul balance weight) = true ∧ is_nan (fmul balance weight) = false ∧
  nonneg usdt_amount = true ∧ is_nan usdt_amount = false.
Proof.
  intros Hb Hw. cbv zeta. rewrite leverage_float.
  assert (nonneg (fmul balance weight) = true ∧ is_nan (fmul balance weight) = false)
    as [Ht Hn].
  { destruct balance as [|[]|?|[] mb eb], weight as [|[]|?|[] mw ew]; try done.
    unfold fmul. destruct (ratio mb eb), (ratio mw ew). cbn [xorb].
    split; [apply RN64_nonneg | apply RN64_not_nan]. }
  repeat split; try done.
  - destruct (fmul balance weight) as [|[]|?|[] m e]; try done.
    unfold fmul. destruct (ratio m e), (ratio _ (-51)). apply RN64_nonneg.
  - destruct (fmul balance weight) as [|[]|?|[] m e]; try done.
    unfold fmul. destruct (ratio m e), (ratio _ (-51)). apply RN64_not_nan.
Qed.

(** For a positive binary64 price the computation returns: no division by
    zero. *)
Lemma qty_of_weight_returns weight balance price :
  is_binary64 price = true → is_zero price = false →
  ∃ adjusted_qty,
    fdiv (fmul (fmul balance weight) (of_Z LEVERAGE))
         (fmul price (fadd (of_Z 1) SLIPPAGE)) = Some adjusted_qty
    ∧ qty_of_weight weight balance price = Some (round3 adjusted_qty).
Proof.
  intros Hb Hz. unfold qty_of_weight.
  destruct (fdiv _ _) as [a|] eqn:E; [by exists a|].
  apply fdiv_None in E. by rewrite adjusted_price_nonzero in E.
Qed.

End Sizing.

(** ** Position sizing *)

Lemma weight_of_nonneg order_id : nonneg_finite (weight_of order_id) = true.
Proof.
  unfold weight_of. destruct (weight_map !! order_id) as [w|] eqn:E; [|done].
  apply elem_of_list_to_map_2 in E.
  repeat (apply elem_of_cons in E as [[= _ ->]|E]; [done|]).
  by apply elem_of_nil in E.
Qed.

(** C2 as stated fails: the balance is whatever [float] read, and for an
    infinite balance the quantity of an unknown identifier is NaN
    ([inf * 0]), which is not equal to 0. *)
Lemma unknown_order_id_infinite_balance :
  weight_map !! "Long 9" = None
  ∧ positive_number (of_Z 100) = true
  ∧ calculate_qty "Long 9" (Inf false) (of_Z 100) = Some Nan
  ∧ feq Nan (of_Z 0) = false.
Proof. vm_compute. repeat split; reflexivity. Qed.

(** C2, amended: for an order identifier that is not in the weight table
    and every positive price, the computed quantity is zero for every
    finite balance (with the sign of the balance, so [+0.0] for a balance
    that is not negative), and it compares equal to 0; for a balance that
    is infinite or NaN it is NaN. *)
Theorem unknown_order_id_sizes_zero :
  ∀ (order_id : string) (balance price : float),
    weight_map !! order_id = None →
    is_binary64 price = true → positive_number price = true →
    (finite balance = true →
     calculate_qty order_id balance price = Some (Zero (signbit balance))
     ∧ feq (Zero (signbit balance)) (of_Z 0) = true)
    ∧ (finite balance = false →
       calculate_qty order_id balance price = Some Nan
       ∧ feq Nan (of_Z 0) = false).
Proof.
  intros order_id balance price Hw H64 Hp.
  assert (calculate_qty order_id balance price
          = Some (if finite balance then Zero (signbit balance) else Nan))
    as ->.
  { unfold calculate_qty, weight_of. rewrite Hw. cbn [default].
    unfold qty_of_weight. rewrite leverage_float.
    pose proof (adjusted_price_positive price H64 Hp) as Hden.
    destruct (fmul price _) as [|[]|?|[] md ed]; try done;
      destruct balance as [|?|s|s m e]; try done; cbn;
      by rewrite ?xorb_false_r. }
  split; intros ->; split; reflexivity.
Qed.

Lemma unknown_order_id_sizes_zero_witness :
  calculate_qty "Long 9" (of_Z 1000) (of_Z 100) = Some (Zero false)
  ∧ feq (Zero false) (of_Z 0) = true.
Proof.
  apply (unknown_order_id_sizes_zero "Long 9" (of_Z 1000) (of_Z 100));
    by vm_compute.
Defined.

(** C3 as stated fails: the scenario's quantity is not 20.930. *)
Lemma scenario_quantity_is_not_20_930 :
  calculate_qty "Long 1" (of_Z 1000) (of_Z 100)
  ≠ Some (of_ratio false 20930 1000).
Proof. vm_compute. discriminate. Qed.

(** C3, amended: with balance 1000, the weight 0.70 of "Long 1", leverage
    3, price 100 and slippage 0.0035 the computation returns
    [round(1000 * 0.70 * 3 / (100 * (1 + 0.0035)), 3)], and that value is
    20.927 (the quotient is 20.9267...). *)
Theorem scenario_quantity :
  weight_of "Long 1" = of_ratio false 70 100
  ∧ LEVERAGE = 3
  ∧ SLIPPAGE = of_ratio false 35 10000
  ∧ calculate_qty "Long 1" (of_Z 1000) (of_Z 100)
    = option_map round3
        (fdiv (fmul (fmul (of_Z 1000) (of_ratio false 70 100)) (of_Z 3))
              (fmul (of_Z 100) (fadd (of_Z 1) (of_ratio false 35 10000))))
  ∧ calculate_qty "Long 1" (of_Z 1000) (of_Z 100)
    = Some (of_ratio false 20927 1000).
Proof.
  split; [vm_compute; reflexivity|]. split; [reflexivity|].
  split; [vm_compute; reflexivity|].
  split; vm_compute; reflexivity.
Qed.

Lemma positive_number_nonneg x : positive_number x = true → nonneg x = true.
Proof. by destruct x as [|[]|?|[] ? ?]. Qed.

Lemma positive_number_not_zero x : positive_number x = true → is_zero x = false.
Proof. by destruct x as [|[]|?|[] ? ?]. Qed.

Lemma positive_number_not_nan x : positive_number x = true → is_nan x = false.
Proof. by destruct x as [|[]|?|[] ? ?]. Qed.

Section Monotone.

Variables (weight balance price : float).
Hypothesis weight_ok : nonneg_finite weight = true.
Hypothesis balance_ok : nonneg_finite balance = true.
Hypothesis price_ok : is_binary64 price = true ∧ positive_number price = true.

(** Non-decreasing in the balance. *)
Lemma qty_mono_balance balance' q q' :
  nonneg_finite balance' = true → fle balance balance' = true →
  qty_of_weight weight balance price = Some q →
  qty_of_weight weight balance' price = Some q' →
  is_nan q = false → is_nan q' = false → fle q q' = true.
Proof.
  intros Hb' Hle Hq Hq' Hn Hn'. destruct price_ok as [H64 Hpos].
  pose proof (positive_number_not_zero _ Hpos) as Hz.
  destruct (qty_of_weight_returns weight balance price H64 Hz) as (a & Ea & Qa).
  destruct (qty_of_weight_returns weight balance' price H64 Hz) as (a' & Ea' & Qa').
  rewrite Qa in Hq. rewrite Qa' in Hq'. injection Hq as <-. injection Hq' as <-.
  rewrite round3_nan in Hn, Hn'.
  destruct (usdt_amount_nonneg balance weight balance_ok weight_ok) as (Ht & Nt & Hu & Nu).
  destruct (usdt_amount_nonneg balance' weight Hb' weight_ok) as (Ht' & Nt' & Hu' & Nu').
  pose proof (adjusted_price_positive price H64 Hpos) as Hden.
  assert (fle (fmul balance weight) (fmul balance' weight) = true) as Lt.
  { apply fmul_mono_l; auto using nonneg_finite_nonneg. }
  assert (fle (fmul (fmul balance weight) (of_Z LEVERAGE))
              (fmul (fmul balance' weight) (of_Z LEVERAGE)) = true) as Lu.
  { rewrite leverage_float in *. by apply fmul_mono_l. }
  pose proof Hn as Na. pose proof Hn' as Na'.
  apply round3_mono.
  - exact (fdiv_nonneg _ _ _ Hu Hden Ea Na).
  - exact (fdiv_nonneg _ _ _ Hu' Hden Ea' Na').
  - exact (fdiv_mono_l _ _ _ _ _ Hu Hu' Hden Lu Ea Ea' Na Na').
Qed.

(** Non-decreasing in the weight. *)
Lemma qty_mono_weight weight' q q' :
  nonneg_finite weight' = true → fle weight weight' = true →
  qty_of_weight weight balance price = Some q →
  qty_of_weight weight' balance price = Some q' →
  is_nan q = false → is_nan q' = false → fle q q' = true.
Proof.
  intros Hw' Hle Hq Hq' Hn Hn'. destruct price_ok as [H64 Hpos].
  pose proof (positive_number_not_zero _ Hpos) as Hz.
  destruct (qty_of_weight_returns weight balance price H64 Hz) as (a & Ea & Qa).
  destruct (qty_of_weight_returns weight' balance price H64 Hz) as (a' & Ea' & Qa').
  rewrite Qa in Hq. rewrite Qa' in Hq'. injection Hq as <-. injection Hq' as <-.
  rewrite round3_nan in Hn, Hn'.
  destruct (usdt_amount_nonneg balance weight balance_ok weight_ok) as (Ht & Nt & Hu & Nu).
  destruct (usdt_amount_nonneg balance weight' balance_ok Hw') as (Ht' & Nt' & Hu' & Nu').
  pose proof (adjusted_price_positive price H64 Hpos) as Hden.
  assert (fle (fmul balance weight) (fmul balance weight') = true) as Lt.
  { apply fmul_mono_r; auto using nonneg_finite_nonneg. }
  assert (fle (fmul (fmul balance weight) (of_Z LEVERAGE))
              (fmul (fmul balance weight') (of_Z LEVERAGE)) = true) as Lu.
  { rewrite leverage_float in *. by apply fmul_mono_l. }
  pose proof Hn as Na. pose proof Hn' as Na'.
  apply round3_mono.
  - exact (fdiv_nonneg _ _ _ Hu Hden Ea Na).
  - exact (fdiv_nonneg _ _ _ Hu' Hden Ea' Na').
  - exact (fdiv_mono_l _ _ _ _ _ Hu Hu' Hden Lu Ea Ea' Na Na').
Qed.

(** Non-increasing in the price. *)
Lemma qty_anti_price price' q q' :
  is_binary64 price' = true → positive_number price' = true →
  fle price price' = true →
  qty_of_weight weight balance price = Some q →
  qty_of_weight weight balance price' = Some q' →
  is_nan q = false → is_nan q' = false → fle q' q = true.
Proof.
  intros H64' Hpos' Hle Hq Hq' Hn Hn'. destruct price_ok as [H64 Hpos].
  pose proof (positive_number_not_zero _ Hpos) as Hz.
  pose proof (positive_number_not_zero _ Hpos') as Hz'.
  destruct (qty_of_weight_returns weight balance price H64 Hz) as (a & Ea & Qa).
  destruct (qty_of_weight_returns weight balance price' H64' Hz') as (a' & Ea' & Qa').
  rewrite Qa in Hq. rewrite Qa' in Hq'. injection Hq as <-. injection Hq' as <-.
  rewrite round3_nan in Hn, Hn'.
  destruct (usdt_amount_nonneg balance weight balance_ok weight_ok) as (Ht & Nt & Hu & Nu).
  pose proof (adjusted_price_positive price H64 Hpos) as Hden.
  pose proof (adjusted_price_positive price' H64' Hpos') as Hden'.
  assert (fle (fmul price (fadd (of_Z 1) SLIPPAGE))
              (fmul price' (fadd (of_Z 1) SLIPPAGE)) = true) as Ld.
  { apply fmul_mono_l.
    - apply positive_number_nonneg, Hpos.
    - apply positive_number_nonneg, Hpos'.
    - rewrite slip_factor. reflexivity.
    - exact Hle.
    - apply positive_number_not_nan, Hden.
    - apply positive_number_not_nan, Hden'. }
  apply round3_mono.
  - exact (fdiv_nonneg _ _ _ Hu Hden' Ea' Hn').
  - exact (fdiv_nonneg _ _ _ Hu Hden Ea Hn).
  - exact (fdiv_anti_r _ _ _ _ _ Hu Hden Hden' Ld Ea Ea' Hn Hn').
Qed.

(** NaN comes out only when both the leveraged amount and the adjusted
    price overflowed to infinity. *)
Lemma qty_nan_only_at_overflow q :
  qty_of_weight weight balance price = Some q → is_nan q = true →
  fmul (fmul balance weight) (of_Z LEVERAGE) = Inf false
  ∧ fmul price (fadd (of_Z 1) SLIPPAGE) = Inf false.
Proof.
  intros Hq Hn. destruct price_ok as [H64 Hpos].
  pose proof (positive_number_not_zero _ Hpos) as Hz.
  destruct (qty_of_weight_returns weight balance price H64 Hz) as (a & Ea & Qa).
  rewrite Qa in Hq. injection Hq as <-. rewrite round3_nan in Hn.
  destruct (usdt_amount_nonneg balance weight balance_ok weight_ok) as (_ & _ & Hu & Nu).
  pose proof (adjusted_price_positive price H64 Hpos) as Hden.
  destruct (fmul (fmul balance weight) (of_Z LEVERAGE)) as [|[]|?|[] mu eu]; try done;
    destruct (fmul price _) as [|[]|?|[] md ed]; try done;
    cbn in Ea; try (injection Ea as <-; done).
  unfold fdiv in Ea. destruct (ratio mu eu), (ratio md ed). injection Ea as <-.
  by rewrite RN64_not_nan in Hn.
Qed.

End Monotone.

(** C5 as stated fails: with the price held at 1.797e308, raising the
    balance from 1 to 1e308 takes the quantity from 0.0 to NaN, which is
    not greater than or equal to anything. *)
Lemma quantity_not_monotone_at_overflow :
  let price := of_Z (1797 * 10 ^ 305) in
  let low := of_Z 1 in
  let high := of_Z (10 ^ 308) in
  is_binary64 price = true ∧ positive_number price = true
  ∧ nonneg_finite low = true ∧ nonneg_finite high = true
  ∧ fle low high = true
  ∧ calculate_qty "Long 1" low price = Some (Zero false)
  ∧ calculate_qty "Long 1" high price = Some Nan
  ∧ fle (Zero false) Nan = false.
Proof. vm_compute. repeat split; reflexivity. Qed.

(** C5, amended: for non-negative finite balances and a positive price
    the computation always returns, and whenever the quantities it returns
    are numbers (a NaN comes out only when both [balance * weight *
    LEVERAGE] and [price * (1 + SLIPPAGE)] overflowed to infinity) the
    rounded quantity is non-decreasing in the balance, non-decreasing in
    the looked-up weight and non-increasing in the price, the other inputs
    held fixed. *)
Theorem quantity_monotone :
  (∀ (order_id : string) (balance balance' price : float),
     nonneg_finite balance = true → nonneg_finite balance' = true →
     is_binary64 price = true → positive_number price = true →
     fle balance balance' = true →
     ∃ q q', calculate_qty order_id balance price = Some q
             ∧ calculate_qty order_id balance' price = Some q'
             ∧ (is_nan q = false → is_nan q' = false → fle q q' = true))
  ∧
  (∀ (order_id order_id' : string) (balance price : float),
     nonneg_finite balance = true →
     is_binary64 price = true → positive_number price = true →
     fle (weight_of order_id) (weight_of order_id') = true →
     ∃ q q', calculate_qty order_id balance price = Some q
             ∧ calculate_qty order_id' balance price = Some q'
             ∧ (is_nan q = false → is_nan q' = false → fle q q' = true))
  ∧
  (∀ (order_id : string) (balance price price' : float),
     nonneg_finite balance = true →
     is_binary64 price = true → positive_number price = true →
     is_binary64 price' = true → positive_number price' = true →
     fle price price' = true →
     ∃ q q', calculate_qty order_id balance price = Some q
             ∧ calculate_qty order_id balance price' = Some q'
             ∧ (is_nan q = false → is_nan q' = false → fle q' q = true))
  ∧
  (∀ (order_id : string) (balance price q : float),
     nonneg_finite balance = true →
     is_binary64 price = true → positive_number price = true →
     calculate_qty order_id balance price = Some q → is_nan q = true →
     fmul (fmul balance (weight_of order_id)) (of_Z LEVERAGE) = Inf false
     ∧ fmul price (fadd (of_Z 1) SLIPPAGE) = Inf false).
Proof.
  unfold calculate_qty. split; [|split; [|split]].
  - intros id b b' p Hb Hb' H64 Hpos Hle.
    pose proof (positive_number_not_zero _ Hpos) as Hz.
    destruct (qty_of_weight_returns (weight_of id) b p H64 Hz) as (a & _ & Q).
    destruct (qty_of_weight_returns (weight_of id) b' p H64 Hz) as (a' & _ & Q').
    exists (round3 a), (round3 a').
    split; [exact Q|]. split; [exact Q'|].
    exact (qty_mono_balance (weight_of id) b p (weight_of_nonneg id) Hb
             (conj H64 Hpos) b' _ _ Hb' Hle Q Q').
  - intros id id' b p Hb H64 Hpos Hle.
    pose proof (positive_number_not_zero _ Hpos) as Hz.
    destruct (qty_of_weight_returns (weight_of id) b p H64 Hz) as (a & _ & Q).
    destruct (qty_of_weight_returns (weight_of id') b p H64 Hz) as (a' & _ & Q').
    exists (round3 a), (round3 a').
    split; [exact Q|]. split; [exact Q'|].
    exact (qty_mono_weight (weight_of id) b p (weight_of_nonneg id) Hb
             (conj H64 Hpos) (weight_of id') _ _ (weight_of_nonneg id') Hle Q Q').
  - intros id b p p' Hb H64 Hpos H64' Hpos' Hle.
    pose proof (positive_number_not_zero _ Hpos) as Hz.
    pose proof (positive_number_not_zero _ Hpos') as Hz'.
    destruct (qty_of_weight_returns (weight_of id) b p H64 Hz) as (a & _ & Q).
    destruct (qty_of_weight_returns (weight_of id) b p' H64' Hz') as (a' & _ & Q').
    exists (round3 a), (round3 a').
    split; [exact Q|]. split; [exact Q'|].
    exact (qty_anti_price (weight_of id) b p (weight_of_nonneg id) Hb
             (conj H64 Hpos) p' _ _ H64' Hpos' Hle Q Q').
  - intros id b p q Hb H64 Hpos Hq Hn.
    exact (qty_nan_only_at_overflow (weight_of id) b p (weight_of_nonneg id) Hb
             (conj H64 Hpos) q Hq Hn).
Qed.

(** Balances 500 and 1000 at price 100 for "Long 1". *)
Lemma quantity_monotone_witness :
  ∃ q q', calculate_qty "Long 1" (of_Z 500) (of_Z 100) = Some q
          ∧ calculate_qty "Long 1" (of_Z 1000) (of_Z 100) = Some q'
          ∧ (is_nan q = false → is_nan q' = false → fle q q' = true).
Proof.
  apply (proj1 quantity_monotone "Long 1" (of_Z 500) (of_Z 1000) (of_Z 100));
    vm_compute; reflexivity.
Defined.

(** ** The price guard *)

(** C8 as stated fails: a negative price passes the handler's guard, and
    the quantity computation is invoked with it. *)
Lemma negative_price_reaches_sizing :
  let ext := sample_env (sample_alert "ENTRY LONG STEP 1" "buy")
               (of_Z 1000) (Some (of_Z (-1))) in
  CalculateQty "Long 1" (of_Z 1000) (of_Z (-1))
    ∈ calls (webhook "key" "secret" sample_str ext (world_of ∅)).2
  ∧ positive_number (of_Z (-1)) = false.
Proof.
  split; [|reflexivity]. vm_compute.
  do 2 apply list_elem_of_further. apply list_elem_of_here.
Qed.

(** C8, amended: whenever the handler invokes the quantity computation,
    the price it passes is the fetched one, non-null and non-zero (a
    missing or zero price was answered with 500 before), so it is positive
    whenever the exchange reports a number that is not negative; and for a
    binary64 price the product [price * (1 + SLIPPAGE)] is then not zero,
    so the computation returns and the handler never raises
    [ZeroDivisionError]. *)
Theorem price_guard :
  ∀ (key secret : string) (fstr : float → string) (ext : env)
    (seen : gset string) (r : result response) (w : world)
    (order_id : string) (balance price : float),
    webhook key secret fstr ext (world_of seen) = (r, w) →
    CalculateQty order_id balance price ∈ calls w →
    get_current_price ext = Some price
    ∧ balance = get_wallet_balance ext
    ∧ is_zero price = false
    ∧ (nonneg price = true → positive_number price = true)
    ∧ (is_binary64 price = true →
       is_zero (fmul price (fadd (of_Z 1) SLIPPAGE)) = false
       ∧ (∃ qty, calculate_qty order_id balance price = Some qty)
       ∧ r ≠ Raise ZeroDivisionError).
Proof.
  intros key secret fstr ext seen r w id b p H Hin.
  rewrite webhook_run in H. cbv zeta in H.
  destruct (get_json ext) as [data|];
    [|injection H as <- <-; by apply elem_of_nil in Hin].
  destruct (_ || _); [injection H as <- <-; by apply elem_of_nil in Hin|].
  destruct (to_int (time_time ext)) as [t|];
    [|injection H as <- <-; by apply elem_of_nil in Hin].
  destruct (decide _); [injection H as <- <-; by apply elem_of_nil in Hin|].
  destruct (is_zero (get_wallet_balance ext)) eqn:Eb.
  { injection H as <- <-. cbn [log world_of calls app] in Hin.
    apply elem_of_cons in Hin as [?|Hin]; [done | by apply elem_of_nil in Hin]. }
  destruct (get_current_price ext) as [price|] eqn:Ep.
  2:{ injection H as <- <-. cbn [log world_of calls app] in Hin.
      repeat (apply elem_of_cons in Hin as [?|Hin]; [done|]).
      by apply elem_of_nil in Hin. }
  destruct (is_zero price) eqn:Ez.
  { injection H as <- <-. cbn [log world_of calls app] in Hin.
    repeat (apply elem_of_cons in Hin as [?|Hin]; [done|]).
    by apply elem_of_nil in Hin. }
  assert (id = order_id_of data ∧ b = get_wallet_balance ext ∧ p = price)
    as (-> & -> & ->).
  { destruct (calculate_qty _ _ _) as [qty|].
    - rewrite submit_run in H. cbv zeta in H.
      repeat match type of H with
             | context [match ?x with _ => _ end] => destruct x eqn:?
             end;
        injection H as <- <-;
        cbn [log world_of calls app] in Hin;
        repeat (apply elem_of_cons in Hin as [Hin|Hin];
                [try discriminate; try (by injection Hin as -> -> ->)|]);
        by apply elem_of_nil in Hin.
    - injection H as <- <-. cbn [log world_of calls app] in Hin.
      repeat (apply elem_of_cons in Hin as [Hin|Hin];
              [try discriminate; try (by injection Hin as -> -> ->)|]).
      by apply elem_of_nil in Hin. }
  repeat split; try done.
  - by destruct price as [|[]|?|[] ? ?].
  - by apply adjusted_price_nonzero.
  - destruct (qty_of_weight_returns (weight_of (order_id_of data))
                (get_wallet_balance ext) price) as (a & _ & Q); try done.
    by exists (round3 a).
  - destruct (qty_of_weight_returns (weight_of (order_id_of data))
                (get_wallet_balance ext) price) as (a & _ & Q); try done.
    unfold calculate_qty in H. rewrite Q in H.
    rewrite submit_run in H. cbv zeta in H.
    repeat match type of H with
           | context [match ?x with _ => _ end] => destruct x eqn:?
           end;
      injection H as <- <-; discriminate.
Qed.

(** A funded "Long 1" alert at price 100. *)
Lemma price_guard_witness :
  let ext := sample_env (sample_alert "ENTRY LONG STEP 1" "buy")
               funded (Some quoted) in
  get_current_price ext = Some quoted
  ∧ is_zero quoted = false
  ∧ ∃ qty, calculate_qty "Long 1" funded quoted = Some qty.
Proof.
  intros ext.
  destruct (price_guard "key" "secret" sample_str ext ∅
              (webhook "key" "secret" sample_str ext (world_of ∅)).1
              (webhook "key" "secret" sample_str ext (world_of ∅)).2
              "Long 1" funded quoted)
    as (Hp & _ & Hz & _ & Hq).
  - apply surjective_pairing.
  - vm_compute. do 2 apply list_elem_of_further. apply list_elem_of_here.
  - split; [exact Hp|]. split; [exact Hz|]. apply Hq. reflexivity.
Defined.


(** * Further properties *)

(** ** Every run of the handler follows one of the listed paths *)

Lemma submit_submitted key secret fstr ext side qty w :
  ∃ reply posts notices,
    submitted key secret fstr ext side qty reply posts notices
    ∧ submit key secret fstr ext side qty w
      = (Return reply, log w (posts ++ (SendTelegram <$> notices))).
Proof.
  rewrite submit_run. cbv zeta.
  destruct (to_int _) as [t|] eqn:Et.
  - destruct (requests_post ext _) as [[json|]|] eqn:Ep.
    + eexists _, _, [true]. split; [by eapply sub_ok|reflexivity].
    + eexists _, _, [true; false]. split; [by eapply sub_not_json|reflexivity].
    + eexists _, _, [false]. split; [by eapply sub_post_raised|reflexivity].
  - eexists _, [], [false]. split; [by eapply sub_clock|reflexivity].
Qed.

Lemma webhook_outcome key secret fstr ext seen r w :
  webhook key secret fstr ext (world_of seen) = (r, w) →
  outcome key secret fstr ext seen r w.
Proof.
  rewrite webhook_run. cbv zeta.
  destruct (get_json ext) as [data|] eqn:Ej.
  2:{ intros [= <- <-]. by apply out_invalid_json. }
  destruct (_ || _) eqn:Ev.
  { intros [= <- <-]. by eapply out_invalid_data. }
  destruct (to_int (time_time ext)) as [t|] eqn:Et.
  2:{ intros [= <- <-]. by eapply out_clock. }
  destruct (decide _) as [Hin|Hfresh].
  { intros [= <- <-]. by eapply out_duplicate. }
  assert (accepted ext seen data t) as Hacc.
  { apply orb_false_iff in Ev as [? ?]. by repeat split. }
  destruct (is_zero (get_wallet_balance ext)) eqn:Eb.
  { intros [= <- <-]. by apply (out_no_balance _ _ _ _ _ data t). }
  destruct (get_current_price ext) as [price|] eqn:Ep.
  2:{ intros [= <- <-]. apply (out_no_price _ _ _ _ _ data t); auto. }
  destruct (is_zero price) eqn:Ez.
  { intros [= <- <-]. apply (out_no_price _ _ _ _ _ data t); eauto. }
  destruct (calculate_qty _ _ _) as [qty|] eqn:Eq.
  2:{ intros [= <- <-]. by apply (out_zero_division _ _ _ _ _ data t price). }
  destruct (submit_submitted key secret fstr ext
              (side_of (order_action_of data)) qty
              (log (world_of ({[candle_key (order_id_of data) t]} ∪ seen))
                 [GetWalletBalance; GetCurrentPrice;
                  CalculateQty (order_id_of data) (get_wallet_balance ext) price]))
    as (reply & posts & notices & Hs & ->).
  intros [= <- <-].
  by apply (out_order _ _ _ _ _ data t price qty reply notices posts).
Qed.


(** Case analysis on the path one run took. *)
Ltac handler_paths key secret fstr ext seen :=
  let r := fresh "r" in
  let w := fresh "w" in
  let H := fresh "Hrun" in
  destruct (webhook key secret fstr ext (world_of seen)) as [r w] eqn:H;
  apply webhook_outcome in H; cbn [fst snd];
  destruct H as [?|data ? ?|data ? ? ?|data t ? ? ? ?|data t Hacc ?
                 |data t Hacc ? ?|data t price Hacc ? ? ? ?
                 |data t price qty reply notices posts Hacc ? ? ? ? Hsub].

(** X2: whatever the request, the handler posts at most one order, and it
    posts one only on an accepted alert, after the balance fetch, the
    price fetch and the sizing, in that order and with a non-zero balance
    and price; the order posted is the market order for [SYMBOL] with the
    side of the alert and the quantity [calculate_qty] returned for the
    fetched balance and price, and only notifications follow it. *)
Theorem posted_order_is_sized :
  ∀ (key secret : string) (fstr : float → string) (ext : env)
    (seen : gset string),
    let run := webhook key secret fstr ext (world_of seen) in
    Forall (λ e, is_post e = false) (calls run.2)
    ∨ ∃ data t price qty t' notices,
        accepted ext seen data t
        ∧ is_zero (get_wallet_balance ext) = false
        ∧ get_current_price ext = Some price ∧ is_zero price = false
        ∧ calculate_qty (order_id_of data) (get_wallet_balance ext) price
          = Some qty
        ∧ to_int (fmul (order_time ext) (of_Z 1000)) = Some t'
        ∧ calls run.2
          = [GetWalletBalance; GetCurrentPrice;
             CalculateQty (order_id_of data) (get_wallet_balance ext) price;
             RequestsPost (BASE_URL +:+ "/v5/order/create")
               (order_params key secret fstr
                  (side_of (order_action_of data)) SYMBOL qty (pretty t'))]
            ++ (SendTelegram <$> notices).
Proof.
  intros key secret fstr ext seen. cbv zeta.
  handler_paths key secret fstr ext seen;
    try (left; cbn [world_of marked calls];
         repeat (apply Forall_cons; split; [reflexivity|]);
         apply Forall_nil_2).
  destruct Hsub as [Ht|t' Ht Hp|t' Ht Hp|t' json Ht Hp].
  - left. cbn [marked calls]. repeat (apply Forall_cons; split; [reflexivity|]).
    apply Forall_nil_2.
  - right. by exists data, t, price, qty, t', [false].
  - right. by exists data, t, price, qty, t', [true; false].
  - right. by exists data, t, price, qty, t', [true].
Qed.

(** What a request leaves in the shared set. *)
Lemma webhook_marks key secret fstr ext seen :
  let run := webhook key secret fstr ext (world_of seen) in
  (calls run.2 = [] ∧ executed_signals run.2 = seen)
  ∨ ∃ data t rest,
      accepted ext seen data t
      ∧ executed_signals run.2 = {[candle_key (order_id_of data) t]} ∪ seen
      ∧ calls run.2 = GetWalletBalance :: rest.
Proof.
  cbv zeta.
  handler_paths key secret fstr ext seen;
    try (left; split; reflexivity);
    right; exists data, t; eexists; (split; [exact Hacc|]);
    split; reflexivity.
Qed.

(** X3: a request changes the shared set by at most one key: either it
    made no call and left the set as it was, or it was an accepted alert,
    its key was new and is the one key added, and its first call was the
    balance fetch. *)
Theorem one_key_per_request :
  ∀ (key secret : string) (fstr : float → string) (ext : env)
    (seen : gset string),
    let run := webhook key secret fstr ext (world_of seen) in
    (calls run.2 = [] ∧ executed_signals run.2 = seen)
    ∨ ∃ data t rest,
        accepted ext seen data t
        ∧ executed_signals run.2 = {[candle_key (order_id_of data) t]} ∪ seen
        ∧ calls run.2 = GetWalletBalance :: rest.
Proof. intros. apply webhook_marks. Qed.

(** X4: once an alert was accepted, whatever became of it (order placed,
    fetch failed, submission failed), an alert for the same identifier
    read in the same second and served on the set it left is answered 200
    "skipped", makes no call and leaves the set as it is. *)
Theorem repeat_is_skipped :
  ∀ (key secret : string) (fstr : float → string) (ext : env)
    (seen : gset string),
    let run := webhook key secret fstr ext (world_of seen) in
    calls run.2 = []
    ∨ ∃ data t,
        accepted ext seen data t
        ∧ ∀ (ext' : env) (data' : alert),
            get_json ext' = Some data' →
            order_id_of data' = order_id_of data →
            PyStr.is_empty (order_action_of data') = false →
            to_int (time_time ext') = Some t →
            webhook key secret fstr ext' (world_of (executed_signals run.2))
            = (Return {| status_code := 200;
                         body := JStatus (order_id_of data
                                          +:+ " skipped (duplicate second)") |},
               world_of (executed_signals run.2)).
Proof.
  intros key secret fstr ext seen. cbv zeta.
  destruct (webhook_marks key secret fstr ext seen)
    as [[Hc _]|(data & t & rest & Hacc & Hset & Hc)]; [by left|].
  right. exists data, t. split; [exact Hacc|].
  intros ext' data' Hj Hid Ha Ht.
  destruct Hacc as (_ & _ & Hi & _ & _).
  rewrite webhook_run, Hj, Ht. cbv zeta. rewrite Hid, Ha, Hi. cbn [orb].
  destruct (decide _) as [|Hn]; [reflexivity|].
  exfalso. apply Hn. rewrite Hset. apply elem_of_union_l, elem_of_singleton.
  reflexivity.
Qed.

(** ** Keys of the duplicate check *)










(** ** Further properties of the handler and of the signing *)




Section Case.
Import PyStr.

Lemma upper_char_upper c : upper_char (upper_char c) = upper_char c.
Proof. destruct c as [[] [] [] [] [] [] [] []]; reflexivity. Qed.

Lemma upper_char_lower c : upper_char (lower_char c) = upper_char c.
Proof. destruct c as [[] [] [] [] [] [] [] []]; reflexivity. Qed.

Lemma lower_char_lower c : lower_char (lower_char c) = lower_char c.
Proof. destruct c as [[] [] [] [] [] [] [] []]; reflexivity. Qed.

Lemma lower_char_upper c : lower_char (upper_char c) = lower_char c.
Proof. destruct c as [[] [] [] [] [] [] [] []]; reflexivity. Qed.

Lemma str_map_map f g s : map f (map g s) = map (λ c, f (g c)) s.
Proof. induction s as [|c s IH]; [reflexivity|]. cbn. by rewrite IH. Qed.

Lemma str_map_ext f g s : (∀ c, f c = g c) → map f s = map g s.
Proof.
  intros E. induction s as [|c s IH]; [reflexivity|]. cbn. by rewrite E, IH.
Qed.

Lemma upper_set_case up s : upper (set_case up s) = upper s.
Proof.
  unfold upper. destruct up; cbn [set_case]; unfold upper, lower;
    rewrite str_map_map; apply str_map_ext;
    [apply upper_char_upper | apply upper_char_lower].
Qed.

Lemma lower_set_case up s : lower (set_case up s) = lower s.
Proof.
  unfold lower. destruct up; cbn [set_case]; unfold upper, lower;
    rewrite str_map_map; apply str_map_ext;
    [apply lower_char_upper | apply lower_char_lower].
Qed.

Lemma get_or_empty_set_case up field :
  get_or_empty (set_case up <$> field) = set_case up (get_or_empty field).
Proof. by destruct field, up. Qed.

Lemma order_id_of_recase up up' data :
  order_id_of (recase (set_case up) (set_case up') data) = order_id_of data.
Proof.
  unfold order_id_of, recase. cbn [alert_signal alert_order_id].
  by rewrite get_or_empty_set_case, upper_set_case.
Qed.

Lemma order_action_of_recase up up' data :
  order_action_of (recase (set_case up) (set_case up') data)
  = order_action_of data.
Proof.
  unfold order_action_of, recase. cbn [alert_order_action].
  by rewrite get_or_empty_set_case, lower_set_case.
Qed.

End Case.

(** X9: the letter case of the signal and of the order action of an alert
    is immaterial: the same request with either field upper-cased or
    lower-cased is handled identically (same reply, same calls, same key
    recorded), from any state. *)
Theorem letter_case_is_ignored :
  ∀ (key secret : string) (fstr : float → string) (ext : env) (w : world)
    (up_signal up_action : bool),
    webhook key secret fstr
      (with_json (recase (set_case up_signal) (set_case up_action)
                    <$> get_json ext) ext) w
    = webhook key secret fstr ext w.
Proof.
  intros key secret fstr ext w up up'.
  unfold webhook. cbn [with_json get_json time_time].
  destruct (get_json ext) as [data|]; [|reflexivity].
  cbn [fmap option_fmap option_map].
  rewrite order_id_of_recase, order_action_of_recase.
  reflexivity.
Qed.

(** X10: for a balance that is zero or a positive number and a positive
    price, sizing returns a quantity (it does not raise) and the quantity
    is never below zero, whatever the order identifier: the direction of
    an order is carried by its side alone. *)
Theorem quantity_never_negative :
  ∀ (order_id : string) (balance price : float),
    nonneg_finite balance = true →
    is_binary64 price = true → positive_number price = true →
    ∃ qty, calculate_qty order_id balance price = Some qty
           ∧ (is_nan qty = true ∨ fle (of_Z 0) qty = true).
Proof.
  intros order_id balance price Hb H64 Hp.
  pose proof (positive_number_not_zero _ Hp) as Hz.
  destruct (qty_of_weight_returns (weight_of order_id) balance price H64 Hz)
    as (a & Ea & Qa).
  exists (round3 a). split; [exact Qa|].
  destruct (is_nan (round3 a)) eqn:Hn; [by left|right].
  rewrite round3_nan in Hn.
  destruct (usdt_amount_nonneg balance (weight_of order_id) Hb
              (weight_of_nonneg order_id)) as (_ & _ & Hu & _).
  apply fle_zero_l, round3_nonneg.
  exact (fdiv_nonneg _ _ _ Hu (adjusted_price_positive price H64 Hp) Ea Hn).
Qed.

Lemma quantity_never_negative_witness :
  ∃ qty, calculate_qty "Short 2" funded quoted = Some qty
         ∧ (is_nan qty = true ∨ fle (of_Z 0) qty = true).
Proof.
  apply (quantity_never_negative "Short 2" funded quoted); reflexivity.
Defined.

Section Digest.
Import Sha256.

Lemma round_length st kw : length (round st kw) = length st.
Proof.
  unfold round.
  destruct st as [|a [|b [|c [|d [|e [|f [|g [|h [|? ?]]]]]]]]]; reflexivity.
Qed.

Lemma rounds_length kws st : length (foldl round st kws) = length st.
Proof.
  revert st. induction kws as [|kw kws IH]; intros st; [reflexivity|].
  cbn [foldl]. by rewrite IH, round_length.
Qed.

Lemma compress_length h block : length (compress h block) = length h.
Proof.
  unfold compress. rewrite length_zip_with, rounds_length. lia.
Qed.

Lemma compress_all_length blocks h :
  length (foldl compress h blocks) = length h.
Proof.
  revert h. induction blocks as [|b blocks IH]; intros h; [reflexivity|].
  cbn [foldl]. by rewrite IH, compress_length.
Qed.

Lemma be_bytes_byte n x : Forall (λ b, 0 ≤ b < 256) (be_bytes n x).
Proof.
  induction n as [|n IH]; [constructor|].
  cbn [be_bytes]. constructor; [|exact IH]. apply Z.mod_pos_bound. lia.
Qed.

Lemma be_bytes_length n x : length (be_bytes n x) = n.
Proof. induction n as [|n IH]; [reflexivity|]. cbn [be_bytes length]. by rewrite IH. Qed.

Lemma words_bytes (ws : list Z) :
  length (mjoin (be_bytes 4 <$> ws)) = (4 * length ws)%nat
  ∧ Forall (λ b, 0 ≤ b < 256) (mjoin (be_bytes 4 <$> ws)).
Proof.
  induction ws as [|w ws [IHl IHb]]; [split; [reflexivity|constructor]|].
  change (mjoin (be_bytes 4 <$> (w :: ws)))
    with (be_bytes 4 w ++ mjoin (be_bytes 4 <$> ws)). split.
  - rewrite length_app, be_bytes_length, IHl. cbn [length]. lia.
  - apply Forall_app. split; [apply be_bytes_byte | exact IHb].
Qed.

(** A SHA-256 digest is 32 bytes. *)
Lemma digest_bytes msg :
  length (digest msg) = 32%nat ∧ Forall (λ b, 0 ≤ b < 256) (digest msg).
Proof.
  unfold digest. cbv zeta.
  destruct (words_bytes (foldl compress H0 (chunks (length (pad msg)) 64 (pad msg))))
    as [Hl Hb].
  split; [|exact Hb]. rewrite Hl, compress_all_length. reflexivity.
Qed.

Lemma hex_digit_lower n : 0 ≤ n < 16 → is_lower_hex (hex_digit n) = true.
Proof.
  intros Hn.
  assert (n = 0 ∨ n = 1 ∨ n = 2 ∨ n = 3 ∨ n = 4 ∨ n = 5 ∨ n = 6 ∨ n = 7
          ∨ n = 8 ∨ n = 9 ∨ n = 10 ∨ n = 11 ∨ n = 12 ∨ n = 13 ∨ n = 14
          ∨ n = 15) as H by lia.
  repeat (destruct H as [->|H]; [reflexivity|]). by subst.
Qed.

Lemma hex_shape bs :
  Forall (λ b, 0 ≤ b < 256) bs →
  String.length (hex bs) = (2 * length bs)%nat
  ∧ all_chars is_lower_hex (hex bs) = true.
Proof.
  induction 1 as [|b bs Hb _ [IHl IHc]]; [split; reflexivity|].
  cbn [hex String.length all_chars length]. split; [rewrite IHl; lia|].
  rewrite IHc, !hex_digit_lower; [reflexivity| |].
  - apply Z.mod_pos_bound. lia.
  - split; [apply Z.div_pos; lia | apply Z.div_lt_upper_bound; lia].
Qed.

End Digest.

(** X11: whatever the secret and the parameters, the signature is 64
    characters long and made of the digits and the lower-case letters a
    to f only: the hexadecimal text of a 32-byte digest. *)
Theorem signature_is_64_hex_digits :
  ∀ (secret : string) (p : params),
    String.length (generate_signature secret p) = 64%nat
    ∧ all_chars is_lower_hex (generate_signature secret p) = true.
Proof.
  intros secret p.
  unfold generate_signature, hmac_sha256_hexdigest, Sha256.hmac. cbv zeta.
  destruct (digest_bytes
    (Sha256.xor_pad 92
       (if decide (64 < length (Sha256.encode secret))%nat
        then Sha256.digest (Sha256.encode secret) else Sha256.encode secret)
     ++ Sha256.digest
          (Sha256.xor_pad 54
             (if decide (64 < length (Sha256.encode secret))%nat
              then Sha256.digest (Sha256.encode secret)
              else Sha256.encode secret)
           ++ Sha256.encode (query_of (sorted_items p))))) as [Hl Hb].
  destruct (hex_shape _ Hb) as [Hl' Hc].
  split; [|exact Hc]. rewrite Hl', Hl. reflexivity.
Qed.

Lemma sorted_items_pair (a b : string * string) :
  item_le a b → sorted_items [a; b] = [a; b].
Proof.
  intros Hab. unfold sorted_items.
  apply (Sorted_unique item_le).
  - apply Sorted_merge_sort, _.
  - constructor; [repeat constructor|]. constructor. exact Hab.
  - apply merge_sort_Permutation.
Qed.

Lemma sorted_items_one (a : string * string) : sorted_items [a] = [a].
Proof.
  unfold sorted_items.
  apply (Sorted_unique item_le).
  - apply Sorted_merge_sort, _.
  - repeat constructor.
  - apply merge_sort_Permutation.
Qed.

(** X12: the query string that is signed is not escaped, so the signature
    does not tell parameters apart from text inside a value: a mapping
    with two keys and the mapping with the first key alone, whose value
    spells out the second pair after an ampersand, get the same
    signature. *)
Theorem signature_ignores_parameter_boundaries :
  ∀ (secret k v k' v' : string),
    k ≠ k' → (k ≤ k')%string →
    generate_signature secret [(k, v); (k', v')]
    = generate_signature secret [(k, v +:+ "&" +:+ k' +:+ "=" +:+ v')].
Proof.
  intros secret k v k' v' Hne Hle.
  unfold generate_signature. cbv zeta.
  rewrite sorted_items_pair by (left; split; assumption).
  rewrite sorted_items_one.
  f_equal. unfold query_of. cbn [fmap list_fmap String.concat fst snd].
  by rewrite <- !app_assoc_str.
Qed.

Lemma signature_ignores_parameter_boundaries_witness :
  generate_signature "secret" [("qty", "1"); ("side", "BUY")]
  = generate_signature "secret" [("qty", "1&side=BUY")].
Proof.
  apply (signature_ignores_parameter_boundaries "secret" "qty" "1" "side" "BUY").
  - discriminate.
  - vm_compute. reflexivity.
Defined.

Lemma sorted_order_items (key side symbol qty ts : string) :
  sorted_items [ ("apiKey", key); ("symbol", symbol); ("side", side);
                 ("orderType", "Market"); ("qty", qty); ("timestamp", ts);
                 ("timeInForce", "GoodTillCancel") ]
  = [ ("apiKey", key); ("orderType", "Market"); ("qty", qty); ("side", side);
      ("symbol", symbol); ("timeInForce", "GoodTillCancel");
      ("timestamp", ts) ].
Proof. vm_compute. reflexivity. Qed.

(** X13: the order request carries its seven parameters in the order the
    code sets them, followed by [sign], and [sign] is the HMAC-SHA256,
    under the API secret, of the text
    apiKey=..&orderType=Market&qty=..&side=..&symbol=..&timeInForce=GoodTillCancel&timestamp=..
    with the side upper-cased and the quantity as [str] prints it. *)
Theorem order_request_signed_text :
  ∀ (key secret : string) (fstr : float → string) (side symbol : string)
    (qty : float) (timestamp : string),
    order_params key secret fstr side symbol qty timestamp
    = [ ("apiKey", key); ("symbol", symbol); ("side", PyStr.upper side);
        ("orderType", "Market"); ("qty", fstr qty);
        ("timestamp", timestamp); ("timeInForce", "GoodTillCancel");
        ("sign",
         hmac_sha256_hexdigest secret
           ("apiKey=" +:+ key +:+ "&orderType=Market&qty=" +:+ fstr qty
            +:+ "&side=" +:+ PyStr.upper side +:+ "&symbol=" +:+ symbol
            +:+ "&timeInForce=GoodTillCancel&timestamp=" +:+ timestamp)) ].
Proof.
  intros key secret fstr side symbol qty timestamp.
  unfold order_params. cbv zeta.
  rewrite dict_set_fresh.
  2:{ cbn. repeat (apply not_elem_of_cons; split; [discriminate|]).
      apply not_elem_of_nil. }
  unfold generate_signature. cbv zeta. rewrite sorted_order_items.
  reflexivity.
Qed.

(** ** Market data *)

Section MarketFacts.
Import Market.

Variables key secret : string.
Variable fos : string → option float.
Variable tg : telegram.

Lemma py_item_get k dflt v x : py_item k v = inr x → py_get k dflt v = inr x.
Proof.
  destruct v as [| | | | | |fields]; try discriminate. cbn.
  destruct (lookup_field k fields); [|discriminate]. by intros [= ->].
Qed.

Lemma is_str_true s v : is_str s v = true → v = JString s.
Proof.
  destruct v as [| | | |t| |]; try discriminate. cbn.
  intros H. apply bool_decide_eq_true in H. by subst.
Qed.

(** Entries naming other coins are passed over. *)
Lemma scan_coins_skip pre rest b :
  forallb names_other_coin pre = true →
  scan_coins fos (pre ++ rest) b = scan_coins fos rest b.
Proof.
  induction pre as [|c pre IH]; [reflexivity|].
  cbn [forallb]. intros H. apply andb_true_iff in H as [Hc Hpre].
  cbn [app scan_coins]. unfold names_other_coin in Hc.
  destruct (py_item "coin" c) as [e|name]; [discriminate|].
  cbn [mbind res_bind]. apply negb_true_iff in Hc. rewrite Hc. by apply IH.
Qed.

(** A scan ends at the first USDT entry, or at the end of the list. *)
Lemma scan_coins_inr coins b x :
  scan_coins fos coins b = inr x →
  (x = b ∧ forallb names_other_coin coins = true)
  ∨ ∃ pre usdt post amount,
      coins = pre ++ usdt :: post
      ∧ forallb names_other_coin pre = true
      ∧ py_item "coin" usdt = inr (JString "USDT")
      ∧ py_item "availableToTrade" usdt = inr amount
      ∧ py_float fos amount = inr x.
Proof.
  induction coins as [|c coins IH]; cbn [scan_coins].
  { intros [= ->]. by left. }
  destruct (py_item "coin" c) as [e|name] eqn:Hname; [discriminate|].
  cbn [mbind res_bind]. destruct (is_str "USDT" name) eqn:Hu.
  - apply is_str_true in Hu as ->.
    destruct (py_item "availableToTrade" c) as [e|amount] eqn:Ha;
      [discriminate|].
    intros Hx. right. by exists [], c, coins, amount.
  - intros Hx. destruct (IH Hx) as [[-> Hall]|(pre & usdt & post & amount & -> & Hpre & H)].
    + left. split; [reflexivity|]. cbn [forallb]. unfold names_other_coin at 1.
      by rewrite Hname, Hu.
    + right. exists (c :: pre), usdt, post, amount. split; [reflexivity|].
      split; [|exact H]. cbn [forallb]. unfold names_other_coin at 1.
      by rewrite Hname, Hu.
Qed.

Lemma fetch_balance_run ex :
  fetch_balance key secret fos ex =
  let now := fmul (balance_time ex) (of_Z 1000) in
  match to_int now with
  | None => (inl (if is_nan now then ValueError else OverflowError), [])
  | Some t =>
      let p := balance_params key secret (pretty t) in
      match requests_get_wallet ex p with
      | None => (inl RequestException, [RequestsGet balance_url p])
      | Some None => (inl JSONDecodeError, [RequestsGet balance_url p])
      | Some (Some data) => (read_balance fos data, [RequestsGet balance_url p])
      end
  end.
Proof. reflexivity. Qed.

(** What [read_balance] needs to get to the scan. *)
Lemma read_balance_inr data x :
  read_balance fos data = inr x →
  ∃ result accounts account coin_list coins,
    py_get "result" (JObject []) data = inr result
    ∧ py_get "list" (JArray []) result = inr accounts
    ∧ py_index0 accounts = inr account
    ∧ py_get "coin" (JArray []) account = inr coin_list
    ∧ py_iter coin_list = inr coins
    ∧ scan_coins fos coins (of_Z 0) = inr x.
Proof.
  unfold read_balance.
  destruct (py_get "result" _ data) as [?|result] eqn:E1; [discriminate|].
  cbn [mbind res_bind].
  destruct (py_get "list" _ result) as [?|accounts] eqn:E2; [discriminate|].
  cbn [mbind res_bind].
  destruct (py_index0 accounts) as [?|account] eqn:E3; [discriminate|].
  cbn [mbind res_bind].
  destruct (py_get "coin" _ account) as [?|coin_list] eqn:E4; [discriminate|].
  cbn [mbind res_bind].
  destruct (py_iter coin_list) as [?|coins] eqn:E5; [discriminate|].
  cbn [mbind res_bind]. intros H.
  by exists result, accounts, account, coin_list, coins.
Qed.

Lemma py_get_object k dflt v x :
  py_get k dflt v = inr x →
  ∃ fields, v = JObject fields ∧ x = default dflt (lookup_field k fields).
Proof.
  destruct v as [| | | | | |fields]; try discriminate. cbn.
  intros [= <-]. by exists fields.
Qed.

(** A scan over strings ends at once: with the initial value on no
    string, with [TypeError] otherwise. *)
Lemma scan_coins_strings (l : list string) b x :
  scan_coins fos (JString <$> l) b = inr x → x = b.
Proof. destruct l as [|s l]; cbn; [by intros [= <-] | discriminate]. Qed.

Lemma chars_strings s : ∃ l, chars s = JString <$> l.
Proof.
  induction s as [|c s [l IH]]; [by exists []|].
  exists (String c EmptyString :: l). cbn. by rewrite IH.
Qed.

(** The balance that [read_balance] returns is zero or that of a USDT
    entry. *)
Lemma read_balance_nonzero data x :
  read_balance fos data = inr x → is_zero x = false →
  usdt_available fos data x.
Proof.
  intros H Hz.
  apply read_balance_inr in H
    as (result & accounts & account & coin_list & coins
        & E1 & E2 & E3 & E4 & E5 & Hs).
  apply py_get_object in E1 as (dfields & -> & E1).
  apply py_get_object in E2 as (rfields & -> & E2).
  apply py_get_object in E4 as (afields & -> & E4).
  destruct (lookup_field "result" dfields) as [result|] eqn:Eres;
    simpl in E1.
  2:{ injection E1 as ->. cbn in E2. subst accounts. discriminate E3. }
  subst result.
  destruct (lookup_field "list" rfields) as [accounts'|] eqn:El;
    simpl in E2; subst accounts; [|discriminate E3].
  destruct (lookup_field "coin" afields) as [coin_list'|] eqn:Ec;
    simpl in E4; subst coin_list.
  2:{ injection E5 as <-. cbn in Hs. injection Hs as <-. done. }
  assert (coin_list' = JArray coins) as ->.
  { destruct coin_list' as [| | | |s|items|fs]; try discriminate.
    - injection E5 as <-. destruct (chars_strings s) as [l El'].
      rewrite El' in Hs. apply scan_coins_strings in Hs. by subst.
    - by injection E5 as <-.
    - injection E5 as <-. apply scan_coins_strings in Hs. by subst. }
  assert (∃ others, accounts' = JArray (JObject afields :: others))
    as [others ->].
  { destruct accounts' as [| | | |[|c s]|[|a others]|]; try discriminate.
    injection E3 as ->. by exists others. }
  apply scan_coins_inr in Hs
    as [[-> _]|(pre & usdt & post & amount & -> & Hpre & Hu & Ha & Hx)];
    [done|].
  exists (JObject rfields), (JObject afields), others, pre, usdt, post, amount.
  cbn [py_item]. rewrite Eres, El, Ec. done.
Qed.

(** ... and conversely. *)
Lemma read_balance_usdt data x :
  usdt_available fos data x → read_balance fos data = inr x.
Proof.
  intros (result & account & others & pre & usdt & post & amount
          & E1 & E2 & E3 & Hpre & Hu & Ha & Hx).
  unfold read_balance.
  rewrite (py_item_get _ _ _ _ E1). cbn [mbind res_bind].
  rewrite (py_item_get _ _ _ _ E2). cbn [mbind res_bind py_index0].
  rewrite (py_item_get _ _ _ _ E3). cbn [mbind res_bind py_iter].
  rewrite (scan_coins_skip _ _ _ Hpre). cbn [scan_coins].
  rewrite Hu. cbn [mbind res_bind is_str].
  rewrite bool_decide_eq_true_2 by reflexivity.
  rewrite Ha. cbn [mbind res_bind]. exact Hx.
Qed.

Lemma get_wallet_balance_nonzero ex :
  is_zero (get_wallet_balance key secret fos tg ex).1 = false →
  ∃ t data,
    to_int (fmul (balance_time ex) (of_Z 1000)) = Some t
    ∧ requests_get_wallet ex (balance_params key secret (pretty t))
      = Some (Some data)
    ∧ usdt_available fos data (get_wallet_balance key secret fos tg ex).1
    ∧ (get_wallet_balance key secret fos tg ex).2
      = [RequestsGet balance_url (balance_params key secret (pretty t))].
Proof.
  unfold get_wallet_balance. rewrite fetch_balance_run. cbv zeta.
  destruct (to_int _) as [t|] eqn:Et; [|done].
  destruct (requests_get_wallet ex _) as [[data|]|] eqn:Eg; [|done..].
  destruct (read_balance fos data) as [e|x] eqn:Er; [done|].
  cbn [fst snd]. intros Hz. exists t, data.
  split; [reflexivity|]. split; [exact Eg|].
  split; [|reflexivity]. by apply read_balance_nonzero.
Qed.

Lemma read_price_inr data p :
  read_price fos data = inr p ↔ last_price fos data p.
Proof.
  unfold read_price, last_price. split.
  - destruct (py_item "result" data) as [?|result] eqn:E1; [discriminate|].
    cbn [mbind res_bind].
    destruct (py_item "list" result) as [?|tickers] eqn:E2; [discriminate|].
    cbn [mbind res_bind].
    destruct (py_index0 tickers) as [?|ticker] eqn:E3; [discriminate|].
    cbn [mbind res_bind].
    destruct (py_item "lastPrice" ticker) as [?|last] eqn:E4; [discriminate|].
    cbn [mbind res_bind]. intros Hp.
    assert (∃ others, tickers = JArray (ticker :: others)) as [others ->].
    { destruct tickers as [| | | |[|c s]|[|a others]|]; try discriminate.
      - injection E3 as <-. discriminate.
      - injection E3 as ->. by exists others. }
    by exists result, ticker, others, last.
  - intros (result & ticker & others & last & -> & E2 & E3 & Hp).
    cbn [mbind res_bind]. rewrite E2. cbn [mbind res_bind py_index0].
    rewrite E3. exact Hp.
Qed.

Lemma get_current_price_some ex p :
  (get_current_price fos tg ex).1 = Some p →
  ∃ data, requests_get_ticker ex = Some (Some data) ∧ last_price fos data p.
Proof.
  unfold get_current_price, fetch_price. cbv zeta.
  destruct (requests_get_ticker ex) as [[data|]|]; [|done..].
  destruct (read_price fos data) as [e|x] eqn:Er; [done|].
  cbn [fst]. intros [= ->]. exists data. split; [reflexivity|].
  by apply read_price_inr.
Qed.

End MarketFacts.

Section MarketRuns.
Import Market.

Variables key secret : string.
Variable fos : string → option float.
Variable tg : telegram.

(** A scan that meets an entry it cannot read fails there. *)
Lemma scan_coins_fails pre bad post b e :
  forallb names_other_coin pre = true →
  py_item "coin" bad = inl e →
  scan_coins fos (pre ++ bad :: post) b = inl e.
Proof.
  intros Hpre Hbad. rewrite (scan_coins_skip fos _ _ _ Hpre).
  cbn [scan_coins]. by rewrite Hbad.
Qed.

Lemma scan_coins_others coins b :
  forallb names_other_coin coins = true → scan_coins fos coins b = inr b.
Proof.
  intros H. rewrite <- (app_nil_r coins).
  by rewrite (scan_coins_skip fos _ _ _ H).
Qed.

Lemma read_balance_first_account data result account others coin_list coins :
  py_item "result" data = inr result →
  py_item "list" result = inr (JArray (account :: others)) →
  py_get "coin" (JArray []) account = inr coin_list →
  py_iter coin_list = inr coins →
  read_balance fos data = scan_coins fos coins (of_Z 0).
Proof.
  intros E1 E2 E3 E4. unfold read_balance.
  rewrite (py_item_get _ _ _ _ E1). cbn [mbind res_bind].
  rewrite (py_item_get _ _ _ _ E2). cbn [mbind res_bind py_index0].
  rewrite E3. cbn [mbind res_bind]. by rewrite E4.
Qed.

Lemma get_wallet_balance_run ex t data :
  to_int (fmul (balance_time ex) (of_Z 1000)) = Some t →
  requests_get_wallet ex (balance_params key secret (pretty t))
    = Some (Some data) →
  get_wallet_balance key secret fos tg ex =
  let get := RequestsGet balance_url (balance_params key secret (pretty t)) in
  match read_balance fos data with
  | inr usdt_balance => (usdt_balance, [get])
  | inl e => (of_Z 0, [get] ++ send_telegram tg (BalanceFetchFailed e))
  end.
Proof.
  intros Ht Hg. unfold get_wallet_balance. rewrite fetch_balance_run.
  cbv zeta. rewrite Ht, Hg. by destruct (read_balance fos data).
Qed.

Lemma sorted_balance_items (k ts : string) :
  sorted_items [("apiKey", k); ("timestamp", ts); ("accountType", "UNIFIED")]
  = [("accountType", "UNIFIED"); ("apiKey", k); ("timestamp", ts)].
Proof. vm_compute. reflexivity. Qed.

End MarketRuns.

(** X14: the balance is read off the first account of the answer: when
    its coin list has a USDT entry preceded by entries of other coins
    only, [get_wallet_balance] returns that entry's [availableToTrade] as
    a float, after one signed GET and without a notification; what follows
    the entry (further USDT entries, malformed entries) and the other
    accounts are not looked at. *)
Theorem first_usdt_entry_is_the_balance :
  ∀ (key secret : string) (fos : string → option float)
    (tg : Market.telegram) (ex : Market.exchange) (t : Z)
    (data : Market.json) (x : float),
    to_int (fmul (Market.balance_time ex) (of_Z 1000)) = Some t →
    Market.requests_get_wallet ex (Market.balance_params key secret (pretty t))
      = Some (Some data) →
    Market.usdt_available fos data x →
    Market.get_wallet_balance key secret fos tg ex
    = (x, [Market.RequestsGet Market.balance_url
             (Market.balance_params key secret (pretty t))]).
Proof.
  intros key secret fos tg ex t data x Ht Hg Hu.
  unfold Market.get_wallet_balance. rewrite fetch_balance_run. cbv zeta.
  rewrite Ht, Hg. by rewrite (read_balance_usdt fos data x Hu).
Qed.

Lemma first_usdt_entry_is_the_balance_witness :
  Market.get_wallet_balance "key" "secret" sample_float_of_str sample_telegram
    (sample_exchange sample_wallet None)
  = (funded, [Market.RequestsGet Market.balance_url
                (Market.balance_params "key" "secret" "1700000000250")]).
Proof.
  apply (first_usdt_entry_is_the_balance "key" "secret" sample_float_of_str
           sample_telegram (sample_exchange sample_wallet None)
           1700000000250 sample_wallet funded).
  - vm_compute. reflexivity.
  - reflexivity.
  - eexists _, _, [], [_], _, [_], _.
    split; [reflexivity|]. split; [reflexivity|]. split; [reflexivity|].
    split; [reflexivity|]. split; [reflexivity|]. split; reflexivity.
Defined.

(** X15: conversely, a balance other than zero is always the
    [availableToTrade] of such a first USDT entry, read from a decoded
    answer to the one GET made; no notification was sent. *)
Theorem nonzero_balance_comes_from_usdt_entry :
  ∀ (key secret : string) (fos : string → option float)
    (tg : Market.telegram) (ex : Market.exchange),
    let balance := (Market.get_wallet_balance key secret fos tg ex).1 in
    is_zero balance = false →
    ∃ t data,
      to_int (fmul (Market.balance_time ex) (of_Z 1000)) = Some t
      ∧ Market.requests_get_wallet ex
          (Market.balance_params key secret (pretty t)) = Some (Some data)
      ∧ Market.usdt_available fos data balance
      ∧ (Market.get_wallet_balance key secret fos tg ex).2
        = [Market.RequestsGet Market.balance_url
             (Market.balance_params key secret (pretty t))].
Proof.
  intros key secret fos tg ex. cbv zeta.
  apply get_wallet_balance_nonzero.
Qed.

Lemma nonzero_balance_comes_from_usdt_entry_witness :
  ∃ t data,
    to_int (fmul (Market.balance_time (sample_exchange sample_wallet None))
              (of_Z 1000)) = Some t
    ∧ Market.requests_get_wallet (sample_exchange sample_wallet None)
        (Market.balance_params "key" "secret" (pretty t)) = Some (Some data)
    ∧ Market.usdt_available sample_float_of_str data
        (Market.get_wallet_balance "key" "secret" sample_float_of_str
           sample_telegram (sample_exchange sample_wallet None)).1
    ∧ (Market.get_wallet_balance "key" "secret" sample_float_of_str
         sample_telegram (sample_exchange sample_wallet None)).2
      = [Market.RequestsGet Market.balance_url
           (Market.balance_params "key" "secret" (pretty t))].
Proof.
  apply (nonzero_balance_comes_from_usdt_entry "key" "secret"
           sample_float_of_str sample_telegram
           (sample_exchange sample_wallet None)).
  vm_compute. reflexivity.
Defined.

(** X16: when the first account of the answer lists no USDT entry (its
    coin list is missing, empty, or names other coins only), the balance
    is 0 and nothing is reported, whatever the other accounts hold. *)
Theorem no_usdt_entry_reads_zero_silently :
  ∀ (key secret : string) (fos : string → option float)
    (tg : Market.telegram) (ex : Market.exchange) (t : Z)
    (data result account : Market.json) (others coins : list Market.json),
    to_int (fmul (Market.balance_time ex) (of_Z 1000)) = Some t →
    Market.requests_get_wallet ex (Market.balance_params key secret (pretty t))
      = Some (Some data) →
    Market.py_item "result" data = inr result →
    Market.py_item "list" result = inr (Market.JArray (account :: others)) →
    Market.py_get "coin" (Market.JArray []) account
      = inr (Market.JArray coins) →
    forallb Market.names_other_coin coins = true →
    Market.get_wallet_balance key secret fos tg ex
    = (of_Z 0, [Market.RequestsGet Market.balance_url
                  (Market.balance_params key secret (pretty t))]).
Proof.
  intros key secret fos tg ex t data result account others coins
    Ht Hg E1 E2 E3 Hc.
  rewrite (get_wallet_balance_run key secret fos tg ex t data Ht Hg).
  cbv zeta.
  rewrite (read_balance_first_account fos _ _ _ _ _ coins E1 E2 E3 eq_refl).
  by rewrite (scan_coins_others fos _ _ Hc).
Qed.

Lemma no_usdt_entry_reads_zero_silently_witness :
  Market.get_wallet_balance "key" "secret" sample_float_of_str sample_telegram
    (sample_exchange sample_second_account None)
  = (of_Z 0, [Market.RequestsGet Market.balance_url
                (Market.balance_params "key" "secret" (pretty 1700000000250))]).
Proof.
  apply (no_usdt_entry_reads_zero_silently "key" "secret" sample_float_of_str
           sample_telegram (sample_exchange sample_second_account None)
           1700000000250 sample_second_account
           (Market.JObject [("list", Market.JArray sample_accounts)])
           (Market.JObject [("accountType", Market.JString "UNIFIED")])
           [sample_usdt_account] []).
  - vm_compute. reflexivity.
  - reflexivity.
  - reflexivity.
  - reflexivity.
  - reflexivity.
  - reflexivity.
Defined.

(** X17: an entry without a readable [coin] field that comes before the
    USDT entry makes the whole fetch fail: the balance is 0 and the
    failure is reported, although the answer holds a USDT balance. *)
Theorem malformed_entry_hides_usdt :
  ∀ (key secret : string) (fos : string → option float)
    (tg : Market.telegram) (ex : Market.exchange) (t : Z)
    (data result account bad : Market.json)
    (others pre post : list Market.json) (e : Market.error),
    to_int (fmul (Market.balance_time ex) (of_Z 1000)) = Some t →
    Market.requests_get_wallet ex (Market.balance_params key secret (pretty t))
      = Some (Some data) →
    Market.py_item "result" data = inr result →
    Market.py_item "list" result = inr (Market.JArray (account :: others)) →
    Market.py_item "coin" account
      = inr (Market.JArray (pre ++ bad :: post)) →
    forallb Market.names_other_coin pre = true →
    Market.py_item "coin" bad = inl e →
    Market.get_wallet_balance key secret fos tg ex
    = (of_Z 0,
       [Market.RequestsGet Market.balance_url
          (Market.balance_params key secret (pretty t))]
       ++ Market.send_telegram tg (Market.BalanceFetchFailed e)).
Proof.
  intros key secret fos tg ex t data result account bad others pre post e
    Ht Hg E1 E2 E3 Hpre Hbad.
  rewrite (get_wallet_balance_run key secret fos tg ex t data Ht Hg).
  cbv zeta.
  rewrite (read_balance_first_account fos _ _ _ _ _ (pre ++ bad :: post)
             E1 E2 (py_item_get _ _ _ _ E3) eq_refl).
  by rewrite (scan_coins_fails fos _ _ _ _ _ Hpre Hbad).
Qed.

Lemma malformed_entry_hides_usdt_witness :
  Market.get_wallet_balance "key" "secret" sample_float_of_str sample_telegram
    (sample_exchange sample_malformed None)
  = (of_Z 0,
     [Market.RequestsGet Market.balance_url
        (Market.balance_params "key" "secret" (pretty 1700000000250))]
     ++ Market.send_telegram sample_telegram
          (Market.BalanceFetchFailed Market.KeyError)).
Proof.
  apply (malformed_entry_hides_usdt "key" "secret" sample_float_of_str
           sample_telegram (sample_exchange sample_malformed None)
           1700000000250 sample_malformed
           (Market.JObject
              [("list",
                Market.JArray
                  [Market.JObject
                     [("coin",
                       Market.JArray
                         [Market.JObject [("equity", Market.JString "1")];
                          sample_usdt_entry])]])])
           (Market.JObject
              [("coin",
                Market.JArray
                  [Market.JObject [("equity", Market.JString "1")];
                   sample_usdt_entry])])
           (Market.JObject [("equity", Market.JString "1")])
           [] [] [sample_usdt_entry] Market.KeyError).
  - vm_compute. reflexivity.
  - reflexivity.
  - reflexivity.
  - reflexivity.
  - reflexivity.
  - reflexivity.
  - reflexivity.
Defined.

(** X18: the balance request carries [apiKey], [timestamp] and
    [accountType] in the order the code sets them, followed by [sign], and
    [sign] is the HMAC-SHA256, under the API secret, of the text
    accountType=UNIFIED&apiKey=..&timestamp=.. *)
Theorem balance_request_signed_text :
  ∀ (key secret timestamp : string),
    Market.balance_params key secret timestamp
    = [ ("apiKey", key); ("timestamp", timestamp);
        ("accountType", "UNIFIED");
        ("sign",
         hmac_sha256_hexdigest secret
           ("accountType=UNIFIED&apiKey=" +:+ key +:+ "&timestamp="
            +:+ timestamp)) ].
Proof.
  intros key secret timestamp.
  unfold Market.balance_params. cbv zeta.
  rewrite dict_set_fresh.
  2:{ cbn. repeat (apply not_elem_of_cons; split; [discriminate|]).
      apply not_elem_of_nil. }
  unfold generate_signature. cbv zeta. rewrite sorted_balance_items.
  reflexivity.
Qed.

(** X19: [get_current_price] returns a price exactly when the ticker
    answer decodes and its first ticker has a [lastPrice] that reads as a
    float; the price is that float, and then the one GET is the only
    traffic.  Every other case returns [None]. *)
Theorem price_is_first_ticker_last_price :
  ∀ (fos : string → option float) (tg : Market.telegram)
    (ex : Market.exchange) (p : float),
    (Market.get_current_price fos tg ex).1 = Some p
    ↔ ∃ data, Market.requests_get_ticker ex = Some (Some data)
              ∧ Market.last_price fos data p
              ∧ (Market.get_current_price fos tg ex).2
                = [Market.RequestsGet Market.ticker_url []].
Proof.
  intros fos tg ex p. split.
  - intros H. destruct (get_current_price_some fos tg ex p H) as (data & Hg & Hl).
    exists data. split; [exact Hg|]. split; [exact Hl|].
    apply (read_price_inr fos) in Hl.
    unfold Market.get_current_price, Market.fetch_price. cbv zeta.
    by rewrite Hg, Hl.
  - intros (data & Hg & Hl & _). apply (read_price_inr fos) in Hl.
    unfold Market.get_current_price, Market.fetch_price. cbv zeta.
    by rewrite Hg, Hl.
Qed.

(** X20: with the two fetchers plugged into the handler, an order is
    posted only when the wallet answer listed a first USDT entry with a
    non-zero [availableToTrade] and the ticker answer gave a non-zero
    [lastPrice]; these two numbers are the ones the order was sized
    from. *)
Theorem order_needs_market_data :
  ∀ (key secret : string) (fstr : float → string)
    (fos : string → option float) (tg : Market.telegram)
    (ex : Market.exchange) (ext : env) (seen : gset string),
    let run := webhook key secret fstr (live_env key secret fos tg ex ext)
                 (world_of seen) in
    Forall (λ e, is_post e = false) (calls run.2)
    ∨ ∃ t wallet ticker data balance price,
        to_int (fmul (Market.balance_time ex) (of_Z 1000)) = Some t
        ∧ Market.requests_get_wallet ex
            (Market.balance_params key secret (pretty t)) = Some (Some wallet)
        ∧ Market.usdt_available fos wallet balance
        ∧ is_zero balance = false
        ∧ Market.requests_get_ticker ex = Some (Some ticker)
        ∧ Market.last_price fos ticker price
        ∧ is_zero price = false
        ∧ get_json ext = Some data
        ∧ CalculateQty (order_id_of data) balance price ∈ calls run.2.
Proof.
  intros key secret fstr fos tg ex ext seen. cbv zeta.
  handler_paths key secret fstr (live_env key secret fos tg ex ext) seen;
    try (left; cbn [world_of marked calls];
         repeat (apply Forall_cons; split; [reflexivity|]);
         apply Forall_nil_2).
  match goal with
  | Hb : is_zero _ = false, Hp : get_current_price _ = Some _ |- _ =>
      cbn [live_env get_wallet_balance get_current_price] in Hb, Hp;
      destruct (get_wallet_balance_nonzero key secret fos tg ex Hb)
        as (tb & wallet & Ht & Hg & Hu & _);
      destruct (get_current_price_some fos tg ex price Hp)
        as (ticker & Hk & Hl)
  end.
  right. exists tb, wallet, ticker, data,
    (Market.get_wallet_balance key secret fos tg ex).1, price.
  destruct Hacc as (Hj & _).
  repeat (split; [assumption|]).
  cbn [marked calls live_env get_wallet_balance].
  do 2 apply list_elem_of_further. apply list_elem_of_here.
Qed.

(** ** The shared set over a sequence of requests *)

(** X21: the set of recorded keys only grows: serving any sequence of
    requests drops no key, and every key that appears is the key of one
    of the requests served (its resolved identifier and the second it was
    read at).  Nothing ever clears the set. *)
Theorem recorded_keys_are_never_dropped :
  ∀ (key secret : string) (fstr : float → string) (requests : list env)
    (seen : gset string),
    seen ⊆ set_after key secret fstr requests seen
    ∧ ∀ k, k ∈ set_after key secret fstr requests seen →
           k ∈ seen
           ∨ ∃ ext data t,
               ext ∈ requests ∧ get_json ext = Some data
               ∧ to_int (time_time ext) = Some t
               ∧ k = candle_key (order_id_of data) t.
Proof.
  intros key secret fstr requests.
  induction requests as [|ext rest IH]; intros seen; cbn [set_after].
  { split; [reflexivity|]. intros k Hk. by left. }
  pose proof (webhook_marks key secret fstr ext seen) as Hm. cbv zeta in Hm.
  destruct (webhook key secret fstr ext (world_of seen)) as [r w].
  cbn [snd] in Hm. destruct (IH (executed_signals w)) as [Hsub Hnew].
  assert (seen ⊆ executed_signals w) as Hgrow.
  { destruct Hm as [[_ ->]|(data & t & rest' & _ & -> & _)];
      [reflexivity | apply union_subseteq_r]. }
  split; [by etrans|].
  intros k Hk. destruct (Hnew k Hk) as [Hw|(ext' & data & t & Hin & H)].
  - destruct Hm as [[_ Hset]|(data & t & rest' & Hacc & Hset & _)];
      rewrite Hset in Hw; [by left|].
    apply elem_of_union in Hw as [Hw|Hw]; [|by left].
    apply elem_of_singleton in Hw. right. exists ext, data, t.
    destruct Hacc as (Hj & _ & _ & Ht & _).
    split; [apply list_elem_of_here|]. by repeat split.
  - right. exists ext', data, t. split; [by apply list_elem_of_further|exact H].
Qed.

(** ** Rounding to three decimals is stable *)

Section Nearest.

Lemma RN64_unfold neg n d : RN64 neg n d = pack neg (round_core n d).
Proof. reflexivity. Qed.

(** The rounded quotient is within half a unit of the exact one, and even
    at a tie. *)
Lemma rne_div_half n d :
  0 < d →
  2 * Z.abs (rne_div n d * d - n) ≤ d
  ∧ (2 * Z.abs (rne_div n d * d - n) = d → Z.even (rne_div n d) = true).
Proof.
  intros Hd.
  pose proof (Z.div_mod n d ltac:(lia)) as E.
  pose proof (Z.mod_pos_bound n d Hd) as B.
  unfold rne_div.
  destruct (Z.compare_spec (2 * (n mod d)) d) as [H|H|H].
  - destruct (Z.even (n / d)) eqn:Ev.
    + split; [nia | by intros _].
    + split; [nia|]. intros _.
      replace (n / d + 1) with (Z.succ (n / d)) by lia.
      rewrite Z.even_succ, <- Z.negb_even, Ev. reflexivity.
  - split; [nia | intros F; exfalso; nia].
  - split; [nia | intros F; exfalso; nia].
Qed.

(** ... and it is the only integer that close. *)
Lemma rne_div_unique n d k :
  0 < d →
  2 * Z.abs (k * d - n) ≤ d →
  (2 * Z.abs (k * d - n) = d → Z.even k = true) →
  rne_div n d = k.
Proof.
  intros Hd Hk Hev.
  pose proof (Z.div_mod n d ltac:(lia)) as E.
  pose proof (Z.mod_pos_bound n d Hd) as B.
  assert (k = n / d ∨ k = n / d + 1) as Hcase by nia.
  unfold rne_div.
  destruct (Z.compare_spec (2 * (n mod d)) d) as [H|H|H].
  - destruct Hcase as [->| ->].
    + rewrite Hev by nia. reflexivity.
    + assert (Z.even (n / d + 1) = true) as Ev by (apply Hev; nia).
      replace (n / d + 1) with (Z.succ (n / d)) in Ev by lia.
      rewrite Z.even_succ, <- Z.negb_even in Ev.
      apply negb_true_iff in Ev. by rewrite Ev.
  - destruct Hcase as [->| ->]; [reflexivity | exfalso; nia].
  - destruct Hcase as [->| ->]; [exfalso; nia | reflexivity].
Qed.

Lemma rne_div_nearest n d j :
  0 < d → Z.abs (rne_div n d * d - n) ≤ Z.abs (j * d - n).
Proof.
  intros Hd. destruct (rne_div_half n d Hd) as [Hh _].
  destruct (Z_le_gt_dec (Z.abs (rne_div n d * d - n)) (Z.abs (j * d - n)))
    as [|Hgt]; [assumption|].
  exfalso.
  assert (rne_div n d = j) as E by (apply rne_div_unique; lia).
  rewrite E in Hgt. lia.
Qed.

(** Rounding to 53 bits returns a representable number nearest to the
    exact value: no number [j * 2^sx] with [j < 2^53] is nearer. *)
Lemma round_core_nearest n d j sx :
  0 ≤ n → 0 < d → 0 ≤ sx → 0 ≤ j < 2 ^ 53 →
  Z.abs (units (round_core n d) * d - n) ≤ Z.abs (j * 2 ^ sx * d - n).
Proof.
  intros Hn Hd Hsx Hj. unfold round_core, units. cbn [fst snd].
  set (t := n / d). set (s := Z.max (Z.log2 t - 52) 0).
  assert (0 ≤ t) as Ht by (apply Z.div_pos; lia).
  assert (0 ≤ s) as Hs by lia.
  assert (0 < 2 ^ s) as Hp by (apply Z.pow_pos_nonneg; lia).
  assert (0 < 2 ^ sx) as Hpx by (apply Z.pow_pos_nonneg; lia).
  assert (0 < d * 2 ^ s) as Hds by nia.
  replace (rne_div n (d * 2 ^ s) * 2 ^ s * d)
    with (rne_div n (d * 2 ^ s) * (d * 2 ^ s)) by ring.
  destruct (Z_le_gt_dec s sx) as [Hle|Hgt].
  - replace (j * 2 ^ sx * d) with (j * 2 ^ (sx - s) * (d * 2 ^ s)).
    + by apply rne_div_nearest.
    + replace sx with ((sx - s) + s) at 2 by lia.
      rewrite Z.pow_add_r by lia. ring.
  - assert (0 < t) as Hpos.
    { destruct (Z.eq_dec t 0) as [E|]; [|lia].
      subst s. rewrite E in Hgt. simpl in Hgt. lia. }
    destruct (Z.log2_spec t Hpos) as [Hlo _].
    assert (Z.log2 t = 52 + s) as El by lia.
    rewrite El, Z.pow_add_r in Hlo by lia.
    assert (2 ^ 52 * 2 ^ s * d ≤ n) as Hbig.
    { pose proof (Z.mul_div_le n d Hd). fold t in H. nia. }
    assert (2 ^ sx * 2 ≤ 2 ^ s) as Hpow.
    { rewrite <- (Z.pow_1_r 2) at 2. rewrite <- Z.pow_add_r by lia.
      apply Z.pow_le_mono_r; lia. }
    assert (j * 2 ^ sx ≤ 2 ^ 52 * 2 ^ s) as Hsmall.
    { change (2 ^ 53) with (2 ^ 52 * 2) in Hj. nia. }
    pose proof (rne_div_nearest n (d * 2 ^ s) (2 ^ 52) Hds) as Hnear.
    assert (j * 2 ^ sx * d ≤ 2 ^ 52 * 2 ^ s * d) as Hsd
      by (apply Z.mul_le_mono_nonneg_r; lia).
    lia.
Qed.

(** The numbers that rounding produces are binary64 numbers. *)
Lemma RN64_binary64 neg n d :
  0 ≤ n → 0 < d → is_binary64 (RN64 neg n d) = true.
Proof.
  intros Hn Hd. rewrite RN64_unfold.
  destruct (pack_spec neg (round_core n d) (round_core_format n d Hn Hd))
    as [[_ ->]|[[_ ->]|(p & s & -> & Hs & _ & Hp & _)]]; try reflexivity.
  unfold is_binary64.
  apply andb_true_iff. split; [apply andb_true_iff; split|]; lia.
Qed.

Lemma fdiv_binary64 x y q : fdiv x y = Some q → is_binary64 q = true.
Proof.
  destruct x as [|sx|sx|sx mx ex], y as [|sy|sy|sy my ey]; cbn;
    try discriminate; try (by intros [= <-]).
  pose proof (ratio_pos mx ex) as [? ?]. pose proof (ratio_pos my ey) as [? ?].
  destruct (ratio mx ex) as [nx dx], (ratio my ey) as [ny dy].
  cbn [fst snd] in *. intros [= <-].
  apply RN64_binary64; [|nia].
  assert (0 < 2 ^ 1074) by (apply Z.pow_pos_nonneg; lia). nia.
Qed.

(** A number of thousandths that came from rounding a binary64 number
    is read back to a number that rounds to the same thousandths. *)
Lemma round3_fixed neg k j sx :
  0 ≤ sx → 0 ≤ j < 2 ^ 53 →
  rne_div (j * 2 ^ sx * 1000) (1 * 2 ^ 1074) = k →
  round3 (RN64 neg (k * 2 ^ 1074) 1000) = RN64 neg (k * 2 ^ 1074) 1000.
Proof.
  intros Hsx Hj Hk.
  assert (0 < 2 ^ 1074) as Hu by (apply Z.pow_pos_nonneg; lia).
  assert (0 < 2 ^ sx) as Hpx by (apply Z.pow_pos_nonneg; lia).
  assert (0 ≤ k) as Hk0.
  { subst k. apply rne_div_nonneg; nia. }
  assert (0 ≤ k * 2 ^ 1074) as Hn by nia.
  pose proof (round_core_nearest (k * 2 ^ 1074) 1000 j sx Hn ltac:(lia) Hsx Hj)
    as Hnear.
  destruct (rne_div_half (j * 2 ^ sx * 1000) (1 * 2 ^ 1074) ltac:(lia))
    as [Hhalf Htie].
  rewrite Hk in Hhalf, Htie.
  rewrite RN64_unfold.
  destruct (pack_spec neg (round_core (k * 2 ^ 1074) 1000)
              (round_core_format (k * 2 ^ 1074) 1000 Hn ltac:(lia)))
    as [[_ Ep]|[[_ Ep]|(p & s & Ep & Hs & Hunits & Hp & _)]];
    rewrite Ep; try reflexivity.
  unfold round3. rewrite ratio_units by lia.
  rewrite <- Hunits in Hnear.
  assert (rne_div (Z.pos p * 2 ^ s * 1000) (1 * 2 ^ 1074) = k) as ->.
  { apply rne_div_unique; [lia|lia|]. intros Heq. apply Htie. lia. }
  rewrite RN64_unfold. exact Ep.
Qed.

Lemma round3_idempotent x :
  is_binary64 x = true → round3 (round3 x) = round3 x.
Proof.
  destruct x as [| | |neg m e]; try reflexivity.
  unfold is_binary64. intros H.
  apply andb_true_iff in H as [H He2]. apply andb_true_iff in H as [Hm He1].
  apply Z.ltb_lt in Hm. apply Z.leb_le in He1, He2.
  unfold round3 at 2 3.
  replace e with ((e + 1074) - 1074) by lia.
  rewrite ratio_units by lia.
  by apply (round3_fixed neg _ (Z.pos m) (e + 1074)); [lia|lia|].
Qed.

End Nearest.

(** X22: the quantity that sizing returns has three decimals as exactly
    as binary64 allows: rounding it to three decimals once more returns
    the very same number, for every order identifier, balance and
    price. *)
Theorem quantity_is_stable_under_rounding :
  ∀ (order_id : string) (balance price : float),
    round3 <$> calculate_qty order_id balance price
    = calculate_qty order_id balance price.
Proof.
  intros order_id balance price.
  unfold calculate_qty, qty_of_weight. cbv zeta.
  destruct (fdiv _ _) as [a|] eqn:E; [|reflexivity].
  cbn [fmap option_fmap option_map]. f_equal.
  apply round3_idempotent. exact (fdiv_binary64 _ _ _ E).
Qed.

(** ** Sizing is odd in the balance *)

Section Signs.

Lemma pack_fneg neg ms : pack (negb neg) ms = fneg (pack neg ms).
Proof.
  unfold pack. destruct (renorm ms) as [[|p|p] s]; try reflexivity.
  by destruct (s <=? 2045).
Qed.

Lemma RN64_fneg neg n d : RN64 (negb neg) n d = fneg (RN64 neg n d).
Proof. exact (pack_fneg neg (round_core n d)). Qed.

Lemma fmul_fneg_l x y : fmul (fneg x) y = fneg (fmul x y).
Proof.
  destruct x as [|sx|sx|sx mx ex], y as [|sy|sy|sy my ey];
    cbn [fmul fneg]; try reflexivity;
    try (destruct (ratio mx ex), (ratio my ey));
    destruct sx, sy;
    first [ reflexivity
          | exact (RN64_fneg true _ _) | exact (RN64_fneg false _ _) ].
Qed.

Lemma fdiv_fneg_l x y : fdiv (fneg x) y = fneg <$> fdiv x y.
Proof.
  destruct x as [|sx|sx|sx mx ex], y as [|sy|sy|sy my ey];
    cbn [fdiv fneg fmap option_fmap option_map]; try reflexivity;
    try (destruct (ratio mx ex), (ratio my ey));
    cbn [fmap option_fmap option_map fneg];
    destruct sx, sy;
    first [ reflexivity
          | exact (f_equal Some (RN64_fneg true _ _))
          | exact (f_equal Some (RN64_fneg false _ _)) ].
Qed.

Lemma round3_fneg x : round3 (fneg x) = fneg (round3 x).
Proof.
  destruct x as [|s|s|s m e]; try reflexivity.
  cbn [fneg round3]. destruct (ratio m e). apply RN64_fneg.
Qed.

End Signs.

(** X23: sizing is odd in the balance and nothing clamps it: for a
    negated balance [calculate_qty] returns exactly the negated quantity
    (and raises when it raised), so the quantity for a negative available
    balance is the negated quantity of the positive one. *)
Theorem negated_balance_negates_quantity :
  ∀ (order_id : string) (balance price : float),
    calculate_qty order_id (fneg balance) price
    = fneg <$> calculate_qty order_id balance price.
Proof.
  intros order_id balance price.
  unfold calculate_qty, qty_of_weight. cbv zeta.
  rewrite !fmul_fneg_l, fdiv_fneg_l.
  destruct (fdiv _ _) as [a|]; [|reflexivity].
  cbn [fmap option_fmap option_map]. by rewrite round3_fneg.
Qed.

(** ** The handler on the decoded body *)

Section BodyFacts.

Variables key secret : string.
Variable fstr : float → string.
Variable vstr : Market.json → string.

Lemma weight_for_run order_id w :
  weight_for order_id w =
  match order_id with
  | Market.JString s => (Value (weight_of s), w)
  | Market.JArray _ | Market.JObject _ => (Raise TypeError, w)
  | _ => (Value (of_Z 0), w)
  end.
Proof. by destruct order_id. Qed.

(** What the handler does with a decoded body, case by case. *)
Lemma webhook_json_run body ext s :
  webhook_json key secret fstr vstr body ext (world_of s) =
  match body with
  | None => (Return {| status_code := 400; body := JError "Invalid JSON" |},
             world_of s)
  | Some data =>
      match alert_fields data with
      | None => (Raise AttributeError, world_of s)
      | Some (signal, order_action, raw_order_id) =>
          let id := resolve_order_value signal raw_order_id in
          let text := format_value vstr id in
          if PyStr.is_empty order_action || negb (truthy id) then
            (Return {| status_code := 400;
                       body := JError "Invalid webhook data" |},
             world_of s)
          else
            match to_int (time_time ext) with
            | None =>
                (Raise (if is_nan (time_time ext) then ValueError
                        else OverflowError), world_of s)
            | Some t =>
                if decide (candle_key text t ∈ s) then
                  (Return {| status_code := 200;
                             body := JStatus
                                       (text +:+ " skipped (duplicate second)") |},
                   world_of s)
                else
                  let w := world_of ({[candle_key text t]} ∪ s) in
                  let balance := get_wallet_balance ext in
                  if is_zero balance then
                    (Return {| status_code := 500;
                               body := JError
                                         "Insufficient balance or failed to fetch" |},
                     log w [GetWalletBalance])
                  else
                    match get_current_price ext with
                    | None =>
                        (Return {| status_code := 500;
                                   body := JError "Price fetch failed" |},
                         log w [GetWalletBalance; GetCurrentPrice])
                    | Some price =>
                        if is_zero price then
                          (Return {| status_code := 500;
                                     body := JError "Price fetch failed" |},
                           log w [GetWalletBalance; GetCurrentPrice])
                        else
                          let w' := log w [GetWalletBalance; GetCurrentPrice;
                                           CalculateQty text balance price] in
                          match weight_for id w' with
                          | (Value weight, _) =>
                              match qty_of_weight weight balance price with
                              | None => (Raise ZeroDivisionError, w')
                              | Some qty =>
                                  submit key secret fstr ext
                                    (side_of order_action) qty w'
                              end
                          | (Return r, _) => (Return r, w')
                          | (Raise e, _) => (Raise e, w')
                          end
                    end
            end
      end
  end.
Proof.
  unfold webhook_json.
  destruct body as [data|]; [|reflexivity].
  destruct (alert_fields data) as [[[signal order_action] raw_order_id]|];
    [|reflexivity].
  cbn zeta.
  destruct (_ || _); [reflexivity|].
  unfold mbind, M_bind. rewrite int_of_run.
  destruct (to_int (time_time ext)) as [t|]; [|reflexivity].
  unfold dedup, check_and_mark. cbn.
  destruct (decide _); [reflexivity|]. cbn.
  destruct (is_zero (get_wallet_balance ext)); [reflexivity|]. cbn.
  destruct (get_current_price ext) as [price|]; [|reflexivity].
  destruct (is_zero price); [reflexivity|]. cbn.
  rewrite !weight_for_run.
  destruct (resolve_order_value signal raw_order_id); try reflexivity;
    destruct (qty_of_weight _ _ _); reflexivity.
Qed.

Lemma resolve_order_value_text signal raw :
  resolve_order_value signal (Market.JString raw)
  = Market.JString (resolve_order_id signal raw).
Proof.
  unfold resolve_order_value, resolve_order_id.
  by repeat destruct (PyStr.contains _ _).
Qed.

Lemma alert_of_fields data a :
  alert_of data = Some a →
  alert_fields data
  = Some (PyStr.upper (get_or_empty (alert_signal a)),
          order_action_of a,
          Market.JString (get_or_empty (alert_order_id a))).
Proof.
  destruct data as [| | | | | |fields]; try discriminate.
  unfold alert_of, alert_fields, text_field, Market.py_get.
  destruct (Market.lookup_field "signal" fields) as [[| | | |s| |]|];
    try discriminate;
    destruct (Market.lookup_field "order_action" fields) as [[| | | |o| |]|];
    try discriminate;
    destruct (Market.lookup_field "order_id" fields) as [[| | | |i| |]|];
    try discriminate; by intros [= <-].
Qed.

(** On a body whose three fields are strings or absent the two handlers
    agree. *)
Lemma webhook_json_typed data a ext s :
  alert_of data = Some a →
  webhook_json key secret fstr vstr (Some data) ext (world_of s)
  = webhook key secret fstr (with_json (Some a) ext) (world_of s).
Proof.
  intros Ha. rewrite webhook_json_run, webhook_run.
  rewrite (alert_of_fields data a Ha).
  cbn [with_json get_json time_time get_wallet_balance get_current_price].
  cbv zeta. rewrite resolve_order_value_text.
  change (resolve_order_id (PyStr.upper (get_or_empty (alert_signal a)))
            (get_or_empty (alert_order_id a))) with (order_id_of a).
  cbn [truthy format_value]. rewrite negb_involutive.
  destruct (_ || _); [reflexivity|].
  destruct (to_int (time_time ext)) as [t|]; [|reflexivity].
  destruct (decide _); [reflexivity|].
  destruct (is_zero (get_wallet_balance ext)); [reflexivity|].
  destruct (get_current_price ext) as [price|]; [|reflexivity].
  destruct (is_zero price); [reflexivity|].
  rewrite weight_for_run. unfold calculate_qty. cbv zeta.
  destruct (qty_of_weight _ _ _) as [qty|]; [|reflexivity].
  rewrite !submit_run. reflexivity.
Qed.

End BodyFacts.

(** X1: a 400 reply is given exactly when the body is not JSON, or its
    [signal] and [order_action] can be read (the body is an object and the
    two are strings or absent) and the lower-cased action is empty or the
    resolved identifier is false ([""], [null], [false], 0, an empty list
    or object); such a request leaves no trace: no call is made and no key
    is recorded.  A body whose fields cannot be read gets no reply at all:
    [AttributeError] escapes, likewise without a trace. *)
Theorem bad_request_is_inert :
  ∀ (key secret : string) (fstr : float → string)
    (vstr : Market.json → string) (body : option Market.json) (ext : env)
    (seen : gset string),
    let run := webhook_json key secret fstr vstr body ext (world_of seen) in
    ((∃ b, run.1 = Return {| status_code := 400; body := b |}) ↔
     (body = None ∨
      ∃ data signal order_action raw_order_id,
        body = Some data
        ∧ alert_fields data = Some (signal, order_action, raw_order_id)
        ∧ (order_action = ""
           ∨ truthy (resolve_order_value signal raw_order_id) = false)))
    ∧ ((∃ b, run.1 = Return {| status_code := 400; body := b |}) →
       run.2 = world_of seen)
    ∧ (∀ data, body = Some data → alert_fields data = None →
               run = (Raise AttributeError, world_of seen)).
Proof.
  intros key secret fstr vstr body ext seen. cbv zeta.
  rewrite webhook_json_run.
  destruct body as [data|].
  2:{ split; [split; [by left | by eexists]|].
      split; [reflexivity | by intros ? [=]]. }
  destruct (alert_fields data) as [[[signal order_action] raw_order_id]|]
    eqn:Ef.
  2:{ split; [split|split].
      - intros [b [=]].
      - intros [[=]|(d & sg & oa & ro & [= <-] & Hf & _)]. congruence.
      - intros [b [=]].
      - reflexivity. }
  cbv zeta.
  destruct (PyStr.is_empty order_action
            || negb (truthy (resolve_order_value signal raw_order_id)))
    eqn:Ev.
  { split; [split|split].
    - intros _. right. exists data, signal, order_action, raw_order_id.
      split; [reflexivity|]. split; [exact Ef|].
      apply orb_true_iff in Ev as [Ev|Ev].
      + left. by apply str_is_empty_true.
      + right. by apply negb_true_iff.
    - intros _. by eexists.
    - reflexivity.
    - intros d [= <-] Hn. congruence. }
  assert (¬ (order_action = ""
             ∨ truthy (resolve_order_value signal raw_order_id) = false))
    as Hfull.
  { apply orb_false_iff in Ev as [Ea Et]. apply negb_false_iff in Et.
    intros [->|F]; [discriminate Ea | congruence]. }
  assert (∀ (r : result response) (w : world),
            (∀ b, r ≠ Return {| status_code := 400; body := b |}) →
            ((∃ b, (r, w).1 = Return {| status_code := 400; body := b |}) ↔
             (Some data = None ∨
              ∃ d sg oa ro,
                Some data = Some d ∧ alert_fields d = Some (sg, oa, ro)
                ∧ (oa = "" ∨ truthy (resolve_order_value sg ro) = false)))
            ∧ ((∃ b, (r, w).1 = Return {| status_code := 400; body := b |}) →
               (r, w).2 = world_of seen)
            ∧ (∀ d, Some data = Some d → alert_fields d = None →
                    (r, w) = (Raise AttributeError, world_of seen))) as Hno.
  { intros r w Hr. split; [split|split].
    - intros [b Hb]. by destruct (Hr b).
    - intros [[=]|(d & sg & oa & ro & [= <-] & Hf & Hor)].
      rewrite Ef in Hf. injection Hf as <- <- <-. by destruct Hfull.
    - intros [b Hb]. by destruct (Hr b).
    - intros d [= <-] Hn. congruence. }
  destruct (to_int (time_time ext)) as [t|]; [|by apply Hno].
  destruct (decide _); [by apply Hno|].
  destruct (is_zero (get_wallet_balance ext)); [by apply Hno|].
  destruct (get_current_price ext) as [price|]; [|by apply Hno].
  destruct (is_zero price); [by apply Hno|].
  rewrite weight_for_run.
  destruct (resolve_order_value signal raw_order_id);
    try (by apply Hno);
    (destruct (qty_of_weight _ _ _) as [qty|]; [|by apply Hno]);
    rewrite submit_run; cbv zeta;
    (destruct (to_int (fmul _ _)) as [t'|]; [|by apply Hno]);
    destruct (requests_post ext _) as [[json|]|]; by apply Hno.
Qed.

(** X5: the handler's own replies carry status 200, 400 or 500, and an
    exception escapes it in four cases only: [AttributeError] when the
    fields of the body cannot be read, and [ValueError] or [OverflowError]
    when the clock reading is not a finite number, both before anything
    was done; [TypeError] when the resolved identifier is a list or an
    object, after the key was recorded and balance and price were fetched;
    and a division by zero, which takes a price that is not a binary64
    number. *)
Theorem handler_replies_or_escapes :
  ∀ (key secret : string) (fstr : float → string)
    (vstr : Market.json → string) (body : option Market.json) (ext : env)
    (seen : gset string),
    let run := webhook_json key secret fstr vstr body ext (world_of seen) in
    match run.1 with
    | Return reply =>
        status_code reply = 200 ∨ status_code reply = 400
        ∨ status_code reply = 500
    | Raise e =>
        (e = AttributeError ∧ run.2 = world_of seen
         ∧ ∃ data, body = Some data ∧ alert_fields data = None)
        ∨ (e = (if is_nan (time_time ext) then ValueError else OverflowError)
           ∧ run.2 = world_of seen ∧ to_int (time_time ext) = None)
        ∨ (e = TypeError
           ∧ ∃ data signal order_action raw_order_id t price,
               body = Some data
               ∧ alert_fields data = Some (signal, order_action, raw_order_id)
               ∧ ((∃ items, resolve_order_value signal raw_order_id
                            = Market.JArray items)
                  ∨ (∃ fields, resolve_order_value signal raw_order_id
                               = Market.JObject fields))
               ∧ executed_signals run.2
                 = {[candle_key
                       (vstr (resolve_order_value signal raw_order_id)) t]}
                   ∪ seen
               ∧ calls run.2
                 = [GetWalletBalance; GetCurrentPrice;
                    CalculateQty
                      (vstr (resolve_order_value signal raw_order_id))
                      (get_wallet_balance ext) price])
        ∨ (e = ZeroDivisionError
           ∧ ∃ price, get_current_price ext = Some price
                      ∧ is_binary64 price = false)
    | Value _ => False
    end.
Proof.
  intros key secret fstr vstr body ext seen. cbv zeta.
  rewrite webhook_json_run.
  destruct body as [data|]; [|cbn; auto].
  destruct (alert_fields data) as [[[signal order_action] raw_order_id]|]
    eqn:Ef.
  2:{ cbn. left. split; [reflexivity|]. split; [reflexivity|]. by exists data. }
  cbv zeta.
  destruct (_ || _); [cbn; auto|].
  destruct (to_int (time_time ext)) as [t|] eqn:Et.
  2:{ cbn. right. left. by repeat split. }
  destruct (decide _); [cbn; auto|].
  destruct (is_zero (get_wallet_balance ext)); [cbn; auto|].
  destruct (get_current_price ext) as [price|] eqn:Ep; [|cbn; auto].
  destruct (is_zero price) eqn:Ez; [cbn; auto|].
  assert (∀ weight qty side w,
            qty_of_weight weight (get_wallet_balance ext) price = Some qty →
            match (submit key secret fstr ext side qty w).1 with
            | Return reply =>
                status_code reply = 200 ∨ status_code reply = 400
                ∨ status_code reply = 500
            | _ => False
            end) as Hsub.
  { intros weight qty side w _. rewrite submit_run. cbv zeta.
    destruct (to_int (fmul _ _)); [|cbn; auto].
    destruct (requests_post ext _) as [[json|]|]; cbn; auto. }
  assert (∀ weight,
            qty_of_weight weight (get_wallet_balance ext) price = None →
            is_binary64 price = false) as Hzero.
  { intros weight Q. destruct (is_binary64 price) eqn:E64; [|reflexivity].
    destruct (qty_of_weight_returns weight (get_wallet_balance ext) price
                E64 Ez) as (a & _ & Q').
    congruence. }
  rewrite weight_for_run.
  destruct (resolve_order_value signal raw_order_id) as [| | | |s|items|fields]
    eqn:Eid.
  6,7: cbn [fst snd log world_of executed_signals calls app format_value];
       right; right; left; split; [reflexivity|];
       exists data, signal, order_action, raw_order_id, t, price;
       rewrite Eid; split; [reflexivity|]; split; [exact Ef|];
       (split; [eauto|]); split; reflexivity.
  all: destruct (qty_of_weight _ _ _) as [qty|] eqn:Q;
         [ match goal with
           | |- context [submit ?k ?s ?f ?e ?sd ?q ?w] =>
               pose proof (Hsub _ q sd w Q) as Hs;
               destruct (submit k s f e sd q w) as [[v|reply|e'] w']
           end;
           cbn [fst] in *; done
         | cbn [fst]; right; right; right; split; [reflexivity|];
           exists price; split; [reflexivity | exact (Hzero _ Q)] ].
Qed.
